(** * Registration lifecycle, expiry classification and notification engine

    A shallow embedding of the admin dashboard's TypeScript components:

    - [RegistrationsTab]   (src/components/admin/RegistrationsTab.tsx):
      approve / reject / restore, the ad-hoc expiry filter, the CSV export;
    - [NotificationBell]   (the notification widget): the pending-expiry
      fetch, its two sorted buckets and the auto-surfacing effect;
    - [CategoryTransferRequest] (src/components/CategoryTransferRequest.tsx):
      the transfer request form.

    Conventions of the embedding.

    - An instant is a [Z]: milliseconds since the Unix epoch, which is what
      [Date.prototype.getTime] returns.  A timestamp column that holds an ISO
      string is represented by the instant the string denotes.
    - A JavaScript number is a [num]: [NaN] or an integer.  Every number the
      components compute is a difference of two instants, its quotient by the
      length of a day rounded up, or a comparison of those.  For instants
      within 2^52 ms of the epoch (more than 140 000 years either way) the
      difference is exact in double precision and the rounded quotient
      cannot reach an integer it does not equal, so [Math.ceil] of the
      floating-point quotient is the ceiling of the exact quotient.
    - The hosted database is a list of rows; an answer of the backend that
      the component only receives (error or data, the user's answer to a
      [confirm] dialog, the wall clock) is an explicit argument. *)

From Stdlib Require Import ZArith List String Ascii Bool Lia.
From Stdlib Require Import Permutation Sorted DecimalString.
Import ListNotations.

Open Scope string_scope.
Open Scope Z_scope.

(** ** JavaScript values used by the components *)

Module Js.

(** A JavaScript number, as far as the components use them. *)
Inductive num : Type :=
| NaN
| Num (z : Z).

(** A nullable timestamp property of a fetched row: the property may be
    absent from the object ([undefined]), [null], or an ISO string
    (represented by its instant). *)
Inductive tsval : Type :=
| TsUndefined
| TsNull
| TsString (instant : Z).

(** A [Date] object: its time value is a number or NaN (Invalid Date). *)
Inductive Date : Type :=
| InvalidDate
| DateAt (ms : Z).

(** [new Date(v)].  A string is parsed; any other primitive goes through
    ToNumber: [null] becomes [+0], the epoch, and [undefined] becomes NaN. *)
Definition new_Date (v : tsval) : Date :=
  match v with
  | TsUndefined => InvalidDate
  | TsNull => DateAt 0
  | TsString t => DateAt t
  end.

Definition getTime (d : Date) : num :=
  match d with
  | InvalidDate => NaN
  | DateAt ms => Num ms
  end.

(** ToBoolean of a timestamp property: [undefined] and [null] are falsy,
    an ISO string is not empty and so truthy. *)
Definition truthy (v : tsval) : bool :=
  match v with
  | TsUndefined | TsNull => false
  | TsString _ => true
  end.

Definition sub (a b : num) : num :=
  match a, b with
  | Num x, Num y => Num (x - y)
  | _, _ => NaN
  end.

(** Relational operators: any comparison with NaN is false. *)
Definition le (a b : num) : bool :=
  match a, b with
  | Num x, Num y => x <=? y
  | _, _ => false
  end.

Definition lt (a b : num) : bool :=
  match a, b with
  | Num x, Num y => x <? y
  | _, _ => false
  end.

Definition ge (a b : num) : bool := le b a.
Definition gt (a b : num) : bool := lt b a.

(** [===] on numbers: NaN is not equal to anything. *)
Definition strict_eq (a b : num) : bool :=
  match a, b with
  | Num x, Num y => x =? y
  | _, _ => false
  end.

(** [1000 * 60 * 60 * 24]. *)
Definition MS_PER_DAY : Z := 1000 * 60 * 60 * 24.

(** The least integer not below the rational [a / b], for [b > 0]. *)
Definition ceil_quot (a b : Z) : Z := - ((- a) / b).

(** [Math.ceil(a / b)] for a positive integer constant [b]. *)
Definition Math_ceil_div (a : num) (b : Z) : num :=
  match a with
  | NaN => NaN
  | Num x => Num (ceil_quot x b)
  end.

(** [s || d] on an optional string: [undefined], [null] and the empty
    string are falsy. *)
Definition str_or (s : option string) (d : string) : string :=
  match s with
  | Some x => if String.eqb x "" then d else x
  | None => d
  end.

(** [d.setDate(d.getDate() + n)] followed by [getTime], in a zone with a
    fixed offset from UTC and inside the range of [Date]: the instant moves
    by [n] whole days.  [Zoned.setDate_plus] below is the operation in any
    zone, with the Invalid Date it gives outside that range. *)
Definition addDays (t n : Z) : Z := t + n * MS_PER_DAY.

End Js.

(** ** Rows of the hosted tables *)

(** The joined [categories (name_english, name_malayalam)] object. *)
Record CategoryNames : Type := {
  name_english : string;
  name_malayalam : string
}.

(** The joined [panchayaths (name, district)] object. *)
Record PanchayathNames : Type := {
  name : string;
  district : string
}.

(** A row of [categories] as [RegistrationsTab] loads it ([select('*')]);
    [expiry_days] is [None] when the column is null. *)
Record Category : Type := {
  cat_id : string;
  cat_name_english : string;
  cat_name_malayalam : string;
  expiry_days : option Z;
  is_active : bool
}.

(** [interface Registration] of RegistrationsTab.tsx.  [approved_date] and
    [approved_by] are [None] when null. *)
Record Registration : Type := {
  id : string;
  customer_id : string;
  full_name : string;
  mobile_number : string;
  address : string;
  ward : string;
  agent : string;
  status : string;
  fee : Z;
  created_at : Z;
  approved_date : option Z;
  approved_by : option string;
  expiry_date : Js.tsval;
  category_id : string;
  preference_category_id : option string;
  panchayath_id : option string;
  categories : option CategoryNames;
  preference_categories : option CategoryNames;
  panchayaths : option PanchayathNames
}.

(** The object passed to [.update(...)]: a column is written only when its
    key is present; a present key may carry [null]. *)
Record UpdateData : Type := {
  u_status : option string;
  u_approved_date : option (option Z);
  u_approved_by : option (option string);
  u_expiry_date : option Js.tsval
}.

Definition or_keep {A : Type} (new : option A) (old : A) : A :=
  match new with
  | Some v => v
  | None => old
  end.

(** The effect of a partial update on one row. *)
Definition apply_update (u : UpdateData) (r : Registration) : Registration :=
  {| id := id r;
     customer_id := customer_id r;
     full_name := full_name r;
     mobile_number := mobile_number r;
     address := address r;
     ward := ward r;
     agent := agent r;
     status := or_keep (u_status u) (status r);
     fee := fee r;
     created_at := created_at r;
     approved_date := or_keep (u_approved_date u) (approved_date r);
     approved_by := or_keep (u_approved_by u) (approved_by r);
     expiry_date := or_keep (u_expiry_date u) (expiry_date r);
     category_id := category_id r;
     preference_category_id := preference_category_id r;
     panchayath_id := panchayath_id r;
     categories := categories r;
     preference_categories := preference_categories r;
     panchayaths := panchayaths r |}.

(** [supabase.from('registrations').update(u).eq('id', key)]: every row whose
    [id] is [key] receives the update.  [ok] is the backend's answer; on an
    error nothing is written. *)
Definition supabase_update (ok : bool) (u : UpdateData) (key : string)
    (table : list Registration) : list Registration :=
  if ok
  then map (fun r => if String.eqb (id r) key then apply_update u r else r) table
  else table.

(** [arr.find(p)]. *)
Definition js_find {A : Type} (p : A -> bool) (l : list A) : option A :=
  List.find p l.

(** ** Text helpers shared by the components *)

Module Text.

(** The double quote character, and the line feed. *)
Definition dq : string := String (ascii_of_nat 34) EmptyString.
Definition lf : string := String (ascii_of_nat 10) EmptyString.

(** [arr.join(sep)]. *)
Fixpoint join (sep : string) (l : list string) : string :=
  match l with
  | [] => ""
  | [x] => x
  | x :: rest => x ++ sep ++ join sep rest
  end.

(** [s.toLowerCase()].  The letters A to Z are folded and every other
    byte is kept: this is the method on any text whose characters outside
    ASCII have no lower-case form of their own (digits, punctuation, the
    Malayalam script of the names); a capital letter outside ASCII, which
    the method would fold as well, is kept as it is. *)
Definition lower_ascii (c : ascii) : ascii :=
  let n := nat_of_ascii c in
  if (Nat.leb 65 n && Nat.leb n 90)%bool then ascii_of_nat (n + 32) else c.

Fixpoint toLowerCase (s : string) : string :=
  match s with
  | EmptyString => EmptyString
  | String c rest => String (lower_ascii c) (toLowerCase rest)
  end.

(** [s.includes(q)]. *)
Fixpoint includes (s q : string) : bool :=
  if String.prefix q s then true
  else match s with
       | EmptyString => false
       | String _ rest => includes rest q
       end.

Definition is_digit (c : ascii) : bool :=
  let n := nat_of_ascii c in (Nat.leb 48 n && Nat.leb n 57)%bool.

Definition is_space (c : ascii) : bool :=
  let n := nat_of_ascii c in
  (Nat.eqb n 32 || (Nat.leb 9 n && Nat.leb n 13))%bool.

Fixpoint skip_spaces (s : string) : string :=
  match s with
  | String c rest => if is_space c then skip_spaces rest else s
  | EmptyString => EmptyString
  end.

(** The value of the longest prefix of decimal digits, continuing [acc]. *)
Fixpoint digits_value (acc : Z) (s : string) : Z :=
  match s with
  | String c rest =>
      if is_digit c
      then digits_value (10 * acc + Z.of_nat (nat_of_ascii c - 48)) rest
      else acc
  | EmptyString => acc
  end.

Definition starts_with_digit (s : string) : bool :=
  match s with
  | String c _ => is_digit c
  | EmptyString => false
  end.

(** [parseInt(s)] on what a [type="number"] input can hold: leading white
    space, an optional sign, then decimal digits up to the first other
    character; NaN when no digit follows the sign. *)
Definition parseInt (s : string) : Js.num :=
  match skip_spaces s with
  | String "-"%char rest =>
      if starts_with_digit rest then Js.Num (- digits_value 0 rest) else Js.NaN
  | String "+"%char rest =>
      if starts_with_digit rest then Js.Num (digits_value 0 rest) else Js.NaN
  | rest =>
      if starts_with_digit rest then Js.Num (digits_value 0 rest) else Js.NaN
  end.

(** A non-negative integer in decimal, padded with zeros on the left to at
    least [width] characters (date-fns [addLeadingZeros]). *)
Definition decimal (n : Z) : string :=
  NilZero.string_of_uint (N.to_uint (Z.to_N n)).

Fixpoint zeros (k : nat) : string :=
  match k with
  | O => ""
  | S k' => "0" ++ zeros k'
  end.

Definition pad (width : nat) (n : Z) : string :=
  let s := decimal n in zeros (width - String.length s) ++ s.

End Text.

(** ** Calendar dates, for date-fns [format] *)

Module Calendar.

(** The proleptic Gregorian date of day number [days] (day 0 is
    1970-01-01): year, month (1..12) and day of the month (1..31). *)
Definition civil_from_days (days : Z) : Z * Z * Z :=
  let z := days + 719468 in
  let era := z / 146097 in
  let doe := z - era * 146097 in
  let yoe := (doe - doe / 1460 + doe / 36524 - doe / 146096) / 365 in
  let doy := doe - (365 * yoe + yoe / 4 - yoe / 100) in
  let mp := (5 * doy + 2) / 153 in
  let d := doy - (153 * mp + 2) / 5 + 1 in
  let m := if mp <? 10 then mp + 3 else mp - 9 in
  let y := yoe + era * 400 + (if m <=? 2 then 1 else 0) in
  (y, m, d).

(** The local calendar date of instant [t] in a zone [tz] milliseconds
    ahead of UTC. *)
Definition local_date (tz t : Z) : Z * Z * Z :=
  civil_from_days ((t + tz) / Js.MS_PER_DAY).

(** [format(date, 'dd/MM/yyyy')]. *)
Definition format_ddMMyyyy (tz t : Z) : string :=
  let '(y, m, d) := local_date tz t in
  Text.pad 2 d ++ "/" ++ Text.pad 2 m ++ "/" ++ Text.pad 4 y.

(** [format(date, 'yyyy-MM-dd')]. *)
Definition format_yyyyMMdd (tz t : Z) : string :=
  let '(y, m, d) := local_date tz t in
  Text.pad 4 y ++ "-" ++ Text.pad 2 m ++ "-" ++ Text.pad 2 d.

End Calendar.

(** ** RegistrationsTab.tsx *)

Module RegistrationsTab.

(** The component's state that the modelled functions read. *)
Record State : Type := {
  st_registrations : list Registration;
  st_categories : list Category;
  searchQuery : string;
  statusFilter : string;
  categoryFilter : string;
  panchayathFilter : string;
  expiryFilter : string
}.

(** [fetchCategories]: the active categories, as the tab keeps them. *)
Definition fetchCategories (table : list Category) : list Category :=
  filter is_active table.

(** [category?.expiry_days || 30]: a missing category, a null
    [expiry_days] and the number 0 are all falsy. *)
Definition expiryDays_of (category : option Category) : Z :=
  match category with
  | Some c =>
      match expiry_days c with
      | Some d => if d =? 0 then 30 else d
      | None => 30
      end
  | None => 30
  end.

(** The [updateData] object that [updateRegistrationStatus] builds.
    [t_stamp] is the clock read by [new Date().toISOString()] for
    [approved_date], [t_expiry] the clock read by the later [new Date()]
    from which the expiry is counted. *)
Definition build_updateData (st : State) (t_stamp t_expiry : Z)
    (key new_status : string) : UpdateData :=
  let approving := String.eqb new_status "approved" in
  let base :=
    {| u_status := Some new_status;
       u_approved_date := if approving then Some (Some t_stamp) else None;
       u_approved_by := if approving then Some (Some "eva") else None;
       u_expiry_date := None |} in
  if approving then
    match js_find (fun r => String.eqb (id r) key) (st_registrations st) with
    | Some registration =>
        if negb (Js.truthy (expiry_date registration)) then
          let category :=
            js_find (fun c => String.eqb (cat_id c) (category_id registration))
                    (st_categories st) in
          let expiryDays := expiryDays_of category in
          let expiryDate := Js.addDays t_expiry expiryDays in
          {| u_status := u_status base;
             u_approved_date := u_approved_date base;
             u_approved_by := u_approved_by base;
             u_expiry_date := Some (Js.TsString expiryDate) |}
        else base
    | None => base
    end
  else base.

(** [updateRegistrationStatus(id, status)]: the table after the call.
    [approve] and [reject] are its two uses in the row actions. *)
Definition updateRegistrationStatus (ok : bool) (st : State)
    (t_stamp t_expiry : Z) (key new_status : string)
    (table : list Registration) : list Registration :=
  supabase_update ok (build_updateData st t_stamp t_expiry key new_status)
                  key table.

Definition approve (ok : bool) (st : State) (t_stamp t_expiry : Z)
    (key : string) (table : list Registration) : list Registration :=
  updateRegistrationStatus ok st t_stamp t_expiry key "approved" table.

Definition reject (ok : bool) (st : State) (t_stamp t_expiry : Z)
    (key : string) (table : list Registration) : list Registration :=
  updateRegistrationStatus ok st t_stamp t_expiry key "rejected" table.

(** [restoreRegistration(id)]: nothing happens unless the user confirms. *)
Definition restoreRegistration (confirmed ok : bool) (key : string)
    (table : list Registration) : list Registration :=
  if confirmed then
    supabase_update ok
      {| u_status := Some "pending";
         u_approved_date := Some None;
         u_approved_by := Some None;
         u_expiry_date := None |}
      key table
  else table.

(** [Math.ceil((new Date(reg.expiry_date).getTime() - new Date().getTime())
    / (1000 * 60 * 60 * 24))]. *)
Definition daysLeft (now : Z) (reg : Registration) : Js.num :=
  Js.Math_ceil_div
    (Js.sub (Js.getTime (Js.new_Date (expiry_date reg))) (Js.Num now))
    Js.MS_PER_DAY.

(** The [matchesExpiry] conjunct of the filter. *)
Definition matchesExpiry (filterText : string) (now : Z)
    (reg : Registration) : bool :=
  if String.eqb filterText "" then true
  else if String.eqb (status reg) "approved" then false
  else
    let filterDays := Text.parseInt filterText in
    if Js.strict_eq filterDays (Js.Num 0)
    then Js.le (daysLeft now reg) (Js.Num 0)
    else (Js.le (daysLeft now reg) filterDays
          && Js.ge (daysLeft now reg) (Js.Num 0))%bool.

Definition matchesSearch (q : string) (reg : Registration) : bool :=
  (String.eqb q ""
   || Text.includes (Text.toLowerCase (full_name reg)) (Text.toLowerCase q)
   || Text.includes (mobile_number reg) q
   || Text.includes (Text.toLowerCase (customer_id reg)) (Text.toLowerCase q))%bool.

(** [x?.field === filter] for an optional joined object. *)
Definition joined_is {A : Type} (field : A -> string) (o : option A)
    (wanted : string) : bool :=
  match o with
  | Some x => String.eqb (field x) wanted
  | None => false
  end.

(** The predicate of [registrations.filter(...)]. *)
Definition matches (st : State) (now : Z) (reg : Registration) : bool :=
  (matchesSearch (searchQuery st) reg
   && (String.eqb (statusFilter st) "all"
       || String.eqb (status reg) (statusFilter st))
   && (String.eqb (categoryFilter st) "all"
       || joined_is name_english (categories reg) (categoryFilter st))
   && (String.eqb (panchayathFilter st) "all"
       || joined_is name (panchayaths reg) (panchayathFilter st))
   && matchesExpiry (expiryFilter st) now reg)%bool.

Definition filteredRegistrations (st : State) (now : Z) : list Registration :=
  filter (matches st now) (st_registrations st).

(** *** CSV export *)

Definition headers : list string :=
  ["Name"; "Mobile Number"; "Panchayath"; "Category"; "Registered Date";
   "Expiry Date"].

(** The template literal [`"${s}"`]. *)
Definition in_quotes (s : string) : string := Text.dq ++ s ++ Text.dq.

(** The six cells of one exported row, before [join(',')]. *)
Definition csv_cells (tz : Z) (reg : Registration) : list string :=
  [ in_quotes (full_name reg);
    mobile_number reg;
    in_quotes (Js.str_or (option_map name (panchayaths reg)) "N/A");
    in_quotes (Js.str_or (option_map name_english (categories reg)) "N/A");
    Calendar.format_ddMMyyyy tz (created_at reg);
    (* reg.expiry_date ? format(new Date(reg.expiry_date), ...) : 'N/A';
       a truthy expiry_date is an ISO string, so the Date is valid *)
    match expiry_date reg with
    | Js.TsString t => Calendar.format_ddMMyyyy tz t
    | Js.TsNull | Js.TsUndefined => "N/A"
    end ].

Definition csv_line (tz : Z) (reg : Registration) : string :=
  Text.join "," (csv_cells tz reg).

(** [csvData]: the header line and one line per filtered registration,
    joined by line feeds. *)
Definition csvData (tz : Z) (rows : list Registration) : string :=
  Text.join Text.lf (Text.join "," headers :: map (csv_line tz) rows).

(** [a.download]. *)
Definition download_name (tz now : Z) : string :=
  "registrations-export-" ++ Calendar.format_yyyyMMdd tz now ++ ".csv".

(** [handleExportRegistrations]: the file name and the file's text, from
    the value of [filteredRegistrations] at the click. *)
Definition handleExportRegistrations (tz now : Z)
    (filtered : list Registration) : string * string :=
  (download_name tz now, csvData tz filtered).

(** [approved_date] and [approved_by] are both null or both set. *)
Definition approval_paired (r : Registration) : Prop :=
  approved_date r = None <-> approved_by r = None.

(** [fetchRegistrations] after a write: the tab's list is the table. *)
Definition refetched (table : list Registration) (st : State) : State :=
  {| st_registrations := table;
     st_categories := st_categories st;
     searchQuery := searchQuery st;
     statusFilter := statusFilter st;
     categoryFilter := categoryFilter st;
     panchayathFilter := panchayathFilter st;
     expiryFilter := expiryFilter st |}.

(** The category the tab finds for a registration. *)
Definition category_of (st : State) (reg : Registration) : option Category :=
  js_find (fun c => String.eqb (cat_id c) (category_id reg)) (st_categories st).

(** The registration the tab finds for a key. *)
Definition cached (st : State) (key : string) : option Registration :=
  js_find (fun r => String.eqb (id r) key) (st_registrations st).

(** *** Deleting, badges, colours and the actions of a row *)

(** [supabase.from('registrations').delete().eq('id', key)]: every row
    whose [id] is [key] is removed; on an error nothing is. *)
Definition supabase_delete (ok : bool) (key : string)
    (table : list Registration) : list Registration :=
  if ok then filter (fun r => negb (String.eqb (id r) key)) table else table.

(** [deleteRegistration(id)]: nothing happens unless the user confirms. *)
Definition deleteRegistration (confirmed ok : bool) (key : string)
    (table : list Registration) : list Registration :=
  if confirmed then supabase_delete ok key table else table.

(** [getStatusBadgeColor(status)]. *)
Definition getStatusBadgeColor (s : string) : string :=
  if String.eqb s "approved" then "bg-green-100 text-green-800"
  else if String.eqb s "rejected" then "bg-red-100 text-red-800"
  else "bg-yellow-100 text-yellow-800".

(** The objects that [getCategoryColor] returns. *)
Record Palette : Type := {
  bg : string;
  text : string;
  badge : string;
  border : string
}.

Definition job_card_palette : Palette :=
  {| bg := "bg-gradient-to-r from-yellow-100 to-yellow-200";
     text := "text-yellow-900";
     badge := "bg-yellow-500 text-white";
     border := "border-l-4 border-yellow-500" |}.

(** One entry of the [colors] array. *)
Definition shade (colour : string) : Palette :=
  {| bg := "bg-gradient-to-r from-" ++ colour ++ "-50 to-" ++ colour ++ "-100";
     text := "text-" ++ colour ++ "-900";
     badge := "bg-" ++ colour ++ "-500 text-white";
     border := "border-l-4 border-" ++ colour ++ "-500" |}.

Definition colors : list Palette :=
  [shade "blue"; shade "green"; shade "purple"; shade "orange"; shade "pink";
   shade "indigo"].

(** The sum of the UTF-16 code units of one character: the code point
    itself in the basic plane, the two surrogates above it. *)
Definition code_units_sum (cp : Z) : Z :=
  if cp <? 65536 then cp
  else (55296 + (cp - 65536) / 1024) + (56320 + (cp - 65536) mod 1024).

(** The first byte of a UTF-8 sequence: how many continuation bytes follow,
    the bits of the code point that the byte carries, and what the byte
    adds when it is a character (or no lead byte at all, which a decoder
    reads as U+FFFD) by itself. *)
Definition utf8_lead (b : Z) : nat * Z * Z :=
  if b <? 128 then (0%nat, 0, b)
  else if b <? 192 then (0%nat, 0, 65533)
  else if b <? 224 then (1%nat, b - 192, 0)
  else if b <? 240 then (2%nat, b - 224, 0)
  else if b <? 248 then (3%nat, b - 240, 0)
  else (0%nat, 0, 65533).

(** The code units of the text from a state of the decoder: [need]
    continuation bytes are awaited for the code point begun as [cp]. *)
Fixpoint code_unit_sum_from (need : nat) (cp : Z) (s : string) : Z :=
  match s with
  | EmptyString => match need with O => 0 | S _ => 65533 end
  | String c rest =>
      let b := Z.of_nat (nat_of_ascii c) in
      match need with
      | S k =>
          if ((128 <=? b) && (b <? 192))%bool
          then match k with
               | O => code_units_sum (cp * 64 + (b - 128))
                      + code_unit_sum_from 0 0 rest
               | S _ => code_unit_sum_from k (cp * 64 + (b - 128)) rest
               end
          else let '(need', cp', add) := utf8_lead b in
               65533 + add + code_unit_sum_from need' cp' rest
      | O =>
          let '(need', cp', add) := utf8_lead b in
          add + code_unit_sum_from need' cp' rest
      end
  end.

(** [categoryName.split('').reduce((a, b) => a + b.charCodeAt(0), 0)]: the
    sum of the UTF-16 code units of the name, which is held here as its
    UTF-8 bytes. *)
Definition char_code_sum (s : string) : Z := code_unit_sum_from 0 0 s.

(** [Math.abs(...) % 6]. *)
Definition colorIndex (categoryName : string) : Z :=
  Z.rem (Z.abs (char_code_sum categoryName)) 6.

(** [getCategoryColor(categoryName)]; [None] stands for the [undefined]
    that [colors[colorIndex]] gives outside the array. *)
Definition getCategoryColor (categoryName : string) : option Palette :=
  if Text.includes (Text.toLowerCase categoryName) "job card"
  then Some job_card_palette
  else nth_error colors (Z.to_nat (colorIndex categoryName)).

(** The colour of a row: [getCategoryColor(reg.categories?.name_english || '')]. *)
Definition row_color (reg : Registration) : option Palette :=
  getCategoryColor (Js.str_or (option_map name_english (categories reg)) "").











(** The "Important Dates" cell of a row shows the expiry only when there is
    one: [Some (orange, days)] with [orange] the test [days <= 30] that
    picks the colour and [days] the number shown, [None] when nothing is
    shown. *)
Definition expiry_cell (now : Z) (reg : Registration) : option (bool * Js.num) :=
  if Js.truthy (expiry_date reg)
  then Some (Js.le (daysLeft now reg) (Js.Num 30), daysLeft now reg)
  else None.

End RegistrationsTab.

(** ** Local time: [setDate] and [toISOString] in any zone

    [updateRegistrationStatus] computes the expiry with
    [expiryDate.setDate(expiryDate.getDate() + expiryDays)], which works on
    the local calendar, and writes it with [toISOString()], which throws a
    RangeError on an Invalid Date; the [try]/[catch] around the function
    then shows a toast and sends no update.  This module embeds the
    function with both effects; [RegistrationsTab.build_updateData] above
    is its special case for a zone with one offset and an expiry inside the
    range of [Date]. *)

Module Zoned.

(** A time zone as ECMAScript sees it: the offset of local time from UTC
    in milliseconds, asked for a UTC instant ([LocalTZA(t, true)]) and for
    a local time value ([LocalTZA(t, false)]). *)
Record Zone : Type := {
  tza_of_utc : Z -> Z;
  tza_of_local : Z -> Z
}.

(** [LocalTime(t)] and [UTC(t)]. *)
Definition LocalTime (z : Zone) (t : Z) : Z := t + tza_of_utc z t.
Definition UTC (z : Zone) (t : Z) : Z := t - tza_of_local z t.

(** A zone whose offset never changes. *)
Definition fixed (offset : Z) : Zone :=
  {| tza_of_utc := fun _ => offset; tza_of_local := fun _ => offset |}.

(** The largest time value of a [Date], 8.64e15 ms, and [TimeClip]. *)
Definition MAX_TIME : Z := 8640000000000000.

Definition TimeClip (t : Z) : Js.Date :=
  if Z.abs t <=? MAX_TIME then Js.DateAt t else Js.InvalidDate.

(** [Day(t)] and [TimeWithinDay(t)]. *)
Definition Day (t : Z) : Z := t / Js.MS_PER_DAY.
Definition TimeWithinDay (t : Z) : Z := t mod Js.MS_PER_DAY.

(** [d.setDate(d.getDate() + n)] on a date at instant [t]: with
    [tl = LocalTime(t)], the new date is
    [MakeDate(MakeDay(YearFromTime(tl), MonthFromTime(tl), DateFromTime(tl) + n),
    TimeWithinDay(tl))], and [MakeDay] of day [DateFromTime(tl) + n] of the
    month of [tl] is the day number of [tl] plus [n]; the date's new time
    value is [TimeClip(UTC(newDate))]. *)
Definition setDate_plus (z : Zone) (t n : Z) : Js.Date :=
  let tl := LocalTime z t in
  let newDate := (Day tl + n) * Js.MS_PER_DAY + TimeWithinDay tl in
  TimeClip (UTC z newDate).

(** [d.toISOString()]: the instant written, or [None] for the RangeError
    on an Invalid Date. *)
Definition toISOString (d : Js.Date) : option Z :=
  match d with
  | Js.DateAt ms => Some ms
  | Js.InvalidDate => None
  end.

(** The [updateData] object of [updateRegistrationStatus], or [None] when
    building it throws. *)
Definition build_updateData (z : Zone) (st : RegistrationsTab.State)
    (t_stamp t_expiry : Z) (key new_status : string) : option UpdateData :=
  let approving := String.eqb new_status "approved" in
  let base :=
    {| u_status := Some new_status;
       u_approved_date := if approving then Some (Some t_stamp) else None;
       u_approved_by := if approving then Some (Some "eva") else None;
       u_expiry_date := None |} in
  if approving then
    match js_find (fun r => String.eqb (id r) key)
                  (RegistrationsTab.st_registrations st) with
    | Some registration =>
        if negb (Js.truthy (expiry_date registration)) then
          let category :=
            js_find (fun c => String.eqb (cat_id c) (category_id registration))
                    (RegistrationsTab.st_categories st) in
          let expiryDays := RegistrationsTab.expiryDays_of category in
          let expiryDate := setDate_plus z t_expiry expiryDays in
          match toISOString expiryDate with
          | Some iso =>
              Some {| u_status := u_status base;
                      u_approved_date := u_approved_date base;
                      u_approved_by := u_approved_by base;
                      u_expiry_date := Some (Js.TsString iso) |}
          | None => None
          end
        else Some base
    | None => Some base
    end
  else Some base.

(** [updateRegistrationStatus(id, status)]: the table after the call.  When
    building the update throws, the [catch] shows a toast and the table is
    as before. *)
Definition updateRegistrationStatus (z : Zone) (ok : bool)
    (st : RegistrationsTab.State) (t_stamp t_expiry : Z)
    (key new_status : string) (table : list Registration)
    : list Registration :=
  match build_updateData z st t_stamp t_expiry key new_status with
  | Some u => supabase_update ok u key table
  | None => table
  end.

Definition approve (z : Zone) (ok : bool) (st : RegistrationsTab.State)
    (t_stamp t_expiry : Z) (key : string) (table : list Registration)
    : list Registration :=
  updateRegistrationStatus z ok st t_stamp t_expiry key "approved" table.

(** The local time value that [setDate] arrives at, read back as a UTC
    instant: the expiry that an approval at [t] with [n] days aims at. *)
Definition expiry_target (z : Zone) (t n : Z) : Z :=
  UTC z (LocalTime z t + n * Js.MS_PER_DAY).

End Zoned.

(** ** The notification widget (NotificationBell) *)

Module NotificationBell.

(** [interface ExpiringRegistration]. *)
Record ExpiringRegistration : Type := {
  er_id : string;
  er_name : string;
  phone : string;
  esep_id : string;
  category : string;
  location : string;
  er_created_at : Z;
  days_remaining : Js.num
}.

(** The query [.from('registrations').select(...).eq('status', 'pending')]. *)
Definition query_pending (table : list Registration) : list Registration :=
  filter (fun r => String.eqb (status r) "pending") table.

(** The body of [registrations.map(reg => ...)]. *)
Definition process (now : Z) (reg : Registration) : ExpiringRegistration :=
  let expiryDate := Js.new_Date (expiry_date reg) in
  let diffTime := Js.sub (Js.getTime expiryDate) (Js.Num now) in
  let diffDays := Js.Math_ceil_div diffTime Js.MS_PER_DAY in
  {| er_id := id reg;
     er_name := full_name reg;
     phone := mobile_number reg;
     esep_id := customer_id reg;
     category := Js.str_or (option_map name_english (categories reg)) "Unknown";
     location := address reg;
     er_created_at := created_at reg;
     days_remaining := diffDays |}.

(** The comparator [(a, b) => a.days_remaining - b.days_remaining]. *)
Definition compare_days (a b : ExpiringRegistration) : Js.num :=
  Js.sub (days_remaining a) (days_remaining b).

(** [Array.prototype.sort(cmp)] is a stable sort, and a comparator result
    of NaN counts as 0.  [insert_by cmp x l] puts [x], which stood before
    every element of [l], in front of the first element it does not
    compare greater than. *)
Fixpoint insert_by {A : Type} (cmp : A -> A -> Js.num) (x : A) (l : list A)
    : list A :=
  match l with
  | [] => [x]
  | y :: rest =>
      if Js.gt (cmp x y) (Js.Num 0)
      then y :: insert_by cmp x rest
      else x :: l
  end.

Definition js_sort {A : Type} (cmp : A -> A -> Js.num) (l : list A) : list A :=
  fold_right (insert_by cmp) [] l.

Definition is_expired (reg : ExpiringRegistration) : bool :=
  Js.le (days_remaining reg) (Js.Num 0).

Definition is_expiring (reg : ExpiringRegistration) : bool :=
  (Js.gt (days_remaining reg) (Js.Num 0)
   && Js.le (days_remaining reg) (Js.Num 3))%bool.

(** The [expired] and [expiring] arrays computed from the fetched rows. *)
Definition expired_of (now : Z) (rows : list Registration)
    : list ExpiringRegistration :=
  js_sort compare_days (filter is_expired (map (process now) rows)).

Definition expiring_of (now : Z) (rows : list Registration)
    : list ExpiringRegistration :=
  js_sort compare_days (filter is_expiring (map (process now) rows)).

(** The component's state, with the pending [setTimeout] of the
    auto-show effect ([timer]: the instant from which it may fire) and
    whether the component is mounted. *)
Record State : Type := {
  expiredRegistrations : list ExpiringRegistration;
  expiringRegistrations : list ExpiringRegistration;
  showAlert : bool;
  loading : bool;
  acknowledged : bool;
  timer : option Z;
  mounted : bool
}.

Definition with_lists (e g : list ExpiringRegistration) (s : State) : State :=
  {| expiredRegistrations := e; expiringRegistrations := g;
     showAlert := showAlert s; loading := loading s;
     acknowledged := acknowledged s; timer := timer s; mounted := mounted s |}.

Definition with_showAlert (b : bool) (s : State) : State :=
  {| expiredRegistrations := expiredRegistrations s;
     expiringRegistrations := expiringRegistrations s;
     showAlert := b; loading := loading s;
     acknowledged := acknowledged s; timer := timer s; mounted := mounted s |}.

Definition with_loading (b : bool) (s : State) : State :=
  {| expiredRegistrations := expiredRegistrations s;
     expiringRegistrations := expiringRegistrations s;
     showAlert := showAlert s; loading := b;
     acknowledged := acknowledged s; timer := timer s; mounted := mounted s |}.

Definition with_acknowledged (b : bool) (s : State) : State :=
  {| expiredRegistrations := expiredRegistrations s;
     expiringRegistrations := expiringRegistrations s;
     showAlert := showAlert s; loading := loading s;
     acknowledged := b; timer := timer s; mounted := mounted s |}.

Definition with_timer (d : option Z) (s : State) : State :=
  {| expiredRegistrations := expiredRegistrations s;
     expiringRegistrations := expiringRegistrations s;
     showAlert := showAlert s; loading := loading s;
     acknowledged := acknowledged s; timer := d; mounted := mounted s |}.

(** [fetchExpiringRegistrations], from the answer of the backend to its
    end: on an error the lists stay, [finally] clears [loading]. *)
Definition fetchExpiringRegistrations (ok : bool) (table : list Registration)
    (now : Z) (s : State) : State :=
  with_loading false
    (if ok
     then with_lists (expired_of now (query_pending table))
                     (expiring_of now (query_pending table)) s
     else s).

(** The [registrations] prop of the alert:
    [[...expiredRegistrations, ...expiringRegistrations]]. *)
Definition alert_registrations (s : State) : list ExpiringRegistration :=
  expiredRegistrations s ++ expiringRegistrations s.

(** The numbers shown in the two badges. *)
Definition expired_count (s : State) : nat := List.length (expiredRegistrations s).
Definition expiring_count (s : State) : nat := List.length (expiringRegistrations s).

(** The condition of the auto-show effect. *)
Definition should_auto_show (s : State) : bool :=
  ((Nat.ltb 0 (List.length (expiredRegistrations s))
    || Nat.ltb 0 (List.length (expiringRegistrations s)))
   && negb (acknowledged s))%bool.

(** The dependency array of the auto-show effect. *)
Definition deps (s : State) : nat * nat * bool :=
  (List.length (expiredRegistrations s), List.length (expiringRegistrations s),
   acknowledged s).

Definition deps_eqb (a b : nat * nat * bool) : bool :=
  let '(a1, a2, a3) := a in
  let '(b1, b2, b3) := b in
  (Nat.eqb a1 b1 && Nat.eqb a2 b2 && Bool.eqb a3 b3)%bool.

(** The auto-show effect after a render at instant [t]: when a dependency
    changed, the cleanup of the previous run clears its timer, and the
    effect arms a new 2000 ms timer if its condition holds. *)
Definition run_effect (t : Z) (before after : State) : State :=
  if deps_eqb (deps before) (deps after) then after
  else with_timer (if should_auto_show after then Some (t + 2000) else None)
                  after.

(** [handleNotificationClick]. *)
Definition handleNotificationClick (s : State) : State :=
  if (Nat.ltb 0 (List.length (expiredRegistrations s))
      || Nat.ltb 0 (List.length (expiringRegistrations s)))%bool
  then with_showAlert true s
  else s.

(** What can happen to the mounted component: a fetch starts (on mount, on
    a change pushed by the backend, every hour) and ends with the backend's
    answer; the alert dialog calls [onGotIt] or [onOpenChange]; a bell is
    clicked; the pending [setTimeout] callback runs; the component is
    unmounted.  The dialog (ExpiringRegistrationsAlert) is a separate
    component: it may call its two callbacks at any time. *)
Inductive Event : Type :=
| FetchStarts
| FetchEnds (ok : bool) (table : list Registration)
| GotIt
| OpenChange (b : bool)
| BellClick
| TimerFires
| Unmount.

(** The state on mount: the first run of the effect finds both lists
    empty and arms nothing. *)
Definition initial : State :=
  {| expiredRegistrations := []; expiringRegistrations := [];
     showAlert := false; loading := false; acknowledged := false;
     timer := None; mounted := true |}.

(** One event at instant [t].  The two bells are [disabled={loading}]: a
    click while a fetch is under way does not reach the handler.  The timer
    callback runs only when a timer is pending and its delay has elapsed;
    after the unmount nothing changes any more. *)
Definition step (t : Z) (e : Event) (s : State) : State :=
  if negb (mounted s) then s
  else
    match e with
    | FetchStarts => with_loading true s
    | FetchEnds ok table =>
        run_effect t s (fetchExpiringRegistrations ok table t s)
    | GotIt => run_effect t s (with_acknowledged true s)
    | OpenChange b => with_showAlert b s
    | BellClick => if loading s then s else handleNotificationClick s
    | TimerFires =>
        match timer s with
        | Some due =>
            if due <=? t then with_timer None (with_showAlert true s) else s
        | None => s
        end
    | Unmount =>
        {| expiredRegistrations := expiredRegistrations s;
           expiringRegistrations := expiringRegistrations s;
           showAlert := showAlert s; loading := loading s;
           acknowledged := acknowledged s; timer := None; mounted := false |}
    end.

(** A run of the component: events with their instants, oldest first. *)
Fixpoint run (evs : list (Z * Event)) (s : State) : State :=
  match evs with
  | [] => s
  | (t, e) :: rest => run rest (step t e s)
  end.

(** Ascending order of [days_remaining], on entries whose value is a
    number. *)
Definition days_le (a b : ExpiringRegistration) : Prop :=
  exists x y, days_remaining a = Js.Num x /\ days_remaining b = Js.Num y
              /\ x <= y.

Definition numeric (a : ExpiringRegistration) : Prop :=
  exists x, days_remaining a = Js.Num x.

(** What holds of the pending timer in every state the component reaches:
    a timer is pending only while the effect's condition holds and the
    component is mounted. *)
Definition timer_invariant (s : State) : Prop :=
  timer s = None \/ (should_auto_show s = true /\ mounted s = true).

(** A stretch of events during which the auto-show effect is left alone:
    no unmount, no timer callback, and no change of the dependencies. *)
Fixpoint undisturbed (evs : list (Z * Event)) (s : State) : Prop :=
  match evs with
  | [] => True
  | (t, e) :: rest =>
      e <> TimerFires /\ e <> Unmount /\ deps (step t e s) = deps s
      /\ undisturbed rest (step t e s)
  end.

End NotificationBell.

(** ** CategoryTransferRequest.tsx *)

Module CategoryTransferRequest.

(** A row of [category_transfer_requests] as the form inserts it. *)
Record TransferRequest : Type := {
  registration_id : string;
  from_category_id : string;
  to_category_id : string;
  tr_mobile_number : string;
  tr_customer_id : string;
  tr_full_name : string;
  reason : option string;
  tr_status : string
}.

(** The form's state. *)
Record State : Type := {
  offered : list Category;        (* [categories] *)
  selectedCategoryId : string;
  reasonText : string;            (* [reason] *)
  showForm : bool
}.

Definition initial : State :=
  {| offered := []; selectedCategoryId := ""; reasonText := "";
     showForm := false |}.

(** The query of [fetchCategories]:
    [.eq('is_active', true).neq('id', registration.category_id)]. *)
Definition query_categories (registration : Registration)
    (table : list Category) : list Category :=
  filter (fun c => (is_active c
                    && negb (String.eqb (cat_id c) (category_id registration)))%bool)
         table.

(** [fetchCategories]: on an error the list stays as it is. *)
Definition fetchCategories (ok : bool) (registration : Registration)
    (table : list Category) (s : State) : State :=
  if ok
  then {| offered := query_categories registration table;
          selectedCategoryId := selectedCategoryId s;
          reasonText := reasonText s; showForm := showForm s |}
  else s.

(** [onValueChange={setSelectedCategoryId}] of the [Select]: the control
    reports the value of one of its items, which are the offered
    categories' ids. *)
Definition selectCategory (cid : string) (s : State) : State :=
  if existsb (fun c => String.eqb (cat_id c) cid) (offered s)
  then {| offered := offered s; selectedCategoryId := cid;
          reasonText := reasonText s; showForm := showForm s |}
  else s.

Definition setReason (text : string) (s : State) : State :=
  {| offered := offered s; selectedCategoryId := selectedCategoryId s;
     reasonText := text; showForm := showForm s |}.

Definition setShowForm (b : bool) (s : State) : State :=
  {| offered := offered s; selectedCategoryId := selectedCategoryId s;
     reasonText := reasonText s; showForm := b |}.

(** The object given to [.insert(...)]. *)
Definition request_of (registration : Registration) (s : State)
    : TransferRequest :=
  {| registration_id := id registration;
     from_category_id := category_id registration;
     to_category_id := selectedCategoryId s;
     tr_mobile_number := mobile_number registration;
     tr_customer_id := customer_id registration;
     tr_full_name := full_name registration;
     reason := if String.eqb (reasonText s) "" then None
               else Some (reasonText s);
     tr_status := "pending" |}.

(** [handleSubmitTransferRequest]: the form's state and the table after
    the call.  Without a selection nothing is sent; on an error of the
    backend nothing is inserted and the form keeps its state. *)
Definition handleSubmitTransferRequest (ok : bool)
    (registration : Registration) (s : State)
    (table : list TransferRequest) : State * list TransferRequest :=
  if String.eqb (selectedCategoryId s) "" then (s, table)
  else if ok
  then ({| offered := offered s; selectedCategoryId := "";
           reasonText := ""; showForm := false |},
        (table ++ [request_of registration s])%list)
  else (s, table).

(** What the registrant and the backend can do to the form. *)
Inductive Event : Type :=
| CategoriesFetched (ok : bool) (table : list Category)
| Selected (cid : string)
| ReasonTyped (text : string)
| FormShown (b : bool)
| Submitted (ok : bool).

Definition step (registration : Registration) (e : Event)
    (st : State * list TransferRequest) : State * list TransferRequest :=
  let '(s, table) := st in
  match e with
  | CategoriesFetched ok cats => (fetchCategories ok registration cats s, table)
  | Selected cid => (selectCategory cid s, table)
  | ReasonTyped text => (setReason text s, table)
  | FormShown b => (setShowForm b s, table)
  | Submitted ok => handleSubmitTransferRequest ok registration s table
  end.

Fixpoint run (registration : Registration) (evs : list Event)
    (st : State * list TransferRequest) : State * list TransferRequest :=
  match evs with
  | [] => st
  | e :: rest => run registration rest (step registration e st)
  end.

(** The id of a category that a fetch of the run [seen] brought to the
    form: a row of the table that the backend answered from, active, and
    not the registration's current category. *)
Definition fetched_id (registration : Registration) (seen : list Event)
    (cid : string) : Prop :=
  exists cats c,
    In (CategoriesFetched true cats) seen /\ In c cats
    /\ is_active c = true /\ cat_id c <> category_id registration
    /\ cat_id c = cid.

(** What holds of the form and of the table after the events [seen]: the
    offered categories and a selection come from a fetch of the run, and
    every row of the table is a request of this registration for a
    category that a fetch of the run brought. *)
Definition form_invariant (registration : Registration) (seen : list Event)
    (st : State * list TransferRequest) : Prop :=
  Forall (fun c => fetched_id registration seen (cat_id c)) (offered (fst st))
  /\ (selectedCategoryId (fst st) = ""
      \/ fetched_id registration seen (selectedCategoryId (fst st)))
  /\ Forall (fun q =>
               tr_status q = "pending"
               /\ registration_id q = id registration
               /\ from_category_id q = category_id registration
               /\ tr_mobile_number q = mobile_number registration
               /\ tr_customer_id q = customer_id registration
               /\ tr_full_name q = full_name registration
               /\ reason q <> Some ""
               /\ to_category_id q <> ""
               /\ fetched_id registration seen (to_category_id q))
            (snd st).

(** The submissions of a run that the backend accepted. *)
Fixpoint accepted_submissions (evs : list Event) : nat :=
  match evs with
  | [] => 0
  | Submitted true :: rest => S (accepted_submissions rest)
  | _ :: rest => accepted_submissions rest
  end.

End CategoryTransferRequest.

(** ** Reading a CSV record back (RFC 4180)

    The reference against which the quoting of the export is judged: a
    quoted field runs to the closing quote, a quote inside it is written
    twice, and text may follow a closing quote only after a comma. *)

Module Csv.

Definition dquote : ascii := ascii_of_nat 34.
Definition comma : ascii := ascii_of_nat 44.
Definition linefeed : ascii := ascii_of_nat 10.
Definition creturn : ascii := ascii_of_nat 13.

Inductive Mode : Type :=
| FieldStart      (* at the first character of a field *)
| Bare            (* inside a field that is not quoted *)
| Quoted          (* inside a quoted field *)
| QuoteSeen.      (* after a quote inside a quoted field *)

Definition snoc (s : string) (c : ascii) : string :=
  s ++ String c EmptyString.

(** [parse_from mode cur acc s]: the fields of the record [s], given the
    fields [acc] already read (latest first) and the text [cur] of the
    field being read; [None] when [s] is not a well-formed record. *)
Fixpoint parse_from (mode : Mode) (cur : string) (acc : list string)
    (s : string) : option (list string) :=
  match s with
  | EmptyString =>
      match mode with
      | Quoted => None
      | FieldStart | Bare | QuoteSeen => Some (rev (cur :: acc))
      end
  | String c rest =>
      match mode with
      | FieldStart =>
          if Ascii.eqb c dquote then parse_from Quoted "" acc rest
          else if Ascii.eqb c comma then parse_from FieldStart "" ("" :: acc) rest
          else parse_from Bare (String c EmptyString) acc rest
      | Bare =>
          if Ascii.eqb c dquote then None
          else if Ascii.eqb c comma then parse_from FieldStart "" (cur :: acc) rest
          else parse_from Bare (snoc cur c) acc rest
      | Quoted =>
          if Ascii.eqb c dquote then parse_from QuoteSeen cur acc rest
          else parse_from Quoted (snoc cur c) acc rest
      | QuoteSeen =>
          if Ascii.eqb c dquote then parse_from Quoted (snoc cur c) acc rest
          else if Ascii.eqb c comma then parse_from FieldStart "" (cur :: acc) rest
          else None
      end
  end.

Definition parse_record (s : string) : option (list string) :=
  parse_from FieldStart "" [] s.

(** A whole file: records separated by line feeds, as the export writes
    them.  [parse_file_from mode cur fields records s]: the records of
    [s], given the records already read (latest first), the fields of the
    current record already read (latest first) and the text of the field
    being read.  A line feed ends the record unless it stands inside a
    quoted field, where it is data; a carriage return outside quotes is not
    accepted. *)
Fixpoint parse_file_from (mode : Mode) (cur : string) (fields : list string)
    (records : list (list string)) (s : string)
    : option (list (list string)) :=
  match s with
  | EmptyString =>
      match mode with
      | Quoted => None
      | FieldStart | Bare | QuoteSeen =>
          Some (rev (rev (cur :: fields) :: records))
      end
  | String c rest =>
      match mode with
      | FieldStart =>
          if Ascii.eqb c dquote then parse_file_from Quoted "" fields records rest
          else if Ascii.eqb c comma
          then parse_file_from FieldStart "" ("" :: fields) records rest
          else if Ascii.eqb c linefeed
          then parse_file_from FieldStart "" [] (rev ("" :: fields) :: records) rest
          else if Ascii.eqb c creturn then None
          else parse_file_from Bare (String c EmptyString) fields records rest
      | Bare =>
          if Ascii.eqb c dquote then None
          else if Ascii.eqb c comma
          then parse_file_from FieldStart "" (cur :: fields) records rest
          else if Ascii.eqb c linefeed
          then parse_file_from FieldStart "" [] (rev (cur :: fields) :: records) rest
          else if Ascii.eqb c creturn then None
          else parse_file_from Bare (snoc cur c) fields records rest
      | Quoted =>
          if Ascii.eqb c dquote then parse_file_from QuoteSeen cur fields records rest
          else parse_file_from Quoted (snoc cur c) fields records rest
      | QuoteSeen =>
          if Ascii.eqb c dquote
          then parse_file_from Quoted (snoc cur c) fields records rest
          else if Ascii.eqb c comma
          then parse_file_from FieldStart "" (cur :: fields) records rest
          else if Ascii.eqb c linefeed
          then parse_file_from FieldStart "" [] (rev (cur :: fields) :: records) rest
          else None
      end
  end.

Definition parse_file (s : string) : option (list (list string)) :=
  parse_file_from FieldStart "" [] [] s.

(** The values a reader expects in the six columns of a registration's
    line. *)
Definition expected_values (tz : Z) (reg : Registration) : list string :=
  [ full_name reg;
    mobile_number reg;
    Js.str_or (option_map name (panchayaths reg)) "N/A";
    Js.str_or (option_map name_english (categories reg)) "N/A";
    Calendar.format_ddMMyyyy tz (created_at reg);
    match expiry_date reg with
    | Js.TsString t => Calendar.format_ddMMyyyy tz t
    | Js.TsNull | Js.TsUndefined => "N/A"
    end ].

(** The name field of an exported line is correctly quoted when the line
    reads back as the six values, the name first. *)
Definition reads_back (tz : Z) (reg : Registration) : Prop :=
  parse_record (RegistrationsTab.csv_line tz reg)
  = Some (expected_values tz reg).

(** Texts for which the export's quoting is enough: no double quote inside
    a quoted cell; no double quote, comma or line break in a bare cell. *)
Fixpoint all_chars (p : ascii -> bool) (s : string) : bool :=
  match s with
  | EmptyString => true
  | String c rest => (p c && all_chars p rest)%bool
  end.

Definition no_dquote (s : string) : bool :=
  all_chars (fun c => negb (Ascii.eqb c dquote)) s.

(** What a cell written without quotes may hold: no double quote, no
    comma, and no line break (line feed or carriage return). *)
Definition plain_char (c : ascii) : bool :=
  (negb (Ascii.eqb c dquote) && negb (Ascii.eqb c comma)
   && negb (Ascii.eqb c linefeed) && negb (Ascii.eqb c creturn))%bool.

Definition plain (s : string) : bool := all_chars plain_char s.

(** A registration whose texts the export's quoting can carry: no double
    quote in the name, the panchayath and the category, and no double
    quote, comma or line break in the mobile number. *)
Definition exportable (reg : Registration) : Prop :=
  no_dquote (full_name reg) = true
  /\ plain (mobile_number reg) = true
  /\ no_dquote (Js.str_or (option_map name (panchayaths reg)) "N/A") = true
  /\ no_dquote (Js.str_or (option_map name_english (categories reg)) "N/A")
     = true.

End Csv.

(** ** Sample data *)

Module Samples.

Definition day : Z := Js.MS_PER_DAY.

(** An instant in November 2025, and the zone of Indian Standard Time. *)
Definition clock : Z := 1762041600000.
Definition ist : Z := 19800000.

Definition job_card : Category :=
  {| cat_id := "cat-1"; cat_name_english := "Job Card";
     cat_name_malayalam := "JC"; expiry_days := Some 45; is_active := true |}.

Definition pension : Category :=
  {| cat_id := "cat-2"; cat_name_english := "Pension";
     cat_name_malayalam := "PN"; expiry_days := None; is_active := true |}.

Definition retired : Category :=
  {| cat_id := "cat-3"; cat_name_english := "Retired";
     cat_name_malayalam := "RT"; expiry_days := Some 60; is_active := false |}.

(** A registration in category [cat-1] with the given key, name, status,
    creation instant and expiry. *)
Definition registration (key who st : string) (created : Z)
    (expiry : Js.tsval) : Registration :=
  {| id := key;
     customer_id := "ESEP-" ++ key;
     full_name := who;
     mobile_number := "9000000001";
     address := "Ward 3";
     ward := "3";
     agent := "";
     status := st;
     fee := 100;
     created_at := created;
     approved_date := None;
     approved_by := None;
     expiry_date := expiry;
     category_id := "cat-1";
     preference_category_id := None;
     panchayath_id := None;
     categories := Some {| name_english := "Job Card"; name_malayalam := "JC" |};
     preference_categories := None;
     panchayaths := None |}.

(** The tab with the given registrations loaded and no filter set. *)
Definition tab (regs : list Registration) : RegistrationsTab.State :=
  {| RegistrationsTab.st_registrations := regs;
     RegistrationsTab.st_categories :=
       RegistrationsTab.fetchCategories [job_card; pension; retired];
     RegistrationsTab.searchQuery := "";
     RegistrationsTab.statusFilter := "all";
     RegistrationsTab.categoryFilter := "all";
     RegistrationsTab.panchayathFilter := "all";
     RegistrationsTab.expiryFilter := "" |}.

(** Created ten days before [clock], never given an expiry. *)
Definition fresh : Registration :=
  registration "r1" "Anu" "pending" (clock - 10 * day) Js.TsNull.


(** The zone of Indian Standard Time, and a zone that moves its clocks
    forward by an hour twenty days after [clock] (UTC+1 before, UTC+2
    after; the local times of the skipped hour count as after). *)
Definition ist_zone : Zoned.Zone := Zoned.fixed ist.

Definition clocks_change : Z := clock + 20 * day.

Definition summer_zone : Zoned.Zone :=
  {| Zoned.tza_of_utc :=
       fun t => if t <? clocks_change then 3600000 else 7200000;
     Zoned.tza_of_local :=
       fun t => if t <? clocks_change + 3600000 then 3600000 else 7200000 |}.

(** A category whose expiry_days carries the date out of the range of
    [Date], and a pending registration of it. *)
Definition endless : Category :=
  {| cat_id := "cat-9"; cat_name_english := "Endless";
     cat_name_malayalam := "EN"; expiry_days := Some 100000000;
     is_active := true |}.

Definition endless_member : Registration :=
  {| id := "r10";
     customer_id := "ESEP-r10";
     full_name := "Esha";
     mobile_number := "9000000010";
     address := "Ward 1";
     ward := "1";
     agent := "";
     status := "pending";
     fee := 100;
     created_at := clock - day;
     approved_date := None;
     approved_by := None;
     expiry_date := Js.TsNull;
     category_id := "cat-9";
     preference_category_id := None;
     panchayath_id := None;
     categories := Some {| name_english := "Endless"; name_malayalam := "EN" |};
     preference_categories := None;
     panchayaths := None |}.

Definition endless_tab : RegistrationsTab.State :=
  {| RegistrationsTab.st_registrations := [endless_member];
     RegistrationsTab.st_categories := [endless];
     RegistrationsTab.searchQuery := "";
     RegistrationsTab.statusFilter := "all";
     RegistrationsTab.categoryFilter := "all";
     RegistrationsTab.panchayathFilter := "all";
     RegistrationsTab.expiryFilter := "" |}.

(** One registration that expired four days before [clock], and the same
    with a second one that expired six days before. *)
Definition one_late : list Registration :=
  [ registration "late" "Latha" "pending" 0 (Js.TsString (clock - 4 * day)) ].

Definition two_late : list Registration :=
  [ registration "late" "Latha" "pending" 0 (Js.TsString (clock - 4 * day));
    registration "later" "Leela" "pending" 0 (Js.TsString (clock - 6 * day)) ].


(** A registration whose mobile number holds a line feed. *)
Definition broken_number : Registration :=
  {| id := "r7";
     customer_id := "ESEP-r7";
     full_name := "Gita";
     mobile_number := "90000" ++ Text.lf ++ "00007";
     address := "Ward 7";
     ward := "7";
     agent := "";
     status := "pending";
     fee := 100;
     created_at := clock;
     approved_date := None;
     approved_by := None;
     expiry_date := Js.TsNull;
     category_id := "cat-1";
     preference_category_id := None;
     panchayath_id := None;
     categories := None;
     preference_categories := None;
     panchayaths := None |}.

End Samples.

(** * Properties *)

(** ** Arithmetic of days remaining *)

Module JsFacts.

Lemma MS_PER_DAY_value : Js.MS_PER_DAY = 86400000.
Proof. reflexivity. Qed.

(** [ceil_quot a b] is the least integer [q] with [a <= q * b]. *)
Lemma ceil_quot_spec (a b : Z) :
  0 < b ->
  (Js.ceil_quot a b - 1) * b < a <= Js.ceil_quot a b * b.
Proof.
  intros Hb. unfold Js.ceil_quot.
  pose proof (Z.div_mod (- a) b ltac:(lia)) as Hdm.
  pose proof (Z.mod_pos_bound (- a) b Hb) as Hm.
  nia.
Qed.

Lemma ceil_quot_le (a b k : Z) :
  0 < b -> (Js.ceil_quot a b <= k <-> a <= k * b).
Proof.
  intros Hb. pose proof (ceil_quot_spec a b Hb) as H. split; intros; nia.
Qed.

Lemma ceil_quot_gt (a b k : Z) :
  0 < b -> (k < Js.ceil_quot a b <-> k * b < a).
Proof.
  intros Hb. pose proof (ceil_quot_le a b k Hb). lia.
Qed.

Lemma le_Num (x y : Z) : Js.le (Js.Num x) (Js.Num y) = true <-> x <= y.
Proof. simpl. apply Z.leb_le. Qed.

Lemma gt_Num (x y : Z) : Js.gt (Js.Num x) (Js.Num y) = true <-> y < x.
Proof. unfold Js.gt. simpl. apply Z.ltb_lt. Qed.

Lemma ge_Num (x y : Z) : Js.ge (Js.Num x) (Js.Num y) = true <-> y <= x.
Proof. unfold Js.ge. simpl. apply Z.leb_le. Qed.

End JsFacts.

(** ** Lifecycle operations of RegistrationsTab *)

Module Lifecycle.

Import RegistrationsTab.

Lemma supabase_update_nth ok u key table n :
  nth_error (supabase_update ok u key table) n =
  option_map (fun r => if ok && String.eqb (id r) key
                       then apply_update u r else r)
             (nth_error table n).
Proof.
  unfold supabase_update. destruct ok; simpl.
  - apply nth_error_map.
  - destruct (nth_error table n); reflexivity.
Qed.

Lemma supabase_update_length ok u key table :
  List.length (supabase_update ok u key table) = List.length table.
Proof. unfold supabase_update. destruct ok; [apply length_map | reflexivity]. Qed.

Lemma supabase_update_Forall (P : Registration -> Prop) ok u key table :
  (forall r, P r -> P (apply_update u r)) ->
  Forall P table -> Forall P (supabase_update ok u key table).
Proof.
  intros Hstep Hall. unfold supabase_update. destruct ok; [|exact Hall].
  induction Hall as [|r rest Hr _ IH]; simpl; constructor; auto.
  destruct (String.eqb (id r) key); auto.
Qed.



Lemma build_approval_other st t1 t2 key s :
  String.eqb s "approved" = false ->
  build_updateData st t1 t2 key s =
  {| u_status := Some s; u_approved_date := None; u_approved_by := None;
     u_expiry_date := None |}.
Proof. intros H. unfold build_updateData. rewrite H. reflexivity. Qed.

Lemma build_expiry_approved st t1 t2 key :
  u_expiry_date (build_updateData st t1 t2 key "approved") =
  match cached st key with
  | Some reg =>
      if Js.truthy (expiry_date reg) then None
      else Some (Js.TsString
                   (Js.addDays t2 (expiryDays_of (category_of st reg))))
  | None => None
  end.
Proof.
  unfold build_updateData, cached, category_of. simpl.
  destruct (js_find _ (st_registrations st)) as [reg|]; [|reflexivity].
  destruct (Js.truthy (expiry_date reg)); reflexivity.
Qed.

(** The three outcomes of [category?.expiry_days || 30]. *)
Lemma expiryDays_of_cases (category : option Category) :
  (exists c d, category = Some c /\ expiry_days c = Some d /\ d <> 0
               /\ expiryDays_of category = d)
  \/ (expiryDays_of category = 30
      /\ (category = None
          \/ exists c, category = Some c
                       /\ (expiry_days c = None \/ expiry_days c = Some 0))).
Proof.
  destruct category as [c|]; simpl.
  - destruct (expiry_days c) as [d|] eqn:E.
    + destruct (Z.eqb_spec d 0) as [->|Hd].
      * right. split; [reflexivity|]. right. exists c. auto.
      * left. exists c, d. auto.
    + right. split; [reflexivity|]. right. exists c. auto.
  - right. auto.
Qed.

(** The first row with a given key, after a write to that key. *)
Lemma find_after_update u key table :
  js_find (fun r => String.eqb (id r) key) (supabase_update true u key table)
  = option_map (apply_update u)
      (js_find (fun r => String.eqb (id r) key) table).
Proof.
  unfold js_find, supabase_update.
  induction table as [|r rest IH]; simpl; [reflexivity|].
  destruct (String.eqb (id r) key) eqn:E; simpl.
  - rewrite E. reflexivity.
  - rewrite E. exact IH.
Qed.

(** The row at position [n] after [updateRegistrationStatus], when its key
    is the one written. *)
Lemma update_status_row st t1 t2 key s table n r :
  nth_error table n = Some r -> id r = key ->
  nth_error (updateRegistrationStatus true st t1 t2 key s table) n
  = Some (apply_update (build_updateData st t1 t2 key s) r).
Proof.
  intros Hn Hid. unfold updateRegistrationStatus.
  rewrite supabase_update_nth, Hn. simpl.
  rewrite Hid, String.eqb_refl. reflexivity.
Qed.

Lemma update_status_other_row ok st t1 t2 key s table n r :
  nth_error table n = Some r -> id r <> key ->
  nth_error (updateRegistrationStatus ok st t1 t2 key s table) n = Some r.
Proof.
  intros Hn Hid. unfold updateRegistrationStatus.
  rewrite supabase_update_nth, Hn. simpl.
  apply String.eqb_neq in Hid. rewrite Hid, andb_false_r. reflexivity.
Qed.

(** After an approval the found registration carries an expiry date. *)
Lemma approved_row_has_expiry st t1 t2 key reg :
  cached st key = Some reg ->
  Js.truthy
    (expiry_date (apply_update (build_updateData st t1 t2 key "approved") reg))
  = true.
Proof.
  intros Hc. simpl. rewrite build_expiry_approved, Hc.
  destruct (Js.truthy (expiry_date reg)) eqn:E; simpl; [exact E | reflexivity].
Qed.

(** [setDate] arrives at the local time moved by [n] whole days. *)
Lemma setDate_plus_target z t n :
  Zoned.setDate_plus z t n = Zoned.TimeClip (Zoned.expiry_target z t n).
Proof.
  unfold Zoned.setDate_plus, Zoned.expiry_target, Zoned.Day, Zoned.TimeWithinDay.
  f_equal. f_equal.
  pose proof (Z.div_mod (Zoned.LocalTime z t) Js.MS_PER_DAY ltac:(discriminate)).
  lia.
Qed.

Lemma expiry_target_offsets z t n :
  Zoned.expiry_target z t n
  = (t + Zoned.tza_of_utc z t + n * Js.MS_PER_DAY)
    - Zoned.tza_of_local z (t + Zoned.tza_of_utc z t + n * Js.MS_PER_DAY).
Proof. reflexivity. Qed.

Lemma expiry_target_fixed off t n :
  Zoned.expiry_target (Zoned.fixed off) t n = t + n * Js.MS_PER_DAY.
Proof. unfold Zoned.expiry_target, Zoned.UTC, Zoned.LocalTime. simpl. lia. Qed.

(** The update object of an approval, by what the tab finds for the key. *)
Lemma zoned_build_approved z st t1 t2 key :
  Zoned.build_updateData z st t1 t2 key "approved" =
  match cached st key with
  | Some reg =>
      if Js.truthy (expiry_date reg)
      then Some {| u_status := Some "approved";
                   u_approved_date := Some (Some t1);
                   u_approved_by := Some (Some "eva");
                   u_expiry_date := None |}
      else if Z.abs (Zoned.expiry_target z t2
                       (expiryDays_of (category_of st reg)))
              <=? Zoned.MAX_TIME
           then Some {| u_status := Some "approved";
                        u_approved_date := Some (Some t1);
                        u_approved_by := Some (Some "eva");
                        u_expiry_date :=
                          Some (Js.TsString
                                  (Zoned.expiry_target z t2
                                     (expiryDays_of (category_of st reg)))) |}
           else None
  | None => Some {| u_status := Some "approved";
                    u_approved_date := Some (Some t1);
                    u_approved_by := Some (Some "eva");
                    u_expiry_date := None |}
  end.
Proof.
  unfold Zoned.build_updateData, cached, category_of.
  cbn [String.eqb Ascii.eqb Bool.eqb].
  destruct (js_find _ (st_registrations st)) as [reg|]; [|reflexivity].
  destruct (Js.truthy (expiry_date reg)); cbn [negb]; [reflexivity|].
  rewrite setDate_plus_target. unfold Zoned.TimeClip.
  destruct (Z.abs _ <=? Zoned.MAX_TIME); reflexivity.
Qed.

Lemma zoned_build_other z st t1 t2 key s :
  String.eqb s "approved" = false ->
  Zoned.build_updateData z st t1 t2 key s =
  Some {| u_status := Some s; u_approved_date := None; u_approved_by := None;
          u_expiry_date := None |}.
Proof. intros H. unfold Zoned.build_updateData. rewrite H. reflexivity. Qed.

(** In a zone with one offset, and while the expiry stays inside the range
    of [Date], the update object is the one of
    [RegistrationsTab.build_updateData]. *)
Lemma zoned_regular_case off st t1 t2 key s :
  (forall reg, cached st key = Some reg ->
     Z.abs (t2 + expiryDays_of (category_of st reg) * Js.MS_PER_DAY)
     <= Zoned.MAX_TIME) ->
  Zoned.build_updateData (Zoned.fixed off) st t1 t2 key s
  = Some (RegistrationsTab.build_updateData st t1 t2 key s).
Proof.
  intros Hrange.
  destruct (String.eqb s "approved") eqn:Es.
  - apply String.eqb_eq in Es. subst s. rewrite zoned_build_approved.
    unfold RegistrationsTab.build_updateData. fold (cached st key).
    cbn [String.eqb Ascii.eqb Bool.eqb].
    destruct (cached st key) as [reg|] eqn:Hc; [|reflexivity].
    destruct (Js.truthy (expiry_date reg)); cbn [negb]; [reflexivity|].
    rewrite expiry_target_fixed.
    pose proof (Hrange reg eq_refl) as Hin. apply Z.leb_le in Hin.
    rewrite Hin. reflexivity.
  - rewrite zoned_build_other by exact Es.
    rewrite build_approval_other by exact Es. reflexivity.
Qed.

(** The row at position [n] after an approval whose update object is
    [u]. *)
Lemma zoned_approve_row z st t1 t2 key table n r u :
  Zoned.build_updateData z st t1 t2 key "approved" = Some u ->
  nth_error table n = Some r -> id r = key ->
  nth_error (Zoned.approve z true st t1 t2 key table) n
  = Some (apply_update u r).
Proof.
  intros Hu Hn Hid. unfold Zoned.approve, Zoned.updateRegistrationStatus.
  rewrite Hu, supabase_update_nth, Hn. simpl.
  rewrite Hid, String.eqb_refl. reflexivity.
Qed.

(** What an approval writes, by what the tab finds for the key: the days
    counted, the instant arrived at, and the row after the approval. *)
Lemma zoned_approve_cases
    (z : Zoned.Zone) (st : State) (t_stamp t_expiry : Z) (key : string)
    (table : list Registration) (n : nat) (r reg : Registration) :
  nth_error table n = Some r ->
  id r = key ->
  cached st key = Some reg ->
  exists days,
    ((exists c, category_of st reg = Some c
                /\ expiry_days c = Some days /\ days <> 0)
     \/ (days = 30
         /\ (category_of st reg = None
             \/ exists c, category_of st reg = Some c
                          /\ (expiry_days c = None
                              \/ expiry_days c = Some 0))))
    /\ let local := t_expiry + Zoned.tza_of_utc z t_expiry
                    + days * Js.MS_PER_DAY in
       let target := local - Zoned.tza_of_local z local in
       (forall off,
          (forall x, Zoned.tza_of_utc z x = off) ->
          (forall x, Zoned.tza_of_local z x = off) ->
          target = t_expiry + days * Js.MS_PER_DAY)
       /\ (Js.truthy (expiry_date reg) = false ->
           Z.abs target <= Zoned.MAX_TIME ->
           exists r',
             nth_error (Zoned.approve z true st t_stamp t_expiry key table) n
             = Some r'
             /\ status r' = "approved"
             /\ expiry_date r' = Js.TsString target)
       /\ (Js.truthy (expiry_date reg) = false ->
           Zoned.MAX_TIME < Z.abs target ->
           forall ok,
             Zoned.approve z ok st t_stamp t_expiry key table = table)
       /\ (Js.truthy (expiry_date reg) = true ->
           exists r',
             nth_error (Zoned.approve z true st t_stamp t_expiry key table) n
             = Some r'
             /\ status r' = "approved"
             /\ expiry_date r' = expiry_date r)
       /\ (st_registrations st = table ->
           Js.truthy (expiry_date reg) = true
           \/ Z.abs target <= Zoned.MAX_TIME ->
           forall z' t_stamp' t_expiry',
           exists r' r'',
             nth_error (Zoned.approve z true st t_stamp t_expiry key table) n
             = Some r'
             /\ status r' = "approved"
             /\ nth_error
                  (Zoned.approve z' true
                     (refetched
                        (Zoned.approve z true st t_stamp t_expiry key table) st)
                     t_stamp' t_expiry' key
                     (Zoned.approve z true st t_stamp t_expiry key table)) n
                = Some r''
             /\ status r'' = "approved"
             /\ expiry_date r'' = expiry_date r').
Proof.
  intros Hn Hid Hc.
  exists (expiryDays_of (category_of st reg)).
  split.
  { destruct (expiryDays_of_cases (category_of st reg))
      as [(c & d & Hcat & Hd & Hnz & Heq) | (Heq & Hwhy)].
    - left. exists c. rewrite Heq. auto.
    - right. rewrite Heq. auto. }
  cbv zeta. rewrite <- expiry_target_offsets.
  set (days := expiryDays_of (category_of st reg)).
  set (target := Zoned.expiry_target z t_expiry days).
  pose proof (zoned_build_approved z st t_stamp t_expiry key) as Hb.
  rewrite Hc in Hb. fold days target in Hb.
  split; [|split; [|split; [|split]]].
  - intros off Hu Hl. unfold target. rewrite expiry_target_offsets, Hu, Hl. lia.
  - intros Hunset Hin. rewrite Hunset in Hb.
    apply Z.leb_le in Hin. rewrite Hin in Hb.
    eexists. split; [eapply zoned_approve_row; eassumption|].
    split; reflexivity.
  - intros Hunset Hout ok. rewrite Hunset in Hb.
    apply Z.leb_gt in Hout. rewrite Hout in Hb.
    unfold Zoned.approve, Zoned.updateRegistrationStatus. rewrite Hb. reflexivity.
  - intros Hset. rewrite Hset in Hb.
    eexists. split; [eapply zoned_approve_row; eassumption|].
    split; reflexivity.
  - intros Hfresh Hwrites z' t_stamp' t_expiry'.
    assert (Hu : exists u,
               Zoned.build_updateData z st t_stamp t_expiry key "approved"
               = Some u
               /\ Js.truthy (expiry_date (apply_update u reg)) = true).
    { destruct (Js.truthy (expiry_date reg)) eqn:Hset.
      - eexists. split; [exact Hb|]. exact Hset.
      - destruct Hwrites as [Hw | Hw]; [discriminate|].
        apply Z.leb_le in Hw. rewrite Hw in Hb.
        eexists. split; [exact Hb|]. reflexivity. }
    destruct Hu as (u & Hu & Htruthy).
    set (table1 := Zoned.approve z true st t_stamp t_expiry key table).
    assert (Hrow1 : nth_error table1 n = Some (apply_update u r))
      by (eapply zoned_approve_row; eassumption).
    assert (Hc1 : cached (refetched table1 st) key = Some (apply_update u reg)).
    { unfold cached, refetched. cbn [st_registrations].
      unfold table1, Zoned.approve, Zoned.updateRegistrationStatus.
      rewrite Hu, find_after_update.
      unfold cached in Hc. rewrite Hfresh in Hc. rewrite Hc. reflexivity. }
    pose proof (zoned_build_approved z' (refetched table1 st) t_stamp'
                  t_expiry' key) as Hb2.
    rewrite Hc1, Htruthy in Hb2.
    assert (Hstatus : status (apply_update u r) = "approved").
    { assert (Hs : u_status u = Some "approved").
      { rewrite Hu in Hb.
        destruct (Js.truthy (expiry_date reg));
          [|destruct (Z.abs target <=? Zoned.MAX_TIME)];
          try discriminate Hb; injection Hb as ->; reflexivity. }
      cbn [apply_update status]. rewrite Hs. reflexivity. }
    exists (apply_update u r). eexists.
    split; [exact Hrow1|]. split; [exact Hstatus|]. split.
    + eapply zoned_approve_row; [exact Hb2 | exact Hrow1 | exact Hid].
    + split; reflexivity.
Qed.

(** C1 (as amended): for every registration the tab finds without an
    expiry_date, approve() sets status to approved and sets expiry_date to
    the instant of the approval (not created_at) moved forward by the
    category's expiry_days local calendar days, the time of day kept: the
    instant of the approval plus expiry_days times 24 hours in a zone whose
    offset does not change.  The category is looked up by the registration's
    category_id among the categories the tab has loaded, and the days are
    30 when no category is found or its expiry_days is null or 0.  When the
    date arrived at is outside the range of Date, no update is sent.  When
    expiry_date is already set, approve() leaves it unchanged, and so does a
    repeated approve after the tab has reloaded its list. *)
Theorem approve_counts_expiry_from_clock
    (z : Zoned.Zone) (st : State) (t_stamp t_expiry : Z) (key : string)
    (table : list Registration) (n : nat) (r reg : Registration) :
  nth_error table n = Some r ->
  id r = key ->
  find (fun x => String.eqb (id x) key) (st_registrations st) = Some reg ->
  exists days,
    ((exists c,
        find (fun c => String.eqb (cat_id c) (category_id reg))
             (st_categories st) = Some c
        /\ expiry_days c = Some days /\ days <> 0)
     \/ (days = 30
         /\ (find (fun c => String.eqb (cat_id c) (category_id reg))
                  (st_categories st) = None
             \/ exists c,
                  find (fun c => String.eqb (cat_id c) (category_id reg))
                       (st_categories st) = Some c
                  /\ (expiry_days c = None \/ expiry_days c = Some 0))))
    /\ let local := t_expiry + Zoned.tza_of_utc z t_expiry
                    + days * 86400000 in
       let target := local - Zoned.tza_of_local z local in
       (forall off,
          (forall x, Zoned.tza_of_utc z x = off) ->
          (forall x, Zoned.tza_of_local z x = off) ->
          target = t_expiry + days * 86400000)
       /\ (expiry_date reg = Js.TsNull \/ expiry_date reg = Js.TsUndefined ->
           Z.abs target <= 8640000000000000 ->
           exists r',
             nth_error (Zoned.approve z true st t_stamp t_expiry key table) n
             = Some r'
             /\ status r' = "approved"
             /\ expiry_date r' = Js.TsString target)
       /\ (expiry_date reg = Js.TsNull \/ expiry_date reg = Js.TsUndefined ->
           8640000000000000 < Z.abs target ->
           forall ok,
             Zoned.approve z ok st t_stamp t_expiry key table = table)
       /\ ((exists e, expiry_date reg = Js.TsString e) ->
           exists r',
             nth_error (Zoned.approve z true st t_stamp t_expiry key table) n
             = Some r'
             /\ status r' = "approved"
             /\ expiry_date r' = expiry_date r)
       /\ (st_registrations st = table ->
           (exists e, expiry_date reg = Js.TsString e)
           \/ Z.abs target <= 8640000000000000 ->
           forall z' t_stamp' t_expiry',
           exists r' r'',
             nth_error (Zoned.approve z true st t_stamp t_expiry key table) n
             = Some r'
             /\ status r' = "approved"
             /\ nth_error
                  (Zoned.approve z' true
                     {| st_registrations :=
                          Zoned.approve z true st t_stamp t_expiry key table;
                        st_categories := st_categories st;
                        searchQuery := searchQuery st;
                        statusFilter := statusFilter st;
                        categoryFilter := categoryFilter st;
                        panchayathFilter := panchayathFilter st;
                        expiryFilter := expiryFilter st |}
                     t_stamp' t_expiry' key
                     (Zoned.approve z true st t_stamp t_expiry key table)) n
                = Some r''
             /\ status r'' = "approved"
             /\ expiry_date r'' = expiry_date r').
Proof.
  intros Hn Hid Hc.
  destruct (zoned_approve_cases z st t_stamp t_expiry key table n r reg
              Hn Hid Hc) as (days & Hdays & H).
  exists days. split; [exact Hdays|].
  cbv zeta in H |- *. destruct H as (H1 & H2 & H3 & H4 & H5).
  assert (Hunset : expiry_date reg = Js.TsNull
                   \/ expiry_date reg = Js.TsUndefined ->
                   Js.truthy (expiry_date reg) = false)
    by (intros [-> | ->]; reflexivity).
  assert (Hset : (exists e, expiry_date reg = Js.TsString e) ->
                 Js.truthy (expiry_date reg) = true)
    by (intros (e & ->); reflexivity).
  split; [exact H1|].
  split; [intros Hu Hin; exact (H2 (Hunset Hu) Hin)|].
  split; [intros Hu Hout; exact (H3 (Hunset Hu) Hout)|].
  split; [intros Hs; exact (H4 (Hset Hs))|].
  intros Hfresh Hwrites z' t_stamp' t_expiry'.
  assert (Hw : Js.truthy (expiry_date reg) = true
               \/ Z.abs
                    (t_expiry + Zoned.tza_of_utc z t_expiry
                     + days * Js.MS_PER_DAY
                     - Zoned.tza_of_local z
                         (t_expiry + Zoned.tza_of_utc z t_expiry
                          + days * Js.MS_PER_DAY))
                  <= Zoned.MAX_TIME)
    by (destruct Hwrites as [Hs | Hin]; [left; exact (Hset Hs) | right; exact Hin]).
  destruct (H5 Hfresh Hw z' t_stamp' t_expiry')
    as (r' & r'' & Hr' & Hst' & Hr'' & Hst'' & He).
  exists r', r''. auto.
Qed.

(** C1, witness: approving the sample registration in the zone of Indian
    Standard Time, ten days after its creation. *)
Lemma approve_counts_expiry_from_clock_witness :
  exists r',
    nth_error
      (Zoned.approve Samples.ist_zone true (Samples.tab [Samples.fresh])
                     Samples.clock Samples.clock "r1" [Samples.fresh]) 0
    = Some r'
    /\ status r' = "approved"
    /\ expiry_date r' = Js.TsString (Samples.clock + 45 * Js.MS_PER_DAY).
Proof.
  destruct (approve_counts_expiry_from_clock
              Samples.ist_zone (Samples.tab [Samples.fresh]) Samples.clock
              Samples.clock "r1" [Samples.fresh] 0%nat Samples.fresh
              Samples.fresh eq_refl eq_refl eq_refl)
    as (days & Hdays & _ & Hwrite & _).
  assert (Hd : days = 45).
  { destruct Hdays as [(c & Hcat & Hc & _) | (_ & [Hcat | (c & Hcat & Hc)])].
    - injection Hcat as <-. injection Hc as <-. reflexivity.
    - discriminate Hcat.
    - injection Hcat as <-. destruct Hc as [Hc | Hc]; discriminate Hc. }
  subst days.
  destruct (Hwrite (or_introl eq_refl)) as (r' & Hrow & Hstatus & Hexpiry).
  - discriminate.
  - exists r'. split; [exact Hrow|]. split; [exact Hstatus|].
    rewrite Hexpiry. reflexivity.
Defined.

(** C1, counterexample: a pending registration without expiry_date, created
    ten days before its approval, in a category of 45 days, approved in the
    zone of Indian Standard Time.  The expiry date written is 45 days after
    the approval, not 45 days after [created_at]. *)
Lemma approve_ignores_created_at :
  status Samples.fresh = "pending"
  /\ expiry_date Samples.fresh = Js.TsNull
  /\ find (fun c => String.eqb (cat_id c) (category_id Samples.fresh))
          (st_categories (Samples.tab [Samples.fresh]))
     = Some Samples.job_card
  /\ expiry_days Samples.job_card = Some 45
  /\ exists r',
       Zoned.approve Samples.ist_zone true (Samples.tab [Samples.fresh])
                     Samples.clock Samples.clock "r1" [Samples.fresh] = [r']
       /\ expiry_date r' = Js.TsString (Samples.clock + 45 * Js.MS_PER_DAY)
       /\ expiry_date r'
          <> Js.TsString (created_at Samples.fresh + 45 * Js.MS_PER_DAY).
Proof.
  repeat (split; [reflexivity|]).
  eexists. split; [reflexivity|]. split; [reflexivity|].
  vm_compute. discriminate.
Qed.

(** Two approvals off the regular case: across a change of the clocks the
    expiry is 45 days less one hour after the approval, and with
    expiry_days of 100 000 000 the date leaves the range of Date and the
    table stays as it was. *)
Lemma approve_off_the_regular_case :
  (exists r',
     Zoned.approve Samples.summer_zone true (Samples.tab [Samples.fresh])
                   Samples.clock Samples.clock "r1" [Samples.fresh] = [r']
     /\ expiry_date r'
        = Js.TsString (Samples.clock + 45 * Js.MS_PER_DAY - 3600000))
  /\ Zoned.approve Samples.ist_zone true Samples.endless_tab Samples.clock
                   Samples.clock "r10" [Samples.endless_member]
     = [Samples.endless_member].
Proof.
  split; [eexists; split; reflexivity | reflexivity].
Qed.

(** The row at position [n] after a confirmed and accepted restore. *)
Lemma restore_row key table n r :
  nth_error table n = Some r -> id r = key ->
  nth_error (restoreRegistration true true key table) n
  = Some (apply_update
            {| u_status := Some "pending";
               u_approved_date := Some None;
               u_approved_by := Some None;
               u_expiry_date := None |} r).
Proof.
  intros Hn Hid. unfold restoreRegistration.
  rewrite supabase_update_nth, Hn. simpl.
  rewrite Hid, String.eqb_refl. reflexivity.
Qed.

(** C4: for every registration (with status approved or rejected, or any
    other), a confirmed restore() sets status to pending and sets both
    approved_date and approved_by to null, and leaves expiry_date and every
    other field as they were; the other rows of the table are untouched. *)
Theorem restore_clears_approval_only
    (key : string) (table : list Registration) (n : nat) (r : Registration) :
  nth_error table n = Some r ->
  id r = key ->
  nth_error (restoreRegistration true true key table) n =
    Some {| id := id r;
            customer_id := customer_id r;
            full_name := full_name r;
            mobile_number := mobile_number r;
            address := address r;
            ward := ward r;
            agent := agent r;
            status := "pending";
            fee := fee r;
            created_at := created_at r;
            approved_date := None;
            approved_by := None;
            expiry_date := expiry_date r;
            category_id := category_id r;
            preference_category_id := preference_category_id r;
            panchayath_id := panchayath_id r;
            categories := categories r;
            preference_categories := preference_categories r;
            panchayaths := panchayaths r |}
  /\ List.length (restoreRegistration true true key table) = List.length table
  /\ (forall m other,
        nth_error table m = Some other -> id other <> key ->
        nth_error (restoreRegistration true true key table) m = Some other).
Proof.
  intros Hn Hid. split; [|split].
  - rewrite (restore_row key table n r Hn Hid). reflexivity.
  - apply supabase_update_length.
  - intros m other Hm Hother. unfold restoreRegistration.
    rewrite supabase_update_nth, Hm. simpl.
    apply String.eqb_neq in Hother. rewrite Hother. reflexivity.
Qed.

(** C4, witness: restoring an approved registration that carries an
    expiry date. *)
Lemma restore_clears_approval_only_witness :
  let approved :=
    apply_update
      {| u_status := Some "approved";
         u_approved_date := Some (Some Samples.clock);
         u_approved_by := Some (Some "eva");
         u_expiry_date := Some (Js.TsString (Samples.clock + 45 * Samples.day)) |}
      Samples.fresh in
  exists r',
    nth_error (restoreRegistration true true "r1" [approved]) 0 = Some r'
    /\ status r' = "pending"
    /\ approved_date r' = None
    /\ approved_by r' = None
    /\ expiry_date r' = Js.TsString (Samples.clock + 45 * Samples.day).
Proof.
  intros approved.
  destruct (restore_clears_approval_only "r1" [approved] 0%nat approved
              eq_refl eq_refl) as (Hrow & _ & _).
  eexists. split; [exact Hrow|]. repeat split.
Defined.





(** The operations of this module and the zone.  [approve] above computes
    the expiry as [Js.addDays] does; it is the approval in a zone with one
    offset while the expiry stays inside the range of [Date].  In any zone
    an approval keeps approved_date and approved_by paired, since it either
    writes both or, when the date leaves the range, writes nothing. *)
Lemma zoned_approve_regular off ok st t_stamp t_expiry key table :
  (forall reg, cached st key = Some reg ->
     Z.abs (t_expiry + expiryDays_of (category_of st reg) * Js.MS_PER_DAY)
     <= Zoned.MAX_TIME) ->
  Zoned.approve (Zoned.fixed off) ok st t_stamp t_expiry key table
  = approve ok st t_stamp t_expiry key table.
Proof.
  intros Hrange. unfold Zoned.approve, Zoned.updateRegistrationStatus.
  rewrite (zoned_regular_case off st t_stamp t_expiry key "approved" Hrange).
  reflexivity.
Qed.

Lemma zoned_approve_paired z ok st t_stamp t_expiry key table :
  Forall approval_paired table ->
  Forall approval_paired (Zoned.approve z ok st t_stamp t_expiry key table).
Proof.
  intros Hall. unfold Zoned.approve, Zoned.updateRegistrationStatus.
  destruct (Zoned.build_updateData z st t_stamp t_expiry key "approved")
    as [u|] eqn:Hu; [|exact Hall].
  apply supabase_update_Forall; [|exact Hall].
  intros r _. rewrite zoned_build_approved in Hu.
  destruct (cached st key) as [reg|];
    [destruct (Js.truthy (expiry_date reg));
     [|destruct (Z.abs _ <=? Zoned.MAX_TIME)]|];
    try discriminate Hu; injection Hu as <-;
    unfold approval_paired; simpl; split; discriminate.
Qed.

End Lifecycle.

(** ** Expiry classification: the filter of the tab and the buckets of the
    notification widget *)

Module Expiry.

Import RegistrationsTab NotificationBell.

Lemma insert_by_perm {A : Type} (cmp : A -> A -> Js.num) (x : A) (l : list A) :
  Permutation (insert_by cmp x l) (x :: l).
Proof.
  induction l as [|y rest IH]; cbn [insert_by]; [apply Permutation_refl|].
  destruct (Js.gt (cmp x y) (Js.Num 0)).
  - eapply perm_trans; [apply perm_skip, IH | apply perm_swap].
  - apply Permutation_refl.
Qed.

Lemma js_sort_perm {A : Type} (cmp : A -> A -> Js.num) (l : list A) :
  Permutation (js_sort cmp l) l.
Proof.
  induction l as [|x rest IH]; simpl; [constructor|].
  eapply perm_trans; [apply insert_by_perm | apply perm_skip, IH].
Qed.

Lemma js_sort_In {A : Type} (cmp : A -> A -> Js.num) (l : list A) (x : A) :
  In x (js_sort cmp l) <-> In x l.
Proof.
  split; apply Permutation_in;
    [apply js_sort_perm | apply Permutation_sym, js_sort_perm].
Qed.

Lemma days_le_trans a b c : days_le a b -> days_le b c -> days_le a c.
Proof.
  intros (x & y & Hx & Hy & Hxy) (y' & z & Hy' & Hz & Hyz).
  rewrite Hy in Hy'. injection Hy' as <-.
  exists x, z. repeat split; trivial. lia.
Qed.

(** Where the comparator says "not greater", the order is ascending. *)
Lemma compare_days_not_gt a b :
  numeric a -> numeric b ->
  Js.gt (compare_days a b) (Js.Num 0) = false -> days_le a b.
Proof.
  intros [x Hx] [y Hy] H. unfold compare_days in H. rewrite Hx, Hy in H.
  simpl in H. unfold Js.gt in H. simpl in H. apply Z.ltb_ge in H.
  exists x, y. repeat split; trivial. lia.
Qed.

Lemma compare_days_gt a b :
  numeric a -> numeric b ->
  Js.gt (compare_days a b) (Js.Num 0) = true -> days_le b a.
Proof.
  intros [x Hx] [y Hy] H. unfold compare_days in H. rewrite Hx, Hy in H.
  simpl in H. unfold Js.gt in H. simpl in H. apply Z.ltb_lt in H.
  exists y, x. repeat split; trivial. lia.
Qed.

Lemma insert_by_sorted x l :
  numeric x -> Forall numeric l ->
  StronglySorted days_le l ->
  StronglySorted days_le (insert_by compare_days x l).
Proof.
  intros Hx Hnum Hs. induction Hs as [|y rest Hrest IH Hy]; cbn [insert_by].
  - constructor; constructor.
  - inversion Hnum as [|? ? Hny Hnrest]; subst.
    destruct (Js.gt (compare_days x y) (Js.Num 0)) eqn:E.
    + constructor; [apply IH; assumption|].
      eapply Permutation_Forall;
        [apply Permutation_sym, insert_by_perm|].
      constructor; [apply compare_days_gt; assumption | exact Hy].
    + pose proof (compare_days_not_gt x y Hx Hny E) as Hxy.
      constructor; [constructor; assumption|].
      constructor; [exact Hxy|].
      eapply Forall_impl; [|exact Hy].
      intros z Hyz. eapply days_le_trans; eassumption.
Qed.

Lemma js_sort_sorted l :
  Forall numeric l -> StronglySorted days_le (js_sort compare_days l).
Proof.
  induction l as [|x rest IH]; intros Hnum; simpl; [constructor|].
  inversion Hnum as [|? ? Hx Hrest]; subst.
  apply insert_by_sorted; [exact Hx | | apply IH; exact Hrest].
  eapply Permutation_Forall; [apply Permutation_sym, js_sort_perm | exact Hrest].
Qed.

Lemma is_expired_iff a :
  is_expired a = true <-> exists d, days_remaining a = Js.Num d /\ d <= 0.
Proof.
  unfold is_expired. destruct (days_remaining a) as [|d]; simpl.
  - split; [discriminate | intros (d & H & _); discriminate].
  - rewrite Z.leb_le. split.
    + intros H. exists d. auto.
    + intros (d' & H & Hle). injection H as ->. exact Hle.
Qed.

Lemma is_expiring_iff a :
  is_expiring a = true <-> exists d, days_remaining a = Js.Num d /\ 0 < d <= 3.
Proof.
  unfold is_expiring, Js.gt. destruct (days_remaining a) as [|d]; simpl.
  - split; [discriminate | intros (d & H & _); discriminate].
  - rewrite andb_true_iff, Z.ltb_lt, Z.leb_le. split.
    + intros H. exists d. auto.
    + intros (d' & H & Hle). injection H as ->. exact Hle.
Qed.

Lemma filter_numeric (p : ExpiringRegistration -> bool) l :
  (forall a, p a = true -> numeric a) -> Forall numeric (filter p l).
Proof.
  intros Hp. apply Forall_forall. intros a Ha.
  apply filter_In in Ha. apply Hp, Ha.
Qed.

Lemma expired_numeric a : is_expired a = true -> numeric a.
Proof. intros H. apply is_expired_iff in H as (d & H & _). exists d. exact H. Qed.

Lemma expiring_numeric a : is_expiring a = true -> numeric a.
Proof. intros H. apply is_expiring_iff in H as (d & H & _). exists d. exact H. Qed.

(** The days remaining of a registration with an expiry date. *)
Lemma process_days now reg e :
  expiry_date reg = Js.TsString e ->
  days_remaining (process now reg)
  = Js.Num (Js.ceil_quot (e - now) Js.MS_PER_DAY).
Proof. intros H. unfold process. simpl. rewrite H. reflexivity. Qed.

Lemma daysLeft_process now reg :
  daysLeft now reg = days_remaining (process now reg).
Proof. reflexivity. Qed.

(** Membership in the two lists after a fetch. *)
Lemma in_expired_of now rows x :
  In x (expired_of now rows)
  <-> (exists r, In r rows /\ x = process now r) /\ is_expired x = true.
Proof.
  unfold expired_of. rewrite js_sort_In, filter_In, in_map_iff.
  split; intros [(r & H1 & H2) H]; (split; [exists r; auto | exact H]).
Qed.

Lemma in_expiring_of now rows x :
  In x (expiring_of now rows)
  <-> (exists r, In r rows /\ x = process now r) /\ is_expiring x = true.
Proof.
  unfold expiring_of. rewrite js_sort_In, filter_In, in_map_iff.
  split; intros [(r & H1 & H2) H]; (split; [exists r; auto | exact H]).
Qed.

Lemma in_query_pending table r :
  In r (query_pending table) <-> In r table /\ status r = "pending".
Proof.
  unfold query_pending. rewrite filter_In, String.eqb_eq. reflexivity.
Qed.

(** The expiry condition is one conjunct of the tab's filter, and the whole
    of it when no other filter is set. *)
Lemma filteredRegistrations_sound st now r :
  In r (filteredRegistrations st now) ->
  In r (st_registrations st) /\ matchesExpiry (expiryFilter st) now r = true.
Proof.
  unfold filteredRegistrations, matches. rewrite filter_In.
  intros [Hin H]. apply andb_true_iff in H as [_ H]. auto.
Qed.

Lemma filteredRegistrations_expiry_only st now :
  searchQuery st = "" -> statusFilter st = "all" ->
  categoryFilter st = "all" -> panchayathFilter st = "all" ->
  filteredRegistrations st now
  = filter (matchesExpiry (expiryFilter st) now) (st_registrations st).
Proof.
  intros Hq Hs Hc Hp. unfold filteredRegistrations.
  apply filter_ext. intros r. unfold matches, matchesSearch.
  rewrite Hq, Hs, Hc, Hp. reflexivity.
Qed.




(** The thresholds 0 and 5 on registrations with -5, -1, 0, 1, 5 and 6 days
    remaining. *)
Lemma expiry_filter_examples :
  let left d := Samples.registration "r" "D" "pending" 0
                  (Js.TsString (Samples.clock + d * Samples.day)) in
  map (fun d => matchesExpiry "0" Samples.clock (left d)) [-5; 0; 1]
  = [true; true; false]
  /\ map (fun d => matchesExpiry "5" Samples.clock (left d))
         [-1; 0; 1; 2; 3; 4; 5; 6]
     = [false; true; true; true; true; true; true; false].
Proof. split; vm_compute; reflexivity. Qed.

(** In a table whose ids are unique, a row is determined by its id. *)
Lemma unique_id (table : list Registration) r1 r2 :
  NoDup (map id table) -> In r1 table -> In r2 table -> id r1 = id r2 ->
  r1 = r2.
Proof.
  induction table as [|r rest IH]; intros Hnd H1 H2 Hid; [contradiction|].
  simpl in Hnd. inversion Hnd as [|? ? Hnotin Hrest]; subst.
  destruct H1 as [-> | H1], H2 as [-> | H2].
  - reflexivity.
  - exfalso. apply Hnotin. rewrite Hid. apply in_map, H2.
  - exfalso. apply Hnotin. rewrite <- Hid. apply in_map, H1.
  - apply IH; assumption.
Qed.

(** C3 (as amended): the notification widget classifies the registrations
    with status pending.  For each of them that has an expiry_date it
    computes days_remaining = ceil((expiry_date - now) / 1 day) on the raw
    time difference, and places it in expired iff days_remaining <= 0, in
    expiring-soon iff 0 < days_remaining <= 3, and in neither list (normal)
    iff days_remaining > 3.  Every entry of the two lists comes from a
    pending registration: an approved or rejected registration is never
    placed in expired or expiring-soon, whatever its expiry_date (ids being
    unique in the table). *)
Theorem classifier_buckets_pending_only
    (table : list Registration) (now : Z) (s : State) :
  let s' := fetchExpiringRegistrations true table now s in
  (forall r e,
     In r table -> status r = "pending" -> expiry_date r = Js.TsString e ->
     let d := Js.ceil_quot (e - now) Js.MS_PER_DAY in
     days_remaining (process now r) = Js.Num d
     /\ (d - 1) * Js.MS_PER_DAY < e - now <= d * Js.MS_PER_DAY
     /\ (In (process now r) (expiredRegistrations s') <-> d <= 0)
     /\ (In (process now r) (expiringRegistrations s') <-> 0 < d <= 3)
     /\ (~ In (process now r) (expiredRegistrations s')
         /\ ~ In (process now r) (expiringRegistrations s') <-> 3 < d))
  /\ (forall x,
        In x (expiredRegistrations s') \/ In x (expiringRegistrations s') ->
        exists r, In r table /\ status r = "pending" /\ x = process now r)
  /\ (forall r,
        NoDup (map id table) -> In r table -> status r <> "pending" ->
        ~ In (process now r) (expiredRegistrations s')
        /\ ~ In (process now r) (expiringRegistrations s')).
Proof.
  cbv zeta.
  assert (Hfrom : forall x,
            In x (expiredRegistrations
                    (fetchExpiringRegistrations true table now s))
            \/ In x (expiringRegistrations
                       (fetchExpiringRegistrations true table now s)) ->
            exists r, In r table /\ status r = "pending" /\ x = process now r).
  { intros x Hx.
    cbn [fetchExpiringRegistrations with_loading with_lists
         expiredRegistrations expiringRegistrations] in Hx.
    destruct Hx as [Hx | Hx];
      [apply in_expired_of in Hx | apply in_expiring_of in Hx];
      destruct Hx as [(r & Hr & ->) _];
      apply in_query_pending in Hr as [Hr Hst]; exists r; auto. }
  split; [|split; [exact Hfrom|]].
  2:{ intros r Hnd Hin Hst.
      assert (Hno : forall r', In r' table -> status r' = "pending" ->
                      process now r <> process now r').
      { intros r' Hin' Hst' Heq. apply Hst.
        assert (Hid : id r = id r') by exact (f_equal er_id Heq).
        rewrite (unique_id table r r' Hnd Hin Hin' Hid). exact Hst'. }
      split; intros Hx;
        [destruct (Hfrom _ (or_introl Hx)) as (r' & Hin' & Hst' & Heq)
        |destruct (Hfrom _ (or_intror Hx)) as (r' & Hin' & Hst' & Heq)];
        exact (Hno r' Hin' Hst' Heq). }
  - intros r e Hin Hst He.
    pose proof (process_days now r e He) as Hd.
    set (d := Js.ceil_quot (e - now) Js.MS_PER_DAY) in *.
    assert (Hq : In r (query_pending table)) by (apply in_query_pending; auto).
    assert (Hexp : In (process now r)
                      (expiredRegistrations
                         (fetchExpiringRegistrations true table now s))
                   <-> d <= 0).
    { cbn [fetchExpiringRegistrations with_loading with_lists
           expiredRegistrations].
      rewrite in_expired_of, is_expired_iff. split.
      - intros [_ (d' & H & Hle)]. rewrite Hd in H. injection H as <-. exact Hle.
      - intros Hle. split; [exists r; auto | exists d; auto]. }
    assert (Hsoon : In (process now r)
                       (expiringRegistrations
                          (fetchExpiringRegistrations true table now s))
                    <-> 0 < d <= 3).
    { cbn [fetchExpiringRegistrations with_loading with_lists
           expiringRegistrations].
      rewrite in_expiring_of, is_expiring_iff. split.
      - intros [_ (d' & H & Hle)]. rewrite Hd in H. injection H as <-. exact Hle.
      - intros Hle. split; [exists r; auto | exists d; auto]. }
    split; [exact Hd|].
    split; [apply JsFacts.ceil_quot_spec; reflexivity|].
    split; [exact Hexp|]. split; [exact Hsoon|].
    rewrite Hexp, Hsoon. lia.
Qed.

(** C3, counterexample: a rejected registration (status other than
    approved) whose expiry_date lies five days back has days_remaining = -5,
    yet the widget places it in neither list. *)
Lemma rejected_registration_not_classified :
  let r := Samples.registration "r2" "Binu" "rejected"
             (Samples.clock - 40 * Samples.day)
             (Js.TsString (Samples.clock - 5 * Samples.day)) in
  status r <> "approved"
  /\ days_remaining (process Samples.clock r) = Js.Num (-5)
  /\ expiredRegistrations
       (fetchExpiringRegistrations true [r] Samples.clock initial) = []
  /\ expiringRegistrations
       (fetchExpiringRegistrations true [r] Samples.clock initial) = [].
Proof.
  cbv zeta. split; [discriminate|]. repeat split.
Qed.

(** The boundaries of the classification: exactly 3 days ahead is
    expiring-soon, one second more is normal, and an expiry at [now] or
    earlier is expired. *)
Lemma classifier_boundaries :
  let at_ e := process Samples.clock
                 (Samples.registration "r" "E" "pending" 0 (Js.TsString e)) in
  is_expiring (at_ (Samples.clock + 3 * Samples.day)) = true
  /\ is_expiring (at_ (Samples.clock + 3 * Samples.day + 1000)) = false
  /\ is_expired (at_ (Samples.clock + 3 * Samples.day + 1000)) = false
  /\ days_remaining (at_ (Samples.clock + 3 * Samples.day + 1000)) = Js.Num 4
  /\ is_expired (at_ Samples.clock) = true
  /\ is_expired (at_ (Samples.clock - 1)) = true
  /\ days_remaining (at_ (Samples.clock + 1)) = Js.Num 1.
Proof. repeat split. Qed.





(** The two tests of the widget on a registration, in terms of the
    instant of its expiry date. *)
Lemma is_expired_process (now : Z) (reg : Registration) :
  is_expired (process now reg)
  = match expiry_date reg with
    | Js.TsString e => e <=? now
    | Js.TsNull => 0 <=? now
    | Js.TsUndefined => false
    end.
Proof.
  assert (Hpos : 0 < Js.MS_PER_DAY) by reflexivity.
  assert (H : forall e, (Js.ceil_quot (e - now) Js.MS_PER_DAY <=? 0)
                        = (e <=? now)).
  { intros e. pose proof (JsFacts.ceil_quot_le (e - now) Js.MS_PER_DAY 0 Hpos).
    destruct (Z.leb_spec (Js.ceil_quot (e - now) Js.MS_PER_DAY) 0),
             (Z.leb_spec e now); trivial; lia. }
  unfold is_expired, process. cbn [days_remaining].
  destruct (expiry_date reg) as [| |e];
    cbn [Js.new_Date Js.getTime Js.sub Js.Math_ceil_div Js.le];
    [reflexivity | apply (H 0) | apply H].
Qed.

Lemma is_expiring_process (now : Z) (reg : Registration) :
  is_expiring (process now reg)
  = match expiry_date reg with
    | Js.TsString e => ((now <? e) && (e <=? now + 3 * 86400000))%bool
    | Js.TsNull => ((now <? 0) && (0 <=? now + 3 * 86400000))%bool
    | Js.TsUndefined => false
    end.
Proof.
  assert (Hpos : 0 < Js.MS_PER_DAY) by reflexivity.
  assert (H : forall e,
            ((0 <? Js.ceil_quot (e - now) Js.MS_PER_DAY)
             && (Js.ceil_quot (e - now) Js.MS_PER_DAY <=? 3))%bool
            = ((now <? e) && (e <=? now + 3 * 86400000))%bool).
  { intros e.
    pose proof (JsFacts.ceil_quot_le (e - now) Js.MS_PER_DAY 3 Hpos) as H3.
    pose proof (JsFacts.ceil_quot_gt (e - now) Js.MS_PER_DAY 0 Hpos) as H0.
    rewrite JsFacts.MS_PER_DAY_value in H3 at 2.
    destruct (Z.ltb_spec 0 (Js.ceil_quot (e - now) Js.MS_PER_DAY)),
             (Z.leb_spec (Js.ceil_quot (e - now) Js.MS_PER_DAY) 3),
             (Z.ltb_spec now e), (Z.leb_spec e (now + 3 * 86400000));
      trivial; lia. }
  unfold is_expiring, process, Js.gt. cbn [days_remaining].
  destruct (expiry_date reg) as [| |e];
    cbn [Js.new_Date Js.getTime Js.sub Js.Math_ceil_div Js.le Js.lt];
    [reflexivity | apply (H 0) | apply H].
Qed.

Lemma filter_map_length {A B : Type} (f : A -> B) (p : B -> bool)
    (q : A -> bool) (l : list A) :
  List.length (filter p (map f (filter q l)))
  = List.length (filter (fun a => (q a && p (f a))%bool) l).
Proof.
  induction l as [|a l IH]; simpl; [reflexivity|].
  destruct (q a); simpl; [|exact IH].
  destruct (p (f a)); simpl; rewrite IH; reflexivity.
Qed.

(** How many entries the two lists hold after a fetch that the backend
    answered. *)
Lemma expired_of_length (now : Z) (table : list Registration) :
  List.length (expired_of now (query_pending table))
  = List.length
      (filter (fun r => (String.eqb (status r) "pending"
                         && match expiry_date r with
                            | Js.TsString e => e <=? now
                            | Js.TsNull => 0 <=? now
                            | Js.TsUndefined => false
                            end)%bool) table).
Proof.
  unfold expired_of. rewrite (Permutation_length (js_sort_perm _ _)).
  unfold query_pending. rewrite filter_map_length.
  f_equal. apply filter_ext. intros r.
  rewrite is_expired_process. reflexivity.
Qed.

Lemma expiring_of_length (now : Z) (table : list Registration) :
  List.length (expiring_of now (query_pending table))
  = List.length
      (filter (fun r => (String.eqb (status r) "pending"
                         && match expiry_date r with
                            | Js.TsString e =>
                                (now <? e) && (e <=? now + 3 * 86400000)
                            | Js.TsNull =>
                                (now <? 0) && (0 <=? now + 3 * 86400000)
                            | Js.TsUndefined => false
                            end)%bool) table).
Proof.
  unfold expiring_of. rewrite (Permutation_length (js_sort_perm _ _)).
  unfold query_pending. rewrite filter_map_length.
  f_equal. apply filter_ext. intros r.
  rewrite is_expiring_process. reflexivity.
Qed.





(** The two lists on a table of five registrations: the approved one and
    the one a month away are left out, the overdue ones come most overdue
    first. *)
Lemma aggregator_example :
  let reg key st d :=
    Samples.registration key key st 0
      (Js.TsString (Samples.clock + d * Samples.day)) in
  let s' := fetchExpiringRegistrations true
              [reg "a" "pending" 2; reg "b" "pending" (-1);
               reg "c" "approved" (-9); reg "d" "pending" (-7);
               reg "e" "pending" 30; reg "f" "pending" 1]
              Samples.clock initial in
  map er_id (alert_registrations s') = ["d"; "b"; "f"; "a"]
  /\ map days_remaining (alert_registrations s')
     = [Js.Num (-7); Js.Num (-1); Js.Num 1; Js.Num 2]
  /\ expired_count s' = 2%nat /\ expiring_count s' = 2%nat.
Proof. repeat split. Qed.

(** How the two components read a registration without expiry date.  A
    missing (undefined) expiry_date gives days_remaining NaN: the
    registration is placed in neither list of the notification widget and
    matches no threshold of the ad-hoc filter.  A null expiry_date is read as
    the epoch: days_remaining is ceil(-now / 1 day), at most 0 at any
    instant from the epoch on, so a pending registration is placed in the
    expired list and a non-approved one matches the threshold 0. *)
Lemma missing_expiry_date_days (now : Z) (reg : Registration) :
  (expiry_date reg = Js.TsUndefined ->
   days_remaining (process now reg) = Js.NaN
   /\ daysLeft now reg = Js.NaN
   /\ (forall table s,
         ~ In (process now reg)
              (expiredRegistrations (fetchExpiringRegistrations true table now s))
         /\ ~ In (process now reg)
                 (expiringRegistrations (fetchExpiringRegistrations true table now s)))
   /\ (forall text, text <> "" -> matchesExpiry text now reg = false))
  /\ (expiry_date reg = Js.TsNull ->
      days_remaining (process now reg)
      = Js.Num (Js.ceil_quot (- now) Js.MS_PER_DAY)
      /\ daysLeft now reg = Js.Num (Js.ceil_quot (- now) Js.MS_PER_DAY)
      /\ (0 <= now ->
          Js.ceil_quot (- now) Js.MS_PER_DAY <= 0
          /\ (forall table s,
                In reg table -> status reg = "pending" ->
                In (process now reg)
                   (expiredRegistrations
                      (fetchExpiringRegistrations true table now s)))
          /\ (forall text,
                text <> "" -> Text.parseInt text = Js.Num 0 ->
                status reg <> "approved" ->
                matchesExpiry text now reg = true))).
Proof.
  split.
  - intros Hu.
    assert (Hd : days_remaining (process now reg) = Js.NaN)
      by (unfold process; simpl; rewrite Hu; reflexivity).
    split; [exact Hd|]. split; [rewrite daysLeft_process; exact Hd|]. split.
    + intros table s.
      cbn [fetchExpiringRegistrations with_loading with_lists
           expiredRegistrations expiringRegistrations].
      rewrite in_expired_of, in_expiring_of, is_expired_iff, is_expiring_iff.
      split; intros [_ (d & H & _)]; rewrite Hd in H; discriminate.
    + intros text Htext. apply String.eqb_neq in Htext.
      unfold matchesExpiry. rewrite Htext, daysLeft_process, Hd.
      destruct (String.eqb (status reg) "approved"); [reflexivity|].
      destruct (Js.strict_eq _ _); reflexivity.
  - intros Hn.
    assert (Hd : days_remaining (process now reg)
                 = Js.Num (Js.ceil_quot (- now) Js.MS_PER_DAY))
      by (unfold process; simpl; rewrite Hn; reflexivity).
    split; [exact Hd|]. split; [rewrite daysLeft_process; exact Hd|].
    intros Hnow.
    assert (Hle : Js.ceil_quot (- now) Js.MS_PER_DAY <= 0).
    { apply JsFacts.ceil_quot_le; [reflexivity | lia]. }
    split; [exact Hle|]. split.
    + intros table s Hin Hst.
      cbn [fetchExpiringRegistrations with_loading with_lists
           expiredRegistrations].
      rewrite in_expired_of, is_expired_iff. split.
      * exists reg. split; [apply in_query_pending; auto | reflexivity].
      * eexists. split; [exact Hd | exact Hle].
    + intros text Htext Hparse Hst.
      apply String.eqb_neq in Htext. apply String.eqb_neq in Hst.
      unfold matchesExpiry.
      rewrite Htext, Hst, Hparse, daysLeft_process, Hd. simpl.
      apply Z.leb_le. exact Hle.
Qed.

(** C9, at the failing input: a pending registration whose expiry_date is
    null.  The claim has days_remaining NaN and the registration left out
    of every expiry-based view; the code reads null as the epoch, so
    days_remaining is -20394 in November 2025, the widget lists the
    registration as expired and the threshold 0 of the filter matches it.
    (The table cells and the export of the same file test expiry_date before
    they use it.) *)
Theorem null_expiry_counts_as_expired :
  status Samples.fresh = "pending"
  /\ expiry_date Samples.fresh = Js.TsNull
  /\ days_remaining (process Samples.clock Samples.fresh) = Js.Num (-20394)
  /\ map er_id
       (expiredRegistrations
          (fetchExpiringRegistrations true [Samples.fresh] Samples.clock
                                      initial)) = ["r1"]
  /\ matchesExpiry "0" Samples.clock Samples.fresh = true.
Proof. repeat split. Qed.

End Expiry.

(** ** The auto-show effect of the notification widget *)

Module AutoShow.

Import NotificationBell.

Lemma deps_eqb_eq a b : deps_eqb a b = true <-> a = b.
Proof.
  destruct a as [[a1 a2] a3], b as [[b1 b2] b3]. unfold deps_eqb.
  rewrite !andb_true_iff, !Nat.eqb_eq, Bool.eqb_true_iff.
  split; [intros [[-> ->] ->]; reflexivity | intros H; injection H; auto].
Qed.

(** The effect's condition is a function of its dependencies. *)
Lemma should_auto_show_deps s1 s2 :
  deps s1 = deps s2 -> should_auto_show s1 = should_auto_show s2.
Proof.
  unfold deps, should_auto_show. intros H. injection H as -> -> ->. reflexivity.
Qed.

Lemma run_effect_fields t s1 s2 :
  expiredRegistrations (run_effect t s1 s2) = expiredRegistrations s2
  /\ expiringRegistrations (run_effect t s1 s2) = expiringRegistrations s2
  /\ showAlert (run_effect t s1 s2) = showAlert s2
  /\ acknowledged (run_effect t s1 s2) = acknowledged s2
  /\ mounted (run_effect t s1 s2) = mounted s2.
Proof. unfold run_effect. destruct (deps_eqb _ _); repeat split. Qed.

Lemma run_effect_deps t s1 s2 : deps (run_effect t s1 s2) = deps s2.
Proof. unfold run_effect. destruct (deps_eqb _ _); reflexivity. Qed.

Lemma run_effect_condition t s1 s2 :
  should_auto_show (run_effect t s1 s2) = should_auto_show s2.
Proof. apply should_auto_show_deps, run_effect_deps. Qed.

(** The timer after a render. *)
Lemma run_effect_timer t s1 s2 :
  timer (run_effect t s1 s2)
  = if deps_eqb (deps s1) (deps s2) then timer s2
    else if should_auto_show s2 then Some (t + 2000) else None.
Proof. unfold run_effect. destruct (deps_eqb _ _); reflexivity. Qed.

(** The state that a state update hands to the effect differs from the
    state before only in the fields the update writes. *)
Lemma fetch_keeps t ok table s :
  timer (fetchExpiringRegistrations ok table t s) = timer s
  /\ acknowledged (fetchExpiringRegistrations ok table t s) = acknowledged s
  /\ showAlert (fetchExpiringRegistrations ok table t s) = showAlert s
  /\ mounted (fetchExpiringRegistrations ok table t s) = mounted s.
Proof. unfold fetchExpiringRegistrations. destruct ok; repeat split. Qed.

Lemma step_unmounted t e s : mounted s = false -> step t e s = s.
Proof. intros H. unfold step. rewrite H. reflexivity. Qed.

(** A click on a bell, which is disabled while a fetch is under way. *)
Lemma bell_keeps s :
  timer (if loading s then s else handleNotificationClick s) = timer s
  /\ deps (if loading s then s else handleNotificationClick s) = deps s
  /\ mounted (if loading s then s else handleNotificationClick s) = mounted s
  /\ alert_registrations (if loading s then s else handleNotificationClick s)
     = alert_registrations s
  /\ acknowledged (if loading s then s else handleNotificationClick s)
     = acknowledged s.
Proof.
  destruct (loading s); [repeat split|].
  unfold handleNotificationClick. destruct (_ || _)%bool; repeat split.
Qed.

(** The dependencies change only when a fetch ends or on "Got it". *)
Lemma step_deps t e s :
  deps (step t e s) <> deps s ->
  (exists ok table, e = FetchEnds ok table) \/ e = GotIt.
Proof.
  intros H. unfold step in H. destruct (mounted s); simpl in H;
    [|contradiction].
  destruct e; try (now left; eauto); try (now right); exfalso; apply H;
    try reflexivity.
  - apply bell_keeps.
  - destruct (timer s) as [due|]; [destruct (due <=? t)|]; reflexivity.
Qed.

Lemma step_timer_armed t e s :
  mounted s = true ->
  deps (step t e s) <> deps s ->
  timer (step t e s)
  = if should_auto_show (step t e s) then Some (t + 2000) else None.
Proof.
  intros Hm Hdeps.
  destruct (step_deps t e s Hdeps) as [(ok & table & ->) | ->];
    unfold step in *; rewrite Hm in *; cbn [negb] in *;
    rewrite run_effect_deps in Hdeps;
    rewrite run_effect_timer, run_effect_condition;
    (destruct (deps_eqb _ _) eqn:E;
     [apply deps_eqb_eq in E; congruence | reflexivity]).
Qed.

(** A pending timer means that the effect's condition holds and that the
    component is mounted. *)
Lemma timer_invariant_step t e s :
  timer_invariant s -> timer_invariant (step t e s).
Proof.
  unfold timer_invariant. intros Hinv.
  destruct (Bool.bool_dec (mounted s) true) as [Hm | Hm];
    [|apply Bool.not_true_is_false in Hm;
      rewrite step_unmounted by exact Hm; exact Hinv].
  assert (Heff : forall s2, mounted s2 = true -> timer s2 = timer s ->
                   timer (run_effect t s s2) = None
                   \/ should_auto_show (run_effect t s s2) = true
                      /\ mounted (run_effect t s s2) = true).
  { intros s2 Hm2 Ht2. rewrite run_effect_timer, run_effect_condition.
    destruct (run_effect_fields t s s2) as (_ & _ & _ & _ & ->).
    destruct (deps_eqb _ _) eqn:E.
    - apply deps_eqb_eq in E. rewrite Ht2.
      rewrite <- (should_auto_show_deps _ _ E).
      destruct Hinv as [H | [H _]]; auto.
    - destruct (should_auto_show s2); auto. }
  unfold step. rewrite Hm. cbn [negb].
  destruct e.
  - exact Hinv.
  - apply Heff; [rewrite <- Hm | ]; apply fetch_keeps.
  - apply Heff; [exact Hm | reflexivity].
  - exact Hinv.
  - destruct (bell_keeps s) as (Ht & Hd & Hmm & _).
    rewrite Ht, Hmm, (should_auto_show_deps _ _ Hd). exact Hinv.
  - destruct (timer s) as [due|] eqn:Et; [destruct (due <=? t)|].
    + left. reflexivity.
    + right. destruct Hinv as [H | H]; [discriminate | exact H].
    + left. exact Et.
  - left. reflexivity.
Qed.

Lemma timer_invariant_run evs s :
  timer_invariant s -> timer_invariant (run evs s).
Proof.
  revert s. induction evs as [|[t e] rest IH]; intros s H; simpl; [exact H|].
  apply IH, timer_invariant_step, H.
Qed.

Lemma timer_invariant_initial : timer_invariant initial.
Proof. left. reflexivity. Qed.

(** Once acknowledged, always acknowledged; and only "Got it" sets it. *)
Lemma step_acknowledged t e s :
  (acknowledged s = true -> acknowledged (step t e s) = true)
  /\ (acknowledged s = false -> acknowledged (step t e s) = true -> e = GotIt).
Proof.
  unfold step. destruct (mounted s); cbn [negb]; [|split; congruence].
  destruct e; cbn [with_loading with_showAlert acknowledged];
    try (split; congruence).
  - destruct (run_effect_fields t s (fetchExpiringRegistrations ok table t s))
      as (_ & _ & _ & -> & _).
    destruct (fetch_keeps t ok table s) as (_ & -> & _). split; congruence.
  - destruct (run_effect_fields t s (with_acknowledged true s))
      as (_ & _ & _ & -> & _). split; reflexivity.
  - destruct (bell_keeps s) as (_ & _ & _ & _ & ->). split; congruence.
  - destruct (timer s) as [due|]; [destruct (due <=? t)|];
      simpl; split; congruence.
Qed.

(** Without a pending timer the alert opens only on a click or when the
    dialog asks for it. *)
Lemma step_opens_without_timer t e s :
  timer s = None -> showAlert s = false -> showAlert (step t e s) = true ->
  e = BellClick \/ e = OpenChange true.
Proof.
  intros Ht Hshow H. unfold step in H.
  destruct (mounted s); cbn [negb] in H; [|congruence].
  destruct e; cbn [with_loading with_showAlert showAlert] in H;
    try congruence; auto.
  - destruct (run_effect_fields t s (fetchExpiringRegistrations ok table t s))
      as (_ & _ & E & _). rewrite E in H.
    destruct (fetch_keeps t ok table s) as (_ & _ & E' & _). congruence.
  - destruct (run_effect_fields t s (with_acknowledged true s))
      as (_ & _ & E & _). rewrite E in H. simpl in H. congruence.
  - subst b. auto.
  - rewrite Ht in H. congruence.
Qed.

(** Events that leave the dependencies alone leave a pending timer alone,
    the timer's own callback and the unmount apart. *)
Lemma timer_survives t e s :
  deps (step t e s) = deps s -> e <> TimerFires -> e <> Unmount ->
  timer (step t e s) = timer s.
Proof.
  intros Hd Hf Hu. unfold step in *.
  destruct (mounted s); cbn [negb] in *; [|reflexivity].
  destruct e; try reflexivity; try contradiction.
  - rewrite run_effect_deps in Hd. rewrite run_effect_timer.
    apply eq_sym, deps_eqb_eq in Hd. rewrite Hd. apply fetch_keeps.
  - rewrite run_effect_deps in Hd. rewrite run_effect_timer.
    apply eq_sym, deps_eqb_eq in Hd. rewrite Hd. reflexivity.
  - apply bell_keeps.
Qed.

Lemma step_stays_mounted t e s :
  e <> Unmount -> mounted (step t e s) = mounted s.
Proof.
  intros Hu. unfold step.
  destruct (mounted s) eqn:Hm; cbn [negb]; [|exact Hm].
  destruct e; try contradiction;
    cbn [mounted with_loading with_showAlert]; try exact Hm.
  - destruct (run_effect_fields t s (fetchExpiringRegistrations ok table t s))
      as (_ & _ & _ & _ & ->).
    rewrite <- Hm. apply fetch_keeps.
  - destruct (run_effect_fields t s (with_acknowledged true s))
      as (_ & _ & _ & _ & ->). exact Hm.
  - rewrite <- Hm. apply bell_keeps.
  - destruct (timer s) as [due|]; [destruct (due <=? t)|]; exact Hm.
Qed.

Lemma undisturbed_run evs : forall s,
  undisturbed evs s ->
  timer (run evs s) = timer s /\ mounted (run evs s) = mounted s
  /\ deps (run evs s) = deps s.
Proof.
  induction evs as [|[t e] rest IH]; intros s H; simpl; [auto|].
  destruct H as (Hf & Hu & Hd & Hrest).
  destruct (IH _ Hrest) as (-> & -> & ->).
  split; [apply timer_survives; assumption|].
  split; [apply step_stays_mounted; assumption | exact Hd].
Qed.

Lemma run_unmounted evs s : mounted s = false -> run evs s = s.
Proof.
  intros H. induction evs as [|[t e] rest IH]; simpl; [reflexivity|].
  rewrite step_unmounted by exact H. exact IH.
Qed.

(** The effect's condition and its dependencies, written on the lists. *)
Lemma length_pos_iff {A : Type} (l : list A) :
  Nat.ltb 0 (List.length l) = true <-> l <> [].
Proof.
  destruct l; simpl; split; try congruence; try discriminate; reflexivity.
Qed.

Lemma should_auto_show_true s :
  should_auto_show s = true
  <-> (expiredRegistrations s <> [] \/ expiringRegistrations s <> [])
      /\ acknowledged s = false.
Proof.
  unfold should_auto_show.
  rewrite andb_true_iff, orb_true_iff, negb_true_iff, !length_pos_iff.
  reflexivity.
Qed.

Lemma should_auto_show_false s :
  should_auto_show s = false
  <-> (expiredRegistrations s = [] /\ expiringRegistrations s = [])
      \/ acknowledged s = true.
Proof.
  unfold should_auto_show.
  destruct (expiredRegistrations s), (expiringRegistrations s),
    (acknowledged s); simpl; split; intros H;
    try discriminate; try reflexivity; auto;
    destruct H as [[H1 H2] | H]; discriminate.
Qed.

Lemma deps_same s s' :
  deps s' = deps s
  <-> List.length (expiredRegistrations s')
      = List.length (expiredRegistrations s)
      /\ List.length (expiringRegistrations s')
         = List.length (expiringRegistrations s)
      /\ acknowledged s' = acknowledged s.
Proof.
  unfold deps. split.
  - intros H. injection H as -> -> ->. auto.
  - intros (-> & -> & ->). reflexivity.
Qed.

(** A stretch of events none of which is the timer's callback or the
    unmount, and none of which changes a dependency. *)
Lemma quiet_undisturbed evs : forall s,
  (forall pre t1 e1 post,
     evs = (pre ++ (t1, e1) :: post)%list ->
     e1 <> TimerFires /\ e1 <> Unmount
     /\ List.length (expiredRegistrations (step t1 e1 (run pre s)))
        = List.length (expiredRegistrations (run pre s))
     /\ List.length (expiringRegistrations (step t1 e1 (run pre s)))
        = List.length (expiringRegistrations (run pre s))
     /\ acknowledged (step t1 e1 (run pre s)) = acknowledged (run pre s)) ->
  undisturbed evs s.
Proof.
  induction evs as [|[t1 e1] rest IH]; intros s H; simpl; [exact I|].
  destruct (H [] t1 e1 rest eq_refl) as (Hf & Hu & Hd).
  split; [exact Hf|]. split; [exact Hu|].
  split; [apply deps_same; exact Hd|].
  apply IH. intros pre t2 e2 post Heq.
  apply (H ((t1, e1) :: pre) t2 e2 post). rewrite Heq. reflexivity.
Qed.

(** The timer's callback before and from the instant the timer is due. *)
Lemma timer_fires t s due :
  mounted s = true -> timer s = Some due ->
  (t < due -> step t TimerFires s = s)
  /\ (due <= t ->
      showAlert (step t TimerFires s) = true
      /\ timer (step t TimerFires s) = None
      /\ alert_registrations (step t TimerFires s)
         = (expiredRegistrations s ++ expiringRegistrations s)%list).
Proof.
  intros Hm Ht. unfold step. rewrite Hm, Ht. cbn [negb]. split.
  - intros Hlt. apply Z.leb_gt in Hlt. rewrite Hlt. reflexivity.
  - intros Hle. apply Z.leb_le in Hle. rewrite Hle. repeat split.
Qed.

Lemma timer_idle t s : timer s = None -> step t TimerFires s = s.
Proof.
  intros Ht. unfold step. rewrite Ht. destruct (negb (mounted s)); reflexivity.
Qed.

(** The numbers in the badges after a fetch that the backend answered. *)
Lemma counts_after_fetch t s table :
  mounted s = true ->
  expired_count (step t (FetchEnds true table) s)
  = List.length
      (filter (fun r => (String.eqb (status r) "pending"
                         && match expiry_date r with
                            | Js.TsString e => e <=? t
                            | Js.TsNull => 0 <=? t
                            | Js.TsUndefined => false
                            end)%bool) table)
  /\ expiring_count (step t (FetchEnds true table) s)
     = List.length
         (filter (fun r => (String.eqb (status r) "pending"
                            && match expiry_date r with
                               | Js.TsString e =>
                                   (t <? e) && (e <=? t + 3 * 86400000)
                               | Js.TsNull =>
                                   (t <? 0) && (0 <=? t + 3 * 86400000)
                               | Js.TsUndefined => false
                               end)%bool) table).
Proof.
  intros Hm. unfold step. rewrite Hm. cbn [negb].
  unfold expired_count, expiring_count.
  destruct (run_effect_fields t s (fetchExpiringRegistrations true table t s))
    as (-> & -> & _).
  cbn [fetchExpiringRegistrations with_loading with_lists
       expiredRegistrations expiringRegistrations].
  split; [apply Expiry.expired_of_length | apply Expiry.expiring_of_length].
Qed.

(** C8 (as amended): the effect that surfaces the alert runs again at
    every render in which the length of a list or acknowledged has
    changed.  Each such run clears the pending timer and, when a list is
    non-empty and acknowledged is false, arms a new one for 2000 ms later:
    the delay is counted from the last change of a dependency, not from
    the instant the condition first became true.  The alert opens when that
    timer fires, on the combined list, provided that until then the
    component is not unmounted and no dependency changes again; events
    that change no dependency leave the timer alone.  The timer is cleared
    on unmount, after which nothing changes, and when the condition
    clears.  acknowledged starts false, is set only by "Got it" and stays
    set; in every state reached with acknowledged set no timer is pending,
    the timer's callback does nothing, and the alert opens only on a click
    (or on the dialog's own request).  The two counts follow each fetch
    whatever acknowledged is, and a click on a bell, enabled while no fetch
    is under way, opens the alert on the current combined list whenever a
    list is non-empty. *)
Theorem auto_show_policy :
  let condition (s : State) : Prop :=
    (expiredRegistrations s <> [] \/ expiringRegistrations s <> [])
    /\ acknowledged s = false in
  let cleared (s : State) : Prop :=
    (expiredRegistrations s = [] /\ expiringRegistrations s = [])
    \/ acknowledged s = true in
  let same_deps (s s' : State) : Prop :=
    List.length (expiredRegistrations s')
    = List.length (expiredRegistrations s)
    /\ List.length (expiringRegistrations s')
       = List.length (expiringRegistrations s)
    /\ acknowledged s' = acknowledged s in
  (forall t e s,
     mounted s = true -> ~ same_deps s (step t e s) ->
     (condition (step t e s) -> timer (step t e s) = Some (t + 2000))
     /\ (cleared (step t e s) -> timer (step t e s) = None))
  /\ (forall t e s,
        mounted s = true -> cleared s -> condition (step t e s) ->
        timer (step t e s) = Some (t + 2000))
  /\ (forall t e s,
        mounted s = true -> condition s -> cleared (step t e s) ->
        timer (step t e s) = None)
  /\ (forall t e s,
        same_deps s (step t e s) -> e <> TimerFires -> e <> Unmount ->
        timer (step t e s) = timer s)
  /\ (forall t s due,
        mounted s = true -> timer s = Some due ->
        (t < due -> step t TimerFires s = s)
        /\ (due <= t ->
            showAlert (step t TimerFires s) = true
            /\ timer (step t TimerFires s) = None
            /\ alert_registrations (step t TimerFires s)
               = (expiredRegistrations s ++ expiringRegistrations s)%list))
  /\ (forall t s, timer s = None -> step t TimerFires s = s)
  /\ (forall t e s evs t',
        mounted s = true -> ~ same_deps s (step t e s) ->
        condition (step t e s) ->
        (forall pre t1 e1 post,
           evs = (pre ++ (t1, e1) :: post)%list ->
           e1 <> TimerFires /\ e1 <> Unmount
           /\ same_deps (run pre (step t e s))
                        (step t1 e1 (run pre (step t e s)))) ->
        (t' < t + 2000 ->
         step t' TimerFires (run evs (step t e s)) = run evs (step t e s))
        /\ (t + 2000 <= t' ->
            showAlert (step t' TimerFires (run evs (step t e s))) = true
            /\ alert_registrations
                 (step t' TimerFires (run evs (step t e s)))
               = (expiredRegistrations (run evs (step t e s))
                  ++ expiringRegistrations (run evs (step t e s)))%list))
  /\ (forall t e s due t',
        mounted s = true -> timer s = Some due ->
        ~ same_deps s (step t e s) -> condition (step t e s) ->
        t' < t + 2000 ->
        step t' TimerFires (step t e s) = step t e s)
  /\ (forall t s,
        mounted s = true ->
        timer (step t Unmount s) = None
        /\ forall evs, run evs (step t Unmount s) = step t Unmount s)
  /\ acknowledged initial = false
  /\ (forall t e s,
        (acknowledged s = true -> acknowledged (step t e s) = true)
        /\ (acknowledged s = false -> acknowledged (step t e s) = true ->
            e = GotIt))
  /\ (forall t s, mounted s = true -> acknowledged (step t GotIt s) = true)
  /\ (forall evs,
        acknowledged (run evs initial) = true ->
        timer (run evs initial) = None
        /\ (forall t, step t TimerFires (run evs initial) = run evs initial)
        /\ forall t e,
             showAlert (run evs initial) = false ->
             showAlert (step t e (run evs initial)) = true ->
             e = BellClick \/ e = OpenChange true)
  /\ (forall t s table,
        mounted s = true ->
        expired_count (step t (FetchEnds true table) s)
        = List.length
            (filter (fun r => (String.eqb (status r) "pending"
                               && match expiry_date r with
                                  | Js.TsString e => e <=? t
                                  | Js.TsNull => 0 <=? t
                                  | Js.TsUndefined => false
                                  end)%bool) table)
        /\ expiring_count (step t (FetchEnds true table) s)
           = List.length
               (filter (fun r => (String.eqb (status r) "pending"
                                  && match expiry_date r with
                                     | Js.TsString e =>
                                         (t <? e) && (e <=? t + 3 * 86400000)
                                     | Js.TsNull =>
                                         (t <? 0) && (0 <=? t + 3 * 86400000)
                                     | Js.TsUndefined => false
                                     end)%bool) table))
  /\ (forall t s,
        mounted s = true -> loading s = false ->
        expiredRegistrations s <> [] \/ expiringRegistrations s <> [] ->
        showAlert (step t BellClick s) = true
        /\ alert_registrations (step t BellClick s)
           = (expiredRegistrations s ++ expiringRegistrations s)%list
        /\ acknowledged (step t BellClick s) = acknowledged s).
Proof.
  cbv zeta.
  assert (Harm : forall t e s,
            mounted s = true ->
            ~ (List.length (expiredRegistrations (step t e s))
               = List.length (expiredRegistrations s)
               /\ List.length (expiringRegistrations (step t e s))
                  = List.length (expiringRegistrations s)
               /\ acknowledged (step t e s) = acknowledged s) ->
            timer (step t e s)
            = if should_auto_show (step t e s) then Some (t + 2000) else None).
  { intros t e s Hm Hd. apply step_timer_armed; [exact Hm|].
    intros E. apply Hd, deps_same, E. }
  assert (Hchange : forall s s',
            should_auto_show s <> should_auto_show s' ->
            ~ (List.length (expiredRegistrations s')
               = List.length (expiredRegistrations s)
               /\ List.length (expiringRegistrations s')
                  = List.length (expiringRegistrations s)
               /\ acknowledged s' = acknowledged s)).
  { intros s s' Hne Hd. apply deps_same in Hd.
    apply Hne. symmetry. apply should_auto_show_deps, Hd. }
  split.
  { intros t e s Hm Hd. rewrite (Harm t e s Hm Hd). split.
    - intros Hc. apply should_auto_show_true in Hc. rewrite Hc. reflexivity.
    - intros Hc. apply should_auto_show_false in Hc. rewrite Hc. reflexivity. }
  split.
  { intros t e s Hm H0 H1.
    apply should_auto_show_false in H0. apply should_auto_show_true in H1.
    rewrite Harm; [rewrite H1; reflexivity | exact Hm |].
    apply Hchange. congruence. }
  split.
  { intros t e s Hm H1 H0.
    apply should_auto_show_true in H1. apply should_auto_show_false in H0.
    rewrite Harm; [rewrite H0; reflexivity | exact Hm |].
    apply Hchange. congruence. }
  split.
  { intros t e s Hd Hf Hu. apply timer_survives; [|exact Hf | exact Hu].
    apply deps_same, Hd. }
  split; [intros t s due; apply timer_fires|].
  split; [intros t s; apply timer_idle|].
  split.
  { intros t e s evs t' Hm Hd Hc Hq.
    apply quiet_undisturbed in Hq.
    destruct (undisturbed_run evs _ Hq) as (Ht & Hm' & _).
    assert (Hu : e <> Unmount).
    { intros ->. apply Hd. unfold step. rewrite Hm. repeat split. }
    rewrite (step_stays_mounted t e s Hu), Hm in Hm'.
    rewrite (Harm t e s Hm Hd) in Ht.
    apply should_auto_show_true in Hc. rewrite Hc in Ht.
    destruct (timer_fires t' _ (t + 2000) Hm' Ht) as (Hbefore & Hafter).
    split; [exact Hbefore|].
    intros Hle. destruct (Hafter Hle) as (H1 & _ & H2). auto. }
  split.
  { intros t e s due t' Hm Hdue Hd Hc Hlt.
    assert (Hu : e <> Unmount).
    { intros ->. apply Hd. unfold step. rewrite Hm. repeat split. }
    pose proof (step_stays_mounted t e s Hu) as Hm'. rewrite Hm in Hm'.
    pose proof (Harm t e s Hm Hd) as Ht.
    apply should_auto_show_true in Hc. rewrite Hc in Ht.
    apply (proj1 (timer_fires t' _ (t + 2000) Hm' Ht)). exact Hlt. }
  split.
  { intros t s Hm. unfold step at 1. rewrite Hm. cbn [negb timer].
    split; [reflexivity|]. intros evs. apply run_unmounted.
    unfold step. rewrite Hm. reflexivity. }
  split; [reflexivity|].
  split; [intros t e s; apply step_acknowledged|].
  split.
  { intros t s Hm. unfold step. rewrite Hm. cbn [negb].
    destruct (run_effect_fields t s (with_acknowledged true s))
      as (_ & _ & _ & -> & _). reflexivity. }
  split.
  { intros evs Hack.
    assert (Ht : timer (run evs initial) = None).
    { destruct (timer_invariant_run evs initial timer_invariant_initial)
        as [H | [H _]]; [exact H|].
      unfold should_auto_show in H. rewrite Hack, andb_false_r in H.
      discriminate. }
    split; [exact Ht|]. split; [intros t; apply timer_idle, Ht|].
    intros t e. apply step_opens_without_timer, Ht. }
  split; [intros t s table; apply counts_after_fetch|].
  intros t s Hm Hl Hcount. unfold step. rewrite Hm, Hl. cbn [negb].
  unfold handleNotificationClick.
  assert (E : (Nat.ltb 0 (List.length (expiredRegistrations s))
               || Nat.ltb 0 (List.length (expiringRegistrations s)))%bool
              = true).
  { apply orb_true_iff. rewrite !length_pos_iff. exact Hcount. }
  rewrite E. repeat split.
Qed.

(** C8, witness: a fetch at [clock] finds one expired registration.  While
    a second fetch starts and ends with the same result, the timer stays:
    its callback does nothing at 1999 ms and opens the alert at 2000 ms. *)
Lemma auto_show_policy_witness :
  step (Samples.clock + 1999) TimerFires
    (run [(Samples.clock + 500, FetchStarts);
          (Samples.clock + 900, FetchEnds true Samples.one_late)]
         (step Samples.clock (FetchEnds true Samples.one_late) initial))
  = run [(Samples.clock + 500, FetchStarts);
         (Samples.clock + 900, FetchEnds true Samples.one_late)]
        (step Samples.clock (FetchEnds true Samples.one_late) initial)
  /\ showAlert
       (step (Samples.clock + 2000) TimerFires
          (run [(Samples.clock + 500, FetchStarts);
                (Samples.clock + 900, FetchEnds true Samples.one_late)]
               (step Samples.clock (FetchEnds true Samples.one_late) initial)))
     = true.
Proof.
  pose proof auto_show_policy as H. cbv zeta in H.
  destruct H as (_ & _ & _ & _ & _ & _ & Hrun & _).
  assert (Hquiet : forall pre t1 e1 post,
            [(Samples.clock + 500, FetchStarts);
             (Samples.clock + 900, FetchEnds true Samples.one_late)]
            = (pre ++ (t1, e1) :: post)%list ->
            e1 <> TimerFires /\ e1 <> Unmount
            /\ List.length
                 (expiredRegistrations
                    (step t1 e1
                       (run pre (step Samples.clock
                                   (FetchEnds true Samples.one_late) initial))))
               = List.length
                   (expiredRegistrations
                      (run pre (step Samples.clock
                                  (FetchEnds true Samples.one_late) initial)))
            /\ List.length
                 (expiringRegistrations
                    (step t1 e1
                       (run pre (step Samples.clock
                                   (FetchEnds true Samples.one_late) initial))))
               = List.length
                   (expiringRegistrations
                      (run pre (step Samples.clock
                                  (FetchEnds true Samples.one_late) initial)))
            /\ acknowledged
                 (step t1 e1
                    (run pre (step Samples.clock
                                (FetchEnds true Samples.one_late) initial)))
               = acknowledged
                   (run pre (step Samples.clock
                               (FetchEnds true Samples.one_late) initial))).
  { intros pre t1 e1 post Heq.
    destruct pre as [|p1 [|p2 [|p3 pre]]]; simpl in Heq;
      inversion Heq; subst;
      (split; [discriminate|]); (split; [discriminate|]);
      repeat split. }
  split.
  - apply (proj1 (Hrun Samples.clock (FetchEnds true Samples.one_late) initial
                    _ (Samples.clock + 1999) eq_refl
                    ltac:(intros (E & _); discriminate E)
                    ltac:(split; [left; discriminate | reflexivity])
                    Hquiet)).
    lia.
  - apply (proj2 (Hrun Samples.clock (FetchEnds true Samples.one_late) initial
                    _ (Samples.clock + 2000) eq_refl
                    ltac:(intros (E & _); discriminate E)
                    ltac:(split; [left; discriminate | reflexivity])
                    Hquiet)).
    lia.
Defined.

(** C8, counterexample: a fetch at [clock] finds one expired registration,
    so that a list is non-empty and acknowledged is false from then on; a
    second fetch 1500 ms later finds two.  The timer of the first run is
    cleared and a new one is armed for [clock + 3500]: the alert is still
    closed 2000 ms and 3499 ms after the condition became true, and opens
    at 3500 ms. *)
Lemma auto_show_delay_restarts :
  map er_id
    (expiredRegistrations
       (run [(Samples.clock, FetchEnds true Samples.one_late)] initial))
  = ["late"]
  /\ acknowledged
       (run [(Samples.clock, FetchEnds true Samples.one_late)] initial)
     = false
  /\ timer (run [(Samples.clock, FetchEnds true Samples.one_late)] initial)
     = Some (Samples.clock + 2000)
  /\ timer (run [(Samples.clock, FetchEnds true Samples.one_late);
                 (Samples.clock + 1500, FetchEnds true Samples.two_late)]
                initial)
     = Some (Samples.clock + 3500)
  /\ showAlert
       (run [(Samples.clock, FetchEnds true Samples.one_late);
             (Samples.clock + 1500, FetchEnds true Samples.two_late);
             (Samples.clock + 2000, TimerFires)] initial) = false
  /\ showAlert
       (run [(Samples.clock, FetchEnds true Samples.one_late);
             (Samples.clock + 1500, FetchEnds true Samples.two_late);
             (Samples.clock + 2000, TimerFires);
             (Samples.clock + 3499, TimerFires)] initial) = false
  /\ showAlert
       (run [(Samples.clock, FetchEnds true Samples.one_late);
             (Samples.clock + 1500, FetchEnds true Samples.two_late);
             (Samples.clock + 2000, TimerFires);
             (Samples.clock + 3499, TimerFires);
             (Samples.clock + 3500, TimerFires)] initial) = true.
Proof. repeat split. Qed.

(** One run of the widget: a fetch finds one expired and one expiring
    registration, the alert opens two seconds later with the expired entry
    first; after "Got it" and closing the dialog, a later fetch that finds
    one more expired registration arms nothing and the timer callback opens
    nothing, while a click opens the alert on the current list. *)
Lemma auto_show_example :
  let reg key d :=
    Samples.registration key key "pending" 0
      (Js.TsString (Samples.clock + d * Samples.day)) in
  let table1 := [reg "soon" 2; reg "late" (-4)] in
  let table2 := [reg "soon" 2; reg "late" (-4); reg "later" (-6)] in
  let t0 := Samples.clock in
  let s1 := run [(t0, FetchEnds true table1)] initial in
  let s2 := run [(t0 + 1999, TimerFires)] s1 in
  let s3 := run [(t0 + 2000, TimerFires)] s2 in
  let s4 := run [(t0 + 5000, GotIt); (t0 + 5001, OpenChange false);
                 (t0 + 9000, FetchEnds true table2)] s3 in
  let s5 := run [(t0 + 20000, TimerFires)] s4 in
  let s6 := run [(t0 + 30000, BellClick)] s5 in
  timer s1 = Some (t0 + 2000) /\ showAlert s1 = false
  /\ showAlert s2 = false
  /\ showAlert s3 = true
  /\ map er_id (alert_registrations s3) = ["late"; "soon"]
  /\ acknowledged s4 = true /\ timer s4 = None /\ showAlert s4 = false
  /\ (expired_count s4, expiring_count s4) = (2%nat, 1%nat)
  /\ showAlert s5 = false
  /\ showAlert s6 = true
  /\ map er_id (alert_registrations s6) = ["later"; "late"; "soon"].
Proof. cbv zeta. repeat split. Qed.

End AutoShow.

(** ** The transfer request form *)

Module Transfer.

Import CategoryTransferRequest.

Lemma fetched_id_more registration seen e cid :
  fetched_id registration seen cid ->
  fetched_id registration (seen ++ [e]) cid.
Proof.
  intros (cats & c & Hin & H). exists cats, c.
  split; [apply in_or_app; left; exact Hin | exact H].
Qed.

Lemma query_categories_In registration table c :
  In c (query_categories registration table)
  <-> In c table /\ is_active c = true
      /\ cat_id c <> category_id registration.
Proof.
  unfold query_categories.
  rewrite filter_In, andb_true_iff, negb_true_iff, String.eqb_neq. tauto.
Qed.

Lemma form_invariant_step registration seen e st :
  form_invariant registration seen st ->
  form_invariant registration (seen ++ [e]) (step registration e st).
Proof.
  destruct st as [s table]. unfold form_invariant. cbn [fst snd].
  intros (Hoff & Hsel & Htable).
  assert (Hoff' : Forall (fun c => fetched_id registration (seen ++ [e])
                                     (cat_id c)) (offered s)).
  { eapply Forall_impl; [|exact Hoff]. intros c. apply fetched_id_more. }
  assert (Hsel' : selectedCategoryId s = ""
                  \/ fetched_id registration (seen ++ [e])
                       (selectedCategoryId s)).
  { destruct Hsel as [H | H]; [left; exact H|].
    right. apply fetched_id_more, H. }
  assert (Htable' : Forall (fun q =>
               tr_status q = "pending"
               /\ registration_id q = id registration
               /\ from_category_id q = category_id registration
               /\ tr_mobile_number q = mobile_number registration
               /\ tr_customer_id q = customer_id registration
               /\ tr_full_name q = full_name registration
               /\ reason q <> Some ""
               /\ to_category_id q <> ""
               /\ fetched_id registration (seen ++ [e]) (to_category_id q))
            table).
  { eapply Forall_impl; [|exact Htable].
    intros q (H1 & H2 & H3 & H4 & H5 & H6 & H7 & H8 & H9).
    repeat (split; [assumption|]). apply fetched_id_more, H9. }
  destruct e; cbn [step fst snd].
  - unfold fetchCategories. destruct ok; cbn [offered selectedCategoryId];
      [|auto].
    split; [|auto]. apply Forall_forall. intros c Hc.
    apply query_categories_In in Hc as (Hin & Hact & Hne).
    exists table0, c. split; [apply in_or_app; right; left; reflexivity|].
    auto.
  - unfold selectCategory.
    destruct (existsb _ (offered s)) eqn:E; cbn [offered selectedCategoryId];
      [|auto].
    split; [exact Hoff'|]. split; [|exact Htable'].
    right. apply existsb_exists in E as (c & Hin & Heq).
    apply String.eqb_eq in Heq. subst cid.
    rewrite Forall_forall in Hoff'. apply Hoff', Hin.
  - auto.
  - auto.
  - unfold handleSubmitTransferRequest.
    destruct (String.eqb_spec (selectedCategoryId s) "") as [E | E];
      cbn [fst snd]; [auto|].
    destruct ok; cbn [fst snd offered selectedCategoryId]; [|auto].
    split; [exact Hoff'|]. split; [left; reflexivity|].
    apply Forall_app. split; [exact Htable'|].
    constructor; [|constructor].
    cbn [request_of tr_status registration_id from_category_id
         tr_mobile_number tr_customer_id tr_full_name reason to_category_id].
    repeat (split; [reflexivity|]).
    split.
    { destruct (String.eqb_spec (reasonText s) "") as [_|Hr];
        [discriminate | congruence]. }
    split; [exact E|].
    destruct Hsel' as [Hsel' | Hsel']; [contradiction | exact Hsel'].
Qed.

Lemma form_invariant_run registration evs : forall seen st,
  form_invariant registration seen st ->
  form_invariant registration (seen ++ evs) (run registration evs st).
Proof.
  induction evs as [|e rest IH]; intros seen st H; simpl.
  - rewrite app_nil_r. exact H.
  - replace (seen ++ e :: rest)%list with ((seen ++ [e]) ++ rest)%list
      by (rewrite <- app_assoc; reflexivity).
    apply IH, form_invariant_step, H.
Qed.

Lemma form_invariant_initial registration :
  form_invariant registration [] (initial, []).
Proof. repeat split; simpl; auto. Qed.

Lemma run_app registration evs1 evs2 st :
  run registration (evs1 ++ evs2) st
  = run registration evs2 (run registration evs1 st).
Proof.
  revert st. induction evs1 as [|e rest IH]; intros st; simpl;
    [reflexivity | apply IH].
Qed.

(** C10: in every run of the form, from its mount with the table of
    requests empty, every request in the table has status pending, the
    registration's id, from_category_id the registration's current
    category_id, the registration's mobile_number, customer_id and
    full_name, a reason that is null or a text that is not empty, and as
    to_category_id the id of a category that a fetch of that run found in
    the backend's table, active and other than the current one; so
    to_category_id <> from_category_id.  The same holds of the selection
    while there is one.  A submission with a selection that the backend
    accepts appends exactly that request, with a null reason when the
    reason text is empty; without a selection, or when the backend
    refuses, nothing is inserted.  After a fetch every active category
    other than the current one can be selected and submitted, and no id
    outside them can be selected. *)
Theorem transfer_request_well_formed
    (registration : Registration) (evs : list Event) :
  let st := run registration evs (initial, []) in
  let fetched (cid : string) : Prop :=
    exists cats c,
      In (CategoriesFetched true cats) evs /\ In c cats
      /\ is_active c = true /\ cat_id c <> category_id registration
      /\ cat_id c = cid in
  (forall q,
     In q (snd st) ->
     tr_status q = "pending"
     /\ registration_id q = id registration
     /\ from_category_id q = category_id registration
     /\ tr_mobile_number q = mobile_number registration
     /\ tr_customer_id q = customer_id registration
     /\ tr_full_name q = full_name registration
     /\ reason q <> Some ""
     /\ to_category_id q <> ""
     /\ to_category_id q <> from_category_id q
     /\ fetched (to_category_id q))
  /\ (selectedCategoryId (fst st) <> "" ->
      fetched (selectedCategoryId (fst st))
      /\ selectedCategoryId (fst st) <> category_id registration
      /\ handleSubmitTransferRequest true registration (fst st) (snd st)
         = ({| offered := offered (fst st); selectedCategoryId := "";
               reasonText := ""; showForm := false |},
            (snd st
             ++ [ {| registration_id := id registration;
                     from_category_id := category_id registration;
                     to_category_id := selectedCategoryId (fst st);
                     tr_mobile_number := mobile_number registration;
                     tr_customer_id := customer_id registration;
                     tr_full_name := full_name registration;
                     reason := if String.eqb (reasonText (fst st)) ""
                               then None else Some (reasonText (fst st));
                     tr_status := "pending" |} ])%list))
  /\ (selectedCategoryId (fst st) = "" ->
      forall ok,
        handleSubmitTransferRequest ok registration (fst st) (snd st) = st)
  /\ handleSubmitTransferRequest false registration (fst st) (snd st) = st
  /\ (forall cats c text,
        In c cats -> is_active c = true ->
        cat_id c <> category_id registration -> cat_id c <> "" ->
        snd (run registration
               [CategoriesFetched true cats; Selected (cat_id c);
                ReasonTyped text; Submitted true] st)
        = (snd st
           ++ [ {| registration_id := id registration;
                   from_category_id := category_id registration;
                   to_category_id := cat_id c;
                   tr_mobile_number := mobile_number registration;
                   tr_customer_id := customer_id registration;
                   tr_full_name := full_name registration;
                   reason := if String.eqb text "" then None else Some text;
                   tr_status := "pending" |} ])%list)
  /\ (forall cats cid,
        (forall c, In c cats -> is_active c = true ->
                   cat_id c <> category_id registration -> cat_id c <> cid) ->
        selectedCategoryId
          (fst (run registration [CategoriesFetched true cats; Selected cid] st))
        = selectedCategoryId (fst st)).
Proof.
  cbv zeta.
  pose proof (form_invariant_run registration evs [] (initial, [])
                (form_invariant_initial registration)) as (Hoff & Hsel & Htab).
  cbn [app] in Hoff, Hsel, Htab.
  destruct (run registration evs (initial, [])) as [s table].
  cbn [fst snd] in *.
  split.
  { intros q Hq. rewrite Forall_forall in Htab.
    destruct (Htab q Hq) as (H1 & H2 & H3 & H4 & H5 & H6 & H7 & H8 & H9).
    repeat (split; [assumption|]). split; [|exact H9].
    destruct H9 as (cats & c & _ & _ & _ & Hne & Heq). congruence. }
  split.
  { intros Hne. destruct Hsel as [Hsel | Hsel]; [contradiction|].
    split; [exact Hsel|]. split.
    - destruct Hsel as (cats & c & _ & _ & _ & Hc & Heq). congruence.
    - apply String.eqb_neq in Hne. unfold handleSubmitTransferRequest.
      rewrite Hne. reflexivity. }
  split.
  { intros He ok. unfold handleSubmitTransferRequest. rewrite He.
    reflexivity. }
  split.
  { unfold handleSubmitTransferRequest.
    destruct (String.eqb (selectedCategoryId s) ""); reflexivity. }
  split.
  { intros cats c text Hin Hact Hne Hid.
    cbn [run step fetchCategories].
    unfold selectCategory. cbn [offered].
    assert (E : existsb (fun c0 => String.eqb (cat_id c0) (cat_id c))
                  (query_categories registration cats) = true).
    { apply existsb_exists. exists c.
      split; [apply query_categories_In; auto | apply String.eqb_refl]. }
    rewrite E. unfold handleSubmitTransferRequest, setReason.
    cbn [offered selectedCategoryId reasonText showForm].
    apply String.eqb_neq in Hid. rewrite Hid. reflexivity. }
  intros cats cid Hnone.
  cbn [run step fetchCategories fst].
  unfold selectCategory. cbn [offered].
  destruct (existsb _ (query_categories registration cats)) eqn:E;
    [|reflexivity].
  apply existsb_exists in E as (c & Hin & Heq).
  apply query_categories_In in Hin as (Hin & Hact & Hne).
  apply String.eqb_eq in Heq. exfalso. exact (Hnone c Hin Hact Hne Heq).
Qed.

(** C10, witness: the registrant of category [cat-1] fetches the three
    categories, selects the other active one and submits without a reason:
    one request goes in, from [cat-1] to [cat-2], with a null reason.  The
    inactive category [cat-3] cannot be selected. *)
Lemma transfer_request_well_formed_witness :
  snd (run Samples.fresh
         [CategoriesFetched true
            [Samples.job_card; Samples.pension; Samples.retired];
          Selected "cat-2"; ReasonTyped ""; Submitted true]
         (initial, []))
  = [ {| registration_id := "r1"; from_category_id := "cat-1";
         to_category_id := "cat-2";
         tr_mobile_number := mobile_number Samples.fresh;
         tr_customer_id := customer_id Samples.fresh;
         tr_full_name := full_name Samples.fresh;
         reason := None; tr_status := "pending" |} ]
  /\ selectedCategoryId
       (fst (run Samples.fresh
               [CategoriesFetched true
                  [Samples.job_card; Samples.pension; Samples.retired];
                Selected "cat-3"]
               (initial, []))) = "".
Proof.
  pose proof (transfer_request_well_formed Samples.fresh []) as H.
  cbv zeta in H. destruct H as (_ & _ & _ & _ & Hsubmit & Hselect).
  split.
  - refine (Hsubmit [Samples.job_card; Samples.pension; Samples.retired]
              Samples.pension "" _ eq_refl _ _).
    + right; left; reflexivity.
    + discriminate.
    + discriminate.
  - refine (Hselect [Samples.job_card; Samples.pension; Samples.retired]
              "cat-3" _).
    intros c [<- | [<- | [<- | []]]]; simpl; intros; discriminate.
Defined.

(** A registrant of category [cat-1] is offered the other active category,
    cannot select the current or the inactive one, and submits twice, once
    without a reason. *)
Lemma transfer_example :
  let cats := [Samples.job_card; Samples.pension; Samples.retired] in
  let st := run Samples.fresh
              [CategoriesFetched true cats; Selected "cat-1"; Selected "cat-3";
               Submitted true; Selected "cat-2"; Submitted true;
               ReasonTyped "moved"; Selected "cat-2"; Submitted true]
              (initial, []) in
  map cat_id (offered (fst st)) = ["cat-2"]
  /\ map to_category_id (snd st) = ["cat-2"; "cat-2"]
  /\ map from_category_id (snd st) = ["cat-1"; "cat-1"]
  /\ map reason (snd st) = [None; Some "moved"]
  /\ map tr_status (snd st) = ["pending"; "pending"].
Proof. cbv zeta. repeat split. Qed.

End Transfer.

(** ** The CSV export *)

Module CsvExport.

Import RegistrationsTab.

Lemma append_assoc (a b c : string) : ((a ++ b) ++ c = a ++ (b ++ c))%string.
Proof. induction a as [|x a IH]; simpl; [reflexivity | rewrite IH; reflexivity]. Qed.

Lemma append_empty_r (a : string) : (a ++ "")%string = a.
Proof. induction a as [|x a IH]; simpl; [reflexivity | rewrite IH; reflexivity]. Qed.

Lemma all_chars_app p a b :
  Csv.all_chars p (a ++ b) = (Csv.all_chars p a && Csv.all_chars p b)%bool.
Proof.
  induction a as [|x a IH]; simpl; [reflexivity|].
  rewrite IH, andb_assoc. reflexivity.
Qed.

(** From [plain (String c s) = true]: [c] is no double quote, comma or
    line break, and [s] is plain. *)
Lemma plain_cons c s :
  Csv.plain (String c s) = true ->
  Ascii.eqb c Csv.dquote = false /\ Ascii.eqb c Csv.comma = false
  /\ Ascii.eqb c Csv.linefeed = false /\ Ascii.eqb c Csv.creturn = false
  /\ Csv.plain s = true.
Proof.
  unfold Csv.plain. cbn [Csv.all_chars]. unfold Csv.plain_char at 1.
  rewrite !andb_true_iff, !negb_true_iff. tauto.
Qed.

Ltac plain_head H Hq Hk Hs :=
  apply plain_cons in H as (Hq & Hk & _ & _ & Hs).

(** Inside a quoted field, text without a double quote is read up to the
    closing quote. *)
Lemma parse_quoted s : forall cur acc rest,
  Csv.no_dquote s = true ->
  Csv.parse_from Csv.Quoted cur acc (s ++ String Csv.dquote rest)
  = Csv.parse_from Csv.QuoteSeen (cur ++ s) acc rest.
Proof.
  induction s as [|c s IH]; intros cur acc rest H; cbn [append Csv.parse_from].
  - rewrite Ascii.eqb_refl, append_empty_r. reflexivity.
  - unfold Csv.no_dquote in H. simpl in H.
    apply andb_true_iff in H as [Hc Hs]. apply negb_true_iff in Hc.
    rewrite Hc, IH by exact Hs. unfold Csv.snoc.
    rewrite append_assoc. reflexivity.
Qed.

Lemma parse_bare s : forall cur acc rest,
  Csv.plain s = true ->
  Csv.parse_from Csv.Bare cur acc (s ++ String Csv.comma rest)
  = Csv.parse_from Csv.FieldStart "" ((cur ++ s)%string :: acc) rest.
Proof.
  induction s as [|c s IH]; intros cur acc rest H; cbn [append Csv.parse_from].
  - rewrite append_empty_r. reflexivity.
  - plain_head H Hq Hk Hs.
    rewrite Hq, Hk, IH by exact Hs. unfold Csv.snoc.
    rewrite append_assoc. reflexivity.
Qed.

Lemma parse_bare_end s : forall cur acc,
  Csv.plain s = true ->
  Csv.parse_from Csv.Bare cur acc s = Some (rev ((cur ++ s)%string :: acc)).
Proof.
  induction s as [|c s IH]; intros cur acc H; cbn [append Csv.parse_from].
  - rewrite append_empty_r. reflexivity.
  - plain_head H Hq Hk Hs.
    rewrite Hq, Hk, IH by exact Hs. unfold Csv.snoc.
    rewrite append_assoc. reflexivity.
Qed.

(** A bare cell followed by a comma, a bare last cell, and a quoted cell
    followed by a comma, read from the start of a field. *)
Lemma parse_cell_bare s acc rest :
  Csv.plain s = true ->
  Csv.parse_from Csv.FieldStart "" acc (s ++ String Csv.comma rest)
  = Csv.parse_from Csv.FieldStart "" (s :: acc) rest.
Proof.
  intros H. destruct s as [|c s]; cbn [append Csv.parse_from].
  - rewrite Ascii.eqb_refl. reflexivity.
  - plain_head H Hq Hk Hs.
    rewrite Hq, Hk. rewrite parse_bare by exact Hs. reflexivity.
Qed.

Lemma parse_cell_bare_end s acc :
  Csv.plain s = true ->
  Csv.parse_from Csv.FieldStart "" acc s = Some (rev (s :: acc)).
Proof.
  intros H. destruct s as [|c s]; cbn [append Csv.parse_from]; [reflexivity|].
  plain_head H Hq Hk Hs.
  rewrite Hq, Hk. rewrite parse_bare_end by exact Hs. reflexivity.
Qed.

Lemma parse_cell_quoted s acc rest :
  Csv.no_dquote s = true ->
  Csv.parse_from Csv.FieldStart "" acc
    (in_quotes s ++ String Csv.comma rest)
  = Csv.parse_from Csv.FieldStart "" (s :: acc) rest.
Proof.
  intros H. unfold in_quotes, Text.dq.
  change (String (ascii_of_nat 34) EmptyString ++ s
          ++ String (ascii_of_nat 34) EmptyString)%string
    with (String Csv.dquote (s ++ String Csv.dquote EmptyString)).
  cbn [append]. rewrite append_assoc. cbn [append].
  cbn [Csv.parse_from]. rewrite Ascii.eqb_refl.
  rewrite parse_quoted by exact H. cbn [append Csv.parse_from].
  rewrite Ascii.eqb_refl. reflexivity.
Qed.

(** The formatted dates hold digits and separators only. *)
Lemma plain_append a b :
  Csv.plain a = true -> Csv.plain b = true -> Csv.plain (a ++ b) = true.
Proof.
  unfold Csv.plain. intros Ha Hb. rewrite all_chars_app, Ha, Hb. reflexivity.
Qed.

Lemma plain_digits u : Csv.plain (NilEmpty.string_of_uint u) = true.
Proof. induction u; simpl; auto. Qed.

Lemma plain_decimal n : Csv.plain (Text.decimal n) = true.
Proof.
  unfold Text.decimal, NilZero.string_of_uint.
  destruct (N.to_uint (Z.to_N n)) eqn:E; try reflexivity;
    rewrite <- E; apply plain_digits.
Qed.

Lemma plain_zeros k : Csv.plain (Text.zeros k) = true.
Proof. induction k; simpl; auto. Qed.

Lemma plain_pad w n : Csv.plain (Text.pad w n) = true.
Proof. unfold Text.pad. apply plain_append; [apply plain_zeros | apply plain_decimal]. Qed.

Lemma plain_format_date tz t : Csv.plain (Calendar.format_ddMMyyyy tz t) = true.
Proof.
  unfold Calendar.format_ddMMyyyy.
  destruct (Calendar.local_date tz t) as [[y m] d].
  apply plain_append; [apply plain_pad|].
  apply (plain_append "/"); [reflexivity|].
  apply plain_append; [apply plain_pad|].
  apply (plain_append "/"); [reflexivity|].
  apply plain_pad.
Qed.

(** Where the export's quoting is right: a line reads back as its six
    values when the name, the panchayath and the category hold no double
    quote and the mobile number holds neither a double quote nor a comma. *)
Lemma csv_line_reads_back tz reg :
  Csv.no_dquote (full_name reg) = true ->
  Csv.plain (mobile_number reg) = true ->
  Csv.no_dquote (Js.str_or (option_map name (panchayaths reg)) "N/A") = true ->
  Csv.no_dquote (Js.str_or (option_map name_english (categories reg)) "N/A")
  = true ->
  Csv.reads_back tz reg.
Proof.
  intros Hname Hmobile Hpan Hcat.
  unfold Csv.reads_back, Csv.parse_record, csv_line, csv_cells, Csv.expected_values.
  cbn [Text.join].
  change ","%string with (String Csv.comma EmptyString).
  cbn [append].
  rewrite parse_cell_quoted by exact Hname.
  rewrite parse_cell_bare by exact Hmobile.
  rewrite parse_cell_quoted by exact Hpan.
  rewrite parse_cell_quoted by exact Hcat.
  rewrite parse_cell_bare by apply plain_format_date.
  rewrite parse_cell_bare_end; [reflexivity|].
  destruct (expiry_date reg); try reflexivity. apply plain_format_date.
Qed.

(** The same steps for the reader of a whole file. *)
Lemma file_quoted s : forall cur fields records rest,
  Csv.no_dquote s = true ->
  Csv.parse_file_from Csv.Quoted cur fields records
    (s ++ String Csv.dquote rest)
  = Csv.parse_file_from Csv.QuoteSeen (cur ++ s) fields records rest.
Proof.
  induction s as [|c s IH]; intros cur fields records rest H;
    cbn [append Csv.parse_file_from].
  - rewrite Ascii.eqb_refl, append_empty_r. reflexivity.
  - unfold Csv.no_dquote in H. simpl in H.
    apply andb_true_iff in H as [Hc Hs]. apply negb_true_iff in Hc.
    rewrite Hc, IH by exact Hs. unfold Csv.snoc.
    rewrite append_assoc. reflexivity.
Qed.

(** A bare cell is read up to the comma, the line feed or the end of the
    text that follows it. *)
Lemma file_bare s : forall cur fields records,
  Csv.plain s = true ->
  (forall rest,
     Csv.parse_file_from Csv.Bare cur fields records
       (s ++ String Csv.comma rest)
     = Csv.parse_file_from Csv.FieldStart "" ((cur ++ s)%string :: fields)
         records rest)
  /\ (forall rest,
        Csv.parse_file_from Csv.Bare cur fields records
          (s ++ String Csv.linefeed rest)
        = Csv.parse_file_from Csv.FieldStart "" []
            (rev ((cur ++ s)%string :: fields) :: records) rest)
  /\ Csv.parse_file_from Csv.Bare cur fields records s
     = Some (rev (rev ((cur ++ s)%string :: fields) :: records)).
Proof.
  induction s as [|c s IH]; intros cur fields records H.
  - cbn [append Csv.parse_file_from]. rewrite append_empty_r.
    repeat split; reflexivity.
  - apply plain_cons in H as (Hq & Hk & Hl & Hr & Hs).
    destruct (IH (Csv.snoc cur c) fields records Hs) as (IH1 & IH2 & IH3).
    unfold Csv.snoc in IH1, IH2, IH3. rewrite append_assoc in IH1, IH2, IH3.
    cbn [append] in IH1, IH2, IH3.
    cbn [append Csv.parse_file_from]. rewrite Hq, Hk, Hl, Hr.
    split; [exact IH1|]. split; [exact IH2 | exact IH3].
Qed.

Lemma file_cell_bare s fields records :
  Csv.plain s = true ->
  (forall rest,
     Csv.parse_file_from Csv.FieldStart "" fields records
       (s ++ String Csv.comma rest)
     = Csv.parse_file_from Csv.FieldStart "" (s :: fields) records rest)
  /\ (forall rest,
        Csv.parse_file_from Csv.FieldStart "" fields records
          (s ++ String Csv.linefeed rest)
        = Csv.parse_file_from Csv.FieldStart "" []
            (rev (s :: fields) :: records) rest)
  /\ Csv.parse_file_from Csv.FieldStart "" fields records s
     = Some (rev (rev (s :: fields) :: records)).
Proof.
  intros H. destruct s as [|c s].
  - cbn [append Csv.parse_file_from].
    repeat split; intros; reflexivity.
  - apply plain_cons in H as (Hq & Hk & Hl & Hr & Hs).
    destruct (file_bare s (String c EmptyString) fields records Hs)
      as (H1 & H2 & H3).
    cbn [append] in H1, H2, H3.
    cbn [append Csv.parse_file_from]. rewrite Hq, Hk, Hl, Hr.
    split; [exact H1|]. split; [exact H2 | exact H3].
Qed.

Lemma file_cell_quoted s fields records rest :
  Csv.no_dquote s = true ->
  Csv.parse_file_from Csv.FieldStart "" fields records
    (in_quotes s ++ String Csv.comma rest)
  = Csv.parse_file_from Csv.FieldStart "" (s :: fields) records rest.
Proof.
  intros H. unfold in_quotes, Text.dq.
  change (String (ascii_of_nat 34) EmptyString ++ s
          ++ String (ascii_of_nat 34) EmptyString)%string
    with (String Csv.dquote (s ++ String Csv.dquote EmptyString)).
  cbn [append]. rewrite append_assoc. cbn [append].
  cbn [Csv.parse_file_from]. rewrite Ascii.eqb_refl.
  rewrite file_quoted by exact H. cbn [append Csv.parse_file_from].
  rewrite Ascii.eqb_refl. reflexivity.
Qed.

(** The five cells of a line that are followed by a comma. *)
Lemma file_line_front tz reg records last rest :
  Csv.exportable reg ->
  Csv.parse_file_from Csv.FieldStart "" [] records
    (Text.join ","
       [ in_quotes (full_name reg); mobile_number reg;
         in_quotes (Js.str_or (option_map name (panchayaths reg)) "N/A");
         in_quotes (Js.str_or (option_map name_english (categories reg)) "N/A");
         Calendar.format_ddMMyyyy tz (created_at reg); last ] ++ rest)
  = Csv.parse_file_from Csv.FieldStart ""
      [ Calendar.format_ddMMyyyy tz (created_at reg);
        Js.str_or (option_map name_english (categories reg)) "N/A";
        Js.str_or (option_map name (panchayaths reg)) "N/A";
        mobile_number reg; full_name reg ] records (last ++ rest).
Proof.
  intros (Hname & Hmobile & Hpan & Hcat).
  cbn [Text.join].
  change ","%string with (String Csv.comma EmptyString).
  rewrite !append_assoc. cbn [append].
  rewrite file_cell_quoted by exact Hname.
  rewrite (proj1 (file_cell_bare _ _ _ Hmobile)).
  rewrite file_cell_quoted by exact Hpan.
  rewrite file_cell_quoted by exact Hcat.
  rewrite (proj1 (file_cell_bare _ _ _ (plain_format_date tz _))).
  reflexivity.
Qed.

Lemma plain_expiry_cell tz reg :
  Csv.plain
    match expiry_date reg with
    | Js.TsString t => Calendar.format_ddMMyyyy tz t
    | Js.TsNull | Js.TsUndefined => "N/A"
    end = true.
Proof. destruct (expiry_date reg); try reflexivity. apply plain_format_date. Qed.

(** A line of the export, followed by a line feed or by the end of the
    file, is read as one record of the six values. *)
Lemma file_line tz reg records :
  Csv.exportable reg ->
  (forall rest,
     Csv.parse_file_from Csv.FieldStart "" [] records
       (csv_line tz reg ++ String Csv.linefeed rest)
     = Csv.parse_file_from Csv.FieldStart "" []
         (Csv.expected_values tz reg :: records) rest)
  /\ Csv.parse_file_from Csv.FieldStart "" [] records (csv_line tz reg)
     = Some (rev (Csv.expected_values tz reg :: records)).
Proof.
  intros Hreg. unfold csv_line, csv_cells. split.
  - intros rest. rewrite (file_line_front tz reg records _ _ Hreg).
    rewrite (proj1 (proj2 (file_cell_bare _ _ _ (plain_expiry_cell tz reg)))).
    reflexivity.
  - rewrite <- (append_empty_r (Text.join "," _)).
    rewrite (file_line_front tz reg records _ _ Hreg).
    rewrite append_empty_r.
    rewrite (proj2 (proj2 (file_cell_bare _ _ _ (plain_expiry_cell tz reg)))).
    reflexivity.
Qed.

(** The lines of the registrations, joined by line feeds. *)
Lemma file_lines tz rows : forall reg records,
  Forall Csv.exportable (reg :: rows) ->
  Csv.parse_file_from Csv.FieldStart "" [] records
    (Text.join Text.lf (map (csv_line tz) (reg :: rows)))
  = Some (rev records ++ map (Csv.expected_values tz) (reg :: rows))%list.
Proof.
  induction rows as [|next rows IH]; intros reg records Hall;
    inversion Hall as [|? ? Hreg Hrest]; subst.
  - cbn [map Text.join].
    rewrite (proj2 (file_line tz reg records Hreg)). reflexivity.
  - change (Text.join Text.lf (map (csv_line tz) (reg :: next :: rows)))
      with (csv_line tz reg
            ++ String Csv.linefeed
                 (Text.join Text.lf (map (csv_line tz) (next :: rows))))%string.
    rewrite (proj1 (file_line tz reg records Hreg)).
    rewrite IH by exact Hrest.
    cbn [rev map]. rewrite <- app_assoc. reflexivity.
Qed.

(** The header line, followed by a line feed or by the end of the file. *)
Lemma file_header :
  (forall rest,
     Csv.parse_file_from Csv.FieldStart "" [] []
       (Text.join "," headers ++ String Csv.linefeed rest)
     = Csv.parse_file_from Csv.FieldStart "" [] [headers] rest)
  /\ Csv.parse_file (Text.join "," headers) = Some [headers].
Proof. split; [intros rest|]; reflexivity. Qed.

(** The header line, the rendering of a missing panchayath, category and
    expiry, and the name of the file. *)
Lemma export_layout tz now reg rows :
  csvData tz [] = "Name,Mobile Number,Panchayath,Category,Registered Date,Expiry Date"
  /\ csvData tz (reg :: rows)
     = ("Name,Mobile Number,Panchayath,Category,Registered Date,Expiry Date"
        ++ Text.lf ++ Text.join Text.lf (map (csv_line tz) (reg :: rows)))%string
  /\ (panchayaths reg = None ->
      nth_error (csv_cells tz reg) 2 = Some (in_quotes "N/A"))
  /\ (categories reg = None ->
      nth_error (csv_cells tz reg) 3 = Some (in_quotes "N/A"))
  /\ (Js.truthy (expiry_date reg) = false ->
      nth_error (csv_cells tz reg) 5 = Some "N/A")
  /\ nth_error (csv_cells tz reg) 4
     = Some (Calendar.format_ddMMyyyy tz (created_at reg))
  /\ (forall e, expiry_date reg = Js.TsString e ->
        nth_error (csv_cells tz reg) 5 = Some (Calendar.format_ddMMyyyy tz e))
  /\ fst (handleExportRegistrations tz now (reg :: rows))
     = ("registrations-export-" ++ Calendar.format_yyyyMMdd tz now ++ ".csv")%string.
Proof.
  split; [reflexivity|]. split; [reflexivity|].
  split; [intros H; simpl; rewrite H; reflexivity|].
  split; [intros H; simpl; rewrite H; reflexivity|].
  split; [intros H; simpl; destruct (expiry_date reg); try reflexivity; discriminate|].
  split; [reflexivity|].
  split; [intros e H; simpl; rewrite H; reflexivity | reflexivity].
Qed.

(** An export of two registrations, the second without expiry date, in
    the zone of Indian Standard Time. *)
Lemma export_example :
  let first := Samples.registration "r1" "Anu K" "approved" Samples.clock
                 (Js.TsString (Samples.clock + 45 * Samples.day)) in
  let second := Samples.registration "r2" "Binu, P" "pending"
                  (Samples.clock - 300 * Samples.day) Js.TsNull in
  handleExportRegistrations Samples.ist Samples.clock [first; second]
  = ("registrations-export-2025-11-02.csv",
     Text.join Text.lf
       [ "Name,Mobile Number,Panchayath,Category,Registered Date,Expiry Date";
         in_quotes "Anu K" ++ ",9000000001," ++ in_quotes "N/A" ++ ","
         ++ in_quotes "Job Card" ++ ",02/11/2025,17/12/2025";
         in_quotes "Binu, P" ++ ",9000000001," ++ in_quotes "N/A" ++ ","
         ++ in_quotes "Job Card" ++ ",06/01/2025,N/A" ])
  /\ Csv.reads_back Samples.ist first
  /\ Csv.reads_back Samples.ist second.
Proof. cbv zeta. repeat split. Qed.

(** C6, at the failing input: a registration whose name holds double
    quotes.  The export writes the name between quotes without doubling the
    quotes inside it, so its line is not a well-formed record and does not
    read back as the six values; with a name that holds quote, comma, quote
    the line reads back as seven values, the name split in two. *)
Theorem export_does_not_escape_quotes :
  let quoted := Samples.registration "r4"
                  ("Anu " ++ Text.dq ++ "Ammu" ++ Text.dq ++ " K")
                  "pending" Samples.clock Js.TsNull in
  let split_name := Samples.registration "r5"
                      ("Anu" ++ Text.dq ++ "," ++ Text.dq ++ "K")
                      "pending" Samples.clock Js.TsNull in
  csv_line Samples.ist quoted
  = (Text.dq ++ "Anu " ++ Text.dq ++ "Ammu" ++ Text.dq ++ " K" ++ Text.dq
     ++ ",9000000001," ++ in_quotes "N/A" ++ "," ++ in_quotes "Job Card"
     ++ ",02/11/2025,N/A")%string
  /\ Csv.parse_record (csv_line Samples.ist quoted) = None
  /\ ~ Csv.reads_back Samples.ist quoted
  /\ Csv.parse_record (csv_line Samples.ist split_name)
     = Some ["Anu"; "K"; "9000000001"; "N/A"; "Job Card"; "02/11/2025"; "N/A"]
  /\ ~ Csv.reads_back Samples.ist split_name.
Proof.
  cbv zeta. split; [reflexivity|]. split; [reflexivity|].
  split; [unfold Csv.reads_back; vm_compute; discriminate|].
  split; [reflexivity|].
  unfold Csv.reads_back. vm_compute. discriminate.
Qed.

End CsvExport.

(** ** More on the writes of RegistrationsTab *)

Module LifecycleOps.

Import RegistrationsTab.

Lemma update_identity_on_others u key (table : list Registration) :
  (forall r, In r table -> id r <> key) ->
  map (fun r => if String.eqb (id r) key then apply_update u r else r) table
  = table.
Proof.
  intros H. induction table as [|r rest IH]; simpl; [reflexivity|].
  assert (Hr : String.eqb (id r) key = false)
    by (apply String.eqb_neq, H; left; reflexivity).
  rewrite Hr, IH; [reflexivity|]. intros r' Hin. apply H. right. exact Hin.
Qed.

Lemma supabase_update_unknown ok u key table :
  (forall r, In r table -> id r <> key) ->
  supabase_update ok u key table = table.
Proof.
  intros H. unfold supabase_update. destruct ok; [|reflexivity].
  apply update_identity_on_others, H.
Qed.

Lemma filter_keeps_all {A : Type} (p : A -> bool) (l : list A) :
  (forall x, In x l -> p x = true) -> filter p l = l.
Proof.
  intros H. induction l as [|x rest IH]; simpl; [reflexivity|].
  rewrite (H x (or_introl eq_refl)), IH; [reflexivity|].
  intros y Hy. apply H. right. exact Hy.
Qed.

Lemma filter_twice {A : Type} (p : A -> bool) (l : list A) :
  filter p (filter p l) = filter p l.
Proof.
  apply filter_keeps_all. intros x Hx. apply filter_In in Hx. apply Hx.
Qed.

Lemma filter_length_le {A : Type} (p : A -> bool) (l : list A) :
  (List.length (filter p l) <= List.length l)%nat.
Proof.
  induction l as [|x rest IH]; simpl; [lia|].
  destruct (p x); simpl; lia.
Qed.

(** X1: a confirmed delete that the backend accepts removes exactly the
    rows with the given id and keeps every other row; deleting an id that
    is not in the table, deleting twice, a cancelled confirmation and a
    backend error all leave the table (or the result of the first delete)
    as it is. *)
Theorem delete_removes_exactly_the_key (key : string) (table : list Registration) :
  (forall r, In r (deleteRegistration true true key table)
             <-> In r table /\ id r <> key)
  /\ (List.length (deleteRegistration true true key table) <= List.length table)%nat
  /\ ((forall r, In r table -> id r <> key) ->
      deleteRegistration true true key table = table)
  /\ deleteRegistration true true key (deleteRegistration true true key table)
     = deleteRegistration true true key table
  /\ (forall ok, deleteRegistration false ok key table = table)
  /\ (forall confirm, deleteRegistration confirm false key table = table).
Proof.
  unfold deleteRegistration, supabase_delete.
  split; [|split; [|split; [|split; [|split]]]].
  - intros r. rewrite filter_In, negb_true_iff, String.eqb_neq. reflexivity.
  - apply filter_length_le.
  - intros H. apply filter_keeps_all. intros r Hr.
    apply negb_true_iff, String.eqb_neq, H, Hr.
  - apply filter_twice.
  - reflexivity.
  - intros []; reflexivity.
Qed.

(** X2: rejecting a pending registration that carries no approval stamp and
    then restoring it gives back the very same row; the other rows are
    untouched throughout. *)
Theorem reject_then_restore_is_identity
    (st : State) (t_stamp t_expiry : Z) (key : string)
    (table : list Registration) (n : nat) (r : Registration) :
  nth_error table n = Some r ->
  id r = key ->
  status r = "pending" ->
  approved_date r = None ->
  approved_by r = None ->
  nth_error
    (restoreRegistration true true key
       (reject true st t_stamp t_expiry key table)) n = Some r
  /\ (forall m other,
        nth_error table m = Some other -> id other <> key ->
        nth_error
          (restoreRegistration true true key
             (reject true st t_stamp t_expiry key table)) m = Some other).
Proof.
  intros Hn Hid Hst Hd Hb. split.
  - rewrite (Lifecycle.restore_row key _ n
               (apply_update
                  (build_updateData st t_stamp t_expiry key "rejected") r)).
    + rewrite Lifecycle.build_approval_other by reflexivity.
      destruct r. simpl in *. subst. reflexivity.
    + apply Lifecycle.update_status_row; assumption.
    + exact Hid.
  - intros m other Hm Hother. unfold restoreRegistration.
    rewrite Lifecycle.supabase_update_nth.
    unfold reject.
    rewrite (Lifecycle.update_status_other_row true st t_stamp t_expiry key
               "rejected" table m other Hm Hother).
    simpl. apply String.eqb_neq in Hother. rewrite Hother. reflexivity.
Qed.

(** X2, witness: the sample pending registration. *)
Lemma reject_then_restore_is_identity_witness :
  nth_error
    (restoreRegistration true true "r1"
       (reject true (Samples.tab [Samples.fresh]) Samples.clock Samples.clock
               "r1" [Samples.fresh])) 0 = Some Samples.fresh.
Proof.
  exact (proj1 (reject_then_restore_is_identity
                  (Samples.tab [Samples.fresh]) Samples.clock Samples.clock
                  "r1" [Samples.fresh] 0%nat Samples.fresh
                  eq_refl eq_refl eq_refl eq_refl eq_refl)).
Defined.

(** The row after an approval that computes the expiry date, followed by a
    restore. *)
Lemma approve_then_restore_row
    (z : Zoned.Zone) (st : State) (t_stamp t_expiry : Z) (key : string)
    (table : list Registration) (n : nat) (r reg : Registration) :
  nth_error table n = Some r ->
  id r = key ->
  cached st key = Some reg ->
  Js.truthy (expiry_date reg) = false ->
  nth_error
    (restoreRegistration true true key
       (Zoned.approve z true st t_stamp t_expiry key table)) n
  = Some
      (apply_update
         {| u_status := Some "pending";
            u_approved_date := Some None;
            u_approved_by := Some None;
            u_expiry_date :=
              if Z.abs (Zoned.expiry_target z t_expiry
                          (expiryDays_of (category_of st reg)))
                 <=? Zoned.MAX_TIME
              then Some (Js.TsString
                           (Zoned.expiry_target z t_expiry
                              (expiryDays_of (category_of st reg))))
              else None |} r).
Proof.
  intros Hn Hid Hc Hunset.
  pose proof (Lifecycle.zoned_build_approved z st t_stamp t_expiry key) as Hb.
  rewrite Hc, Hunset in Hb.
  destruct (Z.abs _ <=? Zoned.MAX_TIME).
  - rewrite (Lifecycle.restore_row key _ n _
               (Lifecycle.zoned_approve_row z st t_stamp t_expiry key table n r
                  _ Hb Hn Hid) Hid).
    reflexivity.
  - unfold Zoned.approve, Zoned.updateRegistrationStatus. rewrite Hb.
    apply Lifecycle.restore_row; assumption.
Qed.

(** X3: approving a registration without expiry date and then restoring it
    leaves it pending with no approval stamp but with the expiry date that
    the approval wrote (the approval's local date moved by the days of the
    category, 30 by default, read back as an instant): a restore does not
    undo the backfill.  Every other field is as before the approval.  When
    the date is outside the range of Date the approval writes nothing and
    the restore alone applies. *)
Theorem approve_then_restore_keeps_backfill
    (z : Zoned.Zone) (st : State) (t_stamp t_expiry : Z) (key : string)
    (table : list Registration) (n : nat) (r reg : Registration) :
  nth_error table n = Some r ->
  id r = key ->
  find (fun x => String.eqb (id x) key) (st_registrations st) = Some reg ->
  expiry_date reg = Js.TsNull \/ expiry_date reg = Js.TsUndefined ->
  let days :=
    match find (fun c => String.eqb (cat_id c) (category_id reg))
               (st_categories st) with
    | Some c => match expiry_days c with
                | Some d => if d =? 0 then 30 else d
                | None => 30
                end
    | None => 30
    end in
  let local := t_expiry + Zoned.tza_of_utc z t_expiry + days * 86400000 in
  let target := local - Zoned.tza_of_local z local in
  let restored (expiry : Js.tsval) : Registration :=
    {| id := id r;
       customer_id := customer_id r;
       full_name := full_name r;
       mobile_number := mobile_number r;
       address := address r;
       ward := ward r;
       agent := agent r;
       status := "pending";
       fee := fee r;
       created_at := created_at r;
       approved_date := None;
       approved_by := None;
       expiry_date := expiry;
       category_id := category_id r;
       preference_category_id := preference_category_id r;
       panchayath_id := panchayath_id r;
       categories := categories r;
       preference_categories := preference_categories r;
       panchayaths := panchayaths r |} in
  (Z.abs target <= 8640000000000000 ->
   nth_error
     (restoreRegistration true true key
        (Zoned.approve z true st t_stamp t_expiry key table)) n
   = Some (restored (Js.TsString target)))
  /\ (8640000000000000 < Z.abs target ->
      nth_error
        (restoreRegistration true true key
           (Zoned.approve z true st t_stamp t_expiry key table)) n
      = Some (restored (expiry_date r))).
Proof.
  intros Hn Hid Hc Hunset. cbv zeta.
  assert (Hu : Js.truthy (expiry_date reg) = false)
    by (destruct Hunset as [-> | ->]; reflexivity).
  pose proof (approve_then_restore_row z st t_stamp t_expiry key table n r reg
                Hn Hid Hc Hu) as H.
  rewrite Lifecycle.expiry_target_offsets in H.
  split.
  - intros Hin. apply Z.leb_le in Hin.
    etransitivity; [exact H|].
    change Zoned.MAX_TIME with 8640000000000000.
    change Js.MS_PER_DAY with 86400000.
    unfold category_of, js_find, expiryDays_of.
    rewrite Hin. reflexivity.
  - intros Hout. apply Z.leb_gt in Hout.
    etransitivity; [exact H|].
    change Zoned.MAX_TIME with 8640000000000000.
    change Js.MS_PER_DAY with 86400000.
    unfold category_of, js_find, expiryDays_of.
    rewrite Hout. reflexivity.
Qed.

(** X3, witness: the sample registration, approved in the zone of Indian
    Standard Time and restored. *)
Lemma approve_then_restore_keeps_backfill_witness :
  exists r',
    nth_error
      (restoreRegistration true true "r1"
         (Zoned.approve Samples.ist_zone true (Samples.tab [Samples.fresh])
                        Samples.clock Samples.clock "r1" [Samples.fresh])) 0
    = Some r'
    /\ status r' = "pending" /\ approved_date r' = None
    /\ expiry_date r' = Js.TsString (Samples.clock + 45 * Samples.day).
Proof.
  eexists. split.
  - refine (proj1 (approve_then_restore_keeps_backfill
                     Samples.ist_zone (Samples.tab [Samples.fresh])
                     Samples.clock Samples.clock "r1" [Samples.fresh] 0%nat
                     Samples.fresh Samples.fresh
                     eq_refl eq_refl eq_refl (or_introl eq_refl)) _).
    discriminate.
  - repeat split.
Defined.



(** X5: a status write or a restore for an id that no row of the table
    carries changes nothing, and neither does one that the backend
    refuses or a restore that the user does not confirm. *)
Theorem writes_without_effect
    (st : State) (t_stamp t_expiry : Z) (key s : string)
    (table : list Registration) :
  ((forall r, In r table -> id r <> key) ->
   forall ok confirm,
     updateRegistrationStatus ok st t_stamp t_expiry key s table = table
     /\ restoreRegistration confirm ok key table = table)
  /\ updateRegistrationStatus false st t_stamp t_expiry key s table = table
  /\ (forall confirm, restoreRegistration confirm false key table = table)
  /\ (forall ok, restoreRegistration false ok key table = table).
Proof.
  split; [|split; [|split]].
  - intros H ok confirm. unfold updateRegistrationStatus, restoreRegistration.
    rewrite supabase_update_unknown by exact H.
    destruct confirm; [rewrite supabase_update_unknown by exact H|]; auto.
  - reflexivity.
  - intros []; reflexivity.
  - reflexivity.
Qed.




(** The rows after two approvals from the same loaded list. *)
Lemma approve_twice_rows
    (z : Zoned.Zone) (st : State) (t_stamp t_expiry t_stamp' t_expiry' : Z)
    (key : string) (table : list Registration) (n : nat)
    (r reg : Registration) :
  nth_error table n = Some r ->
  id r = key ->
  cached st key = Some reg ->
  Js.truthy (expiry_date reg) = false ->
  Z.abs (Zoned.expiry_target z t_expiry (expiryDays_of (category_of st reg)))
  <= Zoned.MAX_TIME ->
  Z.abs (Zoned.expiry_target z t_expiry' (expiryDays_of (category_of st reg)))
  <= Zoned.MAX_TIME ->
  exists r' r'',
    nth_error (Zoned.approve z true st t_stamp t_expiry key table) n = Some r'
    /\ status r' = "approved"
    /\ approved_date r' = Some t_stamp
    /\ expiry_date r'
       = Js.TsString
           (Zoned.expiry_target z t_expiry (expiryDays_of (category_of st reg)))
    /\ nth_error
         (Zoned.approve z true st t_stamp' t_expiry' key
            (Zoned.approve z true st t_stamp t_expiry key table)) n = Some r''
    /\ status r'' = "approved"
    /\ approved_date r'' = Some t_stamp'
    /\ expiry_date r''
       = Js.TsString
           (Zoned.expiry_target z t_expiry'
              (expiryDays_of (category_of st reg))).
Proof.
  intros Hn Hid Hc Hunset Hin Hin'.
  pose proof (Lifecycle.zoned_build_approved z st t_stamp t_expiry key) as Hb.
  pose proof (Lifecycle.zoned_build_approved z st t_stamp' t_expiry' key) as Hb'.
  rewrite Hc, Hunset in Hb, Hb'.
  apply Z.leb_le in Hin, Hin'. rewrite Hin in Hb. rewrite Hin' in Hb'.
  pose proof (Lifecycle.zoned_approve_row z st t_stamp t_expiry key table n r
                _ Hb Hn Hid) as Hrow.
  eexists. eexists. split; [exact Hrow|].
  split; [reflexivity|]. split; [reflexivity|]. split; [reflexivity|].
  split; [eapply Lifecycle.zoned_approve_row; [exact Hb' | exact Hrow | exact Hid]|].
  repeat split.
Qed.

(** X21: the guard that keeps an existing expiry date reads the tab's
    loaded list, not the table.  A second approval issued before the list
    is reloaded stamps approved_date again and replaces the expiry date
    that the first approval wrote with one counted from the later clock. *)
Theorem approve_again_from_stale_list
    (z : Zoned.Zone) (st : State) (t_stamp t_expiry t_stamp' t_expiry' : Z)
    (key : string) (table : list Registration) (n : nat)
    (r reg : Registration) :
  nth_error table n = Some r ->
  id r = key ->
  find (fun x => String.eqb (id x) key) (st_registrations st) = Some reg ->
  expiry_date reg = Js.TsNull \/ expiry_date reg = Js.TsUndefined ->
  let days :=
    match find (fun c => String.eqb (cat_id c) (category_id reg))
               (st_categories st) with
    | Some c => match expiry_days c with
                | Some d => if d =? 0 then 30 else d
                | None => 30
                end
    | None => 30
    end in
  let local := t_expiry + Zoned.tza_of_utc z t_expiry + days * 86400000 in
  let target := local - Zoned.tza_of_local z local in
  let local' := t_expiry' + Zoned.tza_of_utc z t_expiry' + days * 86400000 in
  let target' := local' - Zoned.tza_of_local z local' in
  Z.abs target <= 8640000000000000 ->
  Z.abs target' <= 8640000000000000 ->
  exists r' r'',
    nth_error (Zoned.approve z true st t_stamp t_expiry key table) n = Some r'
    /\ status r' = "approved"
    /\ approved_date r' = Some t_stamp
    /\ expiry_date r' = Js.TsString target
    /\ nth_error
         (Zoned.approve z true st t_stamp' t_expiry' key
            (Zoned.approve z true st t_stamp t_expiry key table)) n = Some r''
    /\ status r'' = "approved"
    /\ approved_date r'' = Some t_stamp'
    /\ expiry_date r'' = Js.TsString target'.
Proof.
  intros Hn Hid Hc Hunset. cbv zeta. intros Hin Hin'.
  assert (Hu : Js.truthy (expiry_date reg) = false)
    by (destruct Hunset as [-> | ->]; reflexivity).
  exact (approve_twice_rows z st t_stamp t_expiry t_stamp' t_expiry' key table
           n r reg Hn Hid Hc Hu Hin Hin').
Qed.

(** X21, witness: two approvals of the sample registration, a day apart,
    from the same loaded list, in the zone of Indian Standard Time. *)
Lemma approve_again_from_stale_list_witness :
  exists r' r'',
    nth_error
      (Zoned.approve Samples.ist_zone true (Samples.tab [Samples.fresh])
                     Samples.clock Samples.clock "r1" [Samples.fresh]) 0
    = Some r'
    /\ expiry_date r' = Js.TsString (Samples.clock + 45 * Samples.day)
    /\ nth_error
         (Zoned.approve Samples.ist_zone true (Samples.tab [Samples.fresh])
            (Samples.clock + Samples.day) (Samples.clock + Samples.day) "r1"
            (Zoned.approve Samples.ist_zone true (Samples.tab [Samples.fresh])
                           Samples.clock Samples.clock "r1" [Samples.fresh])) 0
       = Some r''
    /\ expiry_date r'' = Js.TsString (Samples.clock + 46 * Samples.day).
Proof.
  destruct (approve_again_from_stale_list
              Samples.ist_zone (Samples.tab [Samples.fresh])
              Samples.clock Samples.clock
              (Samples.clock + Samples.day) (Samples.clock + Samples.day) "r1"
              [Samples.fresh] 0%nat Samples.fresh Samples.fresh
              eq_refl eq_refl eq_refl (or_introl eq_refl))
    as (r' & r'' & H1 & _ & _ & He1 & H2 & _ & _ & He2).
  - discriminate.
  - discriminate.
  - exists r', r''. split; [exact H1|]. split; [rewrite He1; reflexivity|].
    split; [exact H2|]. rewrite He2. reflexivity.
Defined.

End LifecycleOps.

(** ** The buttons of a row *)

Module RowActions.

Import RegistrationsTab.











(** X8: the "Important Dates" cell shows no expiry for a registration whose
    expiry_date is null or missing.  For one with an expiry date it shows
    the number of days d = ceil((expiry_date - now) / 1 day), never NaN,
    and colours the entry orange exactly when the expiry lies at most 30
    days after now, overdue entries included. *)
Theorem expiry_cell_shown (now : Z) (reg : Registration) :
  (expiry_cell now reg = None <-> Js.truthy (expiry_date reg) = false)
  /\ (forall e,
        expiry_date reg = Js.TsString e ->
        exists d,
          expiry_cell now reg = Some (d <=? 30, Js.Num d)
          /\ (d - 1) * Js.MS_PER_DAY < e - now <= d * Js.MS_PER_DAY
          /\ ((d <=? 30) = true <-> e <= now + 30 * Js.MS_PER_DAY)).
Proof.
  unfold expiry_cell. split.
  - destruct (Js.truthy (expiry_date reg)); split; intros; congruence.
  - intros e He. exists (Js.ceil_quot (e - now) Js.MS_PER_DAY).
    unfold daysLeft. rewrite He. simpl.
    split; [reflexivity|].
    split; [apply JsFacts.ceil_quot_spec; reflexivity|].
    rewrite Z.leb_le, JsFacts.ceil_quot_le by reflexivity.
    rewrite JsFacts.MS_PER_DAY_value. lia.
Qed.

(** The sum that picks the colour, on an ASCII name and on the UTF-8 bytes
    of U+0D15 (one code unit, 3349) and of U+1F600 (the surrogates 55357
    and 56832). *)
Lemma char_code_sum_examples :
  char_code_sum "Pension" = 732
  /\ char_code_sum (String (ascii_of_nat 224) (String (ascii_of_nat 180)
                      (String (ascii_of_nat 149) EmptyString))) = 3349
  /\ char_code_sum (String (ascii_of_nat 240) (String (ascii_of_nat 159)
                      (String (ascii_of_nat 152) (String (ascii_of_nat 128)
                         EmptyString)))) = 55357 + 56832.
Proof. repeat split. Qed.

Lemma colorIndex_range categoryName : 0 <= colorIndex categoryName < 6.
Proof.
  unfold colorIndex. apply Z.rem_bound_pos; [apply Z.abs_nonneg | lia].
Qed.

(** X9: getCategoryColor always returns a palette, never undefined: the
    yellow one for a name that contains "job card" in any letter case, and
    otherwise one of the six of the colors array; a row without a joined
    category gets the first, blue. *)
Theorem category_color_always_defined (categoryName : string) :
  (exists p,
     getCategoryColor categoryName = Some p
     /\ (p = job_card_palette \/ In p colors))
  /\ (Text.includes (Text.toLowerCase categoryName) "job card" = true ->
      getCategoryColor categoryName = Some job_card_palette)
  /\ (forall reg, categories reg = None -> row_color reg = Some (shade "blue")).
Proof.
  split; [|split].
  - unfold getCategoryColor.
    destruct (Text.includes _ _); [exists job_card_palette; auto|].
    pose proof (colorIndex_range categoryName) as Hr.
    destruct (nth_error colors (Z.to_nat (colorIndex categoryName)))
      as [p|] eqn:E.
    + exists p. split; [reflexivity|]. right. eapply nth_error_In, E.
    + apply nth_error_None in E. simpl in E. lia.
  - intros H. unfold getCategoryColor. rewrite H. reflexivity.
  - intros reg H. unfold row_color. rewrite H. reflexivity.
Qed.

End RowActions.

(** ** More on the filter of the tab *)

Module FilterFacts.

Import RegistrationsTab NotificationBell.

(** The expiry condition on a non-approved registration whose days left
    are a number. *)
Lemma matchesExpiry_numeric filterText N now reg d :
  filterText <> "" -> status reg <> "approved" ->
  Text.parseInt filterText = Js.Num N ->
  daysLeft now reg = Js.Num d ->
  matchesExpiry filterText now reg
  = if N =? 0 then d <=? 0 else ((d <=? N) && (0 <=? d))%bool.
Proof.
  intros Ht Hs Hp Hd. apply String.eqb_neq in Ht, Hs.
  unfold matchesExpiry. rewrite Ht, Hs, Hp, Hd. reflexivity.
Qed.

Lemma matchesExpiry_approved filterText now reg :
  filterText <> "" -> status reg = "approved" ->
  matchesExpiry filterText now reg = false.
Proof.
  intros Ht Hs. apply String.eqb_neq in Ht.
  unfold matchesExpiry. rewrite Ht, Hs. reflexivity.
Qed.

(** X10: with no search text, the three selectors on "all" and the expiry
    field empty, the tab lists every registration it has loaded.  As soon
    as the expiry field is filled, no approved registration is listed, so
    together with the status selector on "approved" the list is empty.
    The list never holds a registration that is not loaded. *)
Theorem filter_combinations (st : RegistrationsTab.State) (now : Z) :
  (searchQuery st = "" -> statusFilter st = "all" ->
   categoryFilter st = "all" -> panchayathFilter st = "all" ->
   expiryFilter st = "" ->
   filteredRegistrations st now = st_registrations st)
  /\ (expiryFilter st <> "" ->
      forall r, In r (filteredRegistrations st now) -> status r <> "approved")
  /\ (expiryFilter st <> "" -> statusFilter st = "approved" ->
      filteredRegistrations st now = [])
  /\ (forall r, In r (filteredRegistrations st now) ->
                In r (st_registrations st)).
Proof.
  assert (Hhide : expiryFilter st <> "" ->
            forall r, In r (filteredRegistrations st now) ->
                      status r <> "approved").
  { intros Hf r Hr Hs.
    apply Expiry.filteredRegistrations_sound in Hr as [_ Hr].
    rewrite matchesExpiry_approved in Hr by assumption. discriminate. }
  split; [|split; [exact Hhide|split]].
  - intros Hq Hs Hc Hp He.
    rewrite Expiry.filteredRegistrations_expiry_only by assumption.
    apply LifecycleOps.filter_keeps_all. intros r _.
    unfold matchesExpiry. rewrite He. reflexivity.
  - intros Hf Hs.
    assert (Hnone : forall r, ~ In r (filteredRegistrations st now)).
    { intros r Hr. apply (Hhide Hf r Hr).
      unfold filteredRegistrations, matches in Hr.
      apply filter_In in Hr as [_ Hr]. rewrite Hs in Hr. simpl in Hr.
      apply andb_true_iff in Hr as [Hr _]. apply andb_true_iff in Hr as [Hr _].
      apply andb_true_iff in Hr as [Hr _]. apply andb_true_iff in Hr as [_ Hr].
      apply String.eqb_eq, Hr. }
    destruct (filteredRegistrations st now) as [|r rest]; [reflexivity|].
    exfalso. apply (Hnone r). left. reflexivity.
  - intros r Hr. apply Expiry.filteredRegistrations_sound in Hr. apply Hr.
Qed.

(** X11: in terms of instants, a threshold N > 0 of the expiry field
    matches a non-approved registration exactly when its expiry date lies
    after now - 24 h and at most N days after now (a registration that
    expired within the last 24 hours has 0 days left and still matches);
    the threshold 0 matches exactly when the expiry date is now or
    earlier. *)
Theorem expiry_filter_window
    (filterText : string) (N now e : Z) (reg : Registration) :
  filterText <> "" ->
  Text.parseInt filterText = Js.Num N ->
  0 <= N ->
  status reg <> "approved" ->
  expiry_date reg = Js.TsString e ->
  (0 < N ->
   (matchesExpiry filterText now reg = true
    <-> now - Js.MS_PER_DAY < e <= now + N * Js.MS_PER_DAY))
  /\ (N = 0 -> (matchesExpiry filterText now reg = true <-> e <= now)).
Proof.
  intros Ht Hp HN Hs He.
  assert (Hd : daysLeft now reg
               = Js.Num (Js.ceil_quot (e - now) Js.MS_PER_DAY))
    by (unfold daysLeft; rewrite He; reflexivity).
  rewrite (matchesExpiry_numeric filterText N now reg _ Ht Hs Hp Hd).
  assert (Hpos : 0 < Js.MS_PER_DAY) by reflexivity.
  pose proof (JsFacts.ceil_quot_le (e - now) Js.MS_PER_DAY N Hpos) as HleN.
  pose proof (JsFacts.ceil_quot_le (e - now) Js.MS_PER_DAY 0 Hpos) as Hle0.
  pose proof (JsFacts.ceil_quot_gt (e - now) Js.MS_PER_DAY (-1) Hpos) as Hgt.
  split.
  - intros HposN. destruct (Z.eqb_spec N 0) as [->|_]; [lia|].
    rewrite andb_true_iff, !Z.leb_le. lia.
  - intros ->. simpl. rewrite Z.leb_le. lia.
Qed.

(** X11, witness: a registration that expired twelve hours ago still
    matches the threshold 5. *)
Lemma expiry_filter_window_witness :
  let reg := Samples.registration "r6" "Farah" "pending" 0
               (Js.TsString (Samples.clock - 43200000)) in
  matchesExpiry "5" Samples.clock reg = true.
Proof.
  intros reg.
  refine (proj2 (proj1 (expiry_filter_window "5" 5 Samples.clock
                          (Samples.clock - 43200000) reg _ eq_refl _ _ eq_refl)
                       _) _).
  - discriminate.
  - lia.
  - discriminate.
  - lia.
  - rewrite JsFacts.MS_PER_DAY_value. lia.
Defined.

(** X12: among the positive thresholds the expiry filter grows with the
    threshold: what matches N matches every M >= N.  The threshold 0 is
    apart: a registration with a negative number of days left matches 0
    and no positive threshold. *)
Theorem expiry_filter_thresholds_compare
    (textN textM text0 : string) (N M now : Z) (reg : Registration) :
  Text.parseInt textN = Js.Num N ->
  Text.parseInt textM = Js.Num M ->
  Text.parseInt text0 = Js.Num 0 ->
  textN <> "" -> textM <> "" -> text0 <> "" ->
  0 < N <= M ->
  (matchesExpiry textN now reg = true -> matchesExpiry textM now reg = true)
  /\ (forall d,
        status reg <> "approved" -> daysLeft now reg = Js.Num d -> d < 0 ->
        matchesExpiry text0 now reg = true
        /\ matchesExpiry textN now reg = false).
Proof.
  intros HpN HpM Hp0 HtN HtM Ht0 HNM. split.
  - destruct (String.eqb_spec (status reg) "approved") as [Hs | Hs].
    + rewrite matchesExpiry_approved by assumption. discriminate.
    + destruct (daysLeft now reg) as [|d] eqn:Hd.
      * apply String.eqb_neq in HtN, Hs. unfold matchesExpiry.
        rewrite HtN, Hs, HpN, Hd. cbn [Js.strict_eq].
        destruct (N =? 0); discriminate.
      * rewrite (matchesExpiry_numeric textN N now reg d HtN Hs HpN Hd).
        rewrite (matchesExpiry_numeric textM M now reg d HtM Hs HpM Hd).
        destruct (Z.eqb_spec N 0); [lia|]. destruct (Z.eqb_spec M 0); [lia|].
        rewrite !andb_true_iff, !Z.leb_le. lia.
  - intros d Hs Hd Hneg.
    rewrite (matchesExpiry_numeric text0 0 now reg d Ht0 Hs Hp0 Hd).
    rewrite (matchesExpiry_numeric textN N now reg d HtN Hs HpN Hd).
    destruct (Z.eqb_spec N 0); [lia|]. simpl. split.
    + apply Z.leb_le. lia.
    + apply andb_false_iff. right. apply Z.leb_gt. lia.
Qed.

(** X12, witness: five days overdue matches the threshold 0 and not the
    threshold 5. *)
Lemma expiry_filter_thresholds_compare_witness :
  let reg := Samples.registration "r7" "Gita" "pending" 0
               (Js.TsString (Samples.clock - 5 * Samples.day)) in
  matchesExpiry "0" Samples.clock reg = true
  /\ matchesExpiry "5" Samples.clock reg = false.
Proof.
  intros reg.
  refine (proj2 (expiry_filter_thresholds_compare "5" "30" "0" 5 30
                   Samples.clock reg eq_refl eq_refl eq_refl _ _ _ _)
                (-5) _ eq_refl _); try discriminate; lia.
Defined.

(** X13: the tab and the notification widget agree on the pending
    registrations.  At the same instant, the widget lists a pending
    registration as expired exactly when the threshold 0 of the tab matches
    it, and the threshold 3 of the tab matches it exactly when the widget
    lists it as expiring soon or it has 0 days left. *)
Theorem widget_and_filter_agree
    (text0 text3 : string) (now : Z) (table : list Registration)
    (r : Registration) :
  Text.parseInt text0 = Js.Num 0 ->
  Text.parseInt text3 = Js.Num 3 ->
  text0 <> "" -> text3 <> "" ->
  In r table ->
  status r = "pending" ->
  (In (process now r) (expired_of now (query_pending table))
   <-> matchesExpiry text0 now r = true)
  /\ (matchesExpiry text3 now r = true
      <-> In (process now r) (expiring_of now (query_pending table))
          \/ days_remaining (process now r) = Js.Num 0).
Proof.
  intros Hp0 Hp3 Ht0 Ht3 Hin Hst.
  assert (Hs : status r <> "approved") by (rewrite Hst; discriminate).
  assert (Hq : exists r', In r' (query_pending table)
                          /\ process now r = process now r')
    by (exists r; split; [apply Expiry.in_query_pending; auto | reflexivity]).
  rewrite Expiry.in_expired_of, Expiry.in_expiring_of.
  rewrite Expiry.is_expired_iff, Expiry.is_expiring_iff.
  assert (Hsame : days_remaining (process now r) = daysLeft now r)
    by reflexivity.
  rewrite Hsame.
  destruct (daysLeft now r) as [|d] eqn:Hd.
  - apply String.eqb_neq in Ht0 as Hb0. apply String.eqb_neq in Ht3 as Hb3.
    apply String.eqb_neq in Hs as Hbs.
    unfold matchesExpiry. rewrite Hb0, Hb3, Hbs, Hp0, Hp3, Hd.
    cbn [Js.strict_eq Js.le Js.ge andb]. simpl (0 =? 0). simpl (3 =? 0).
    cbv iota.
    split; split; try discriminate.
    + intros [_ (d & H & _)]. discriminate.
    + intros [[_ (d & H & _)] | H]; discriminate.
  - rewrite (matchesExpiry_numeric text0 0 now r d Ht0 Hs Hp0 Hd).
    rewrite (matchesExpiry_numeric text3 3 now r d Ht3 Hs Hp3 Hd).
    simpl (0 =? 0). simpl (3 =? 0). cbv iota.
    rewrite andb_true_iff, !Z.leb_le. split; split.
    + intros [_ (d' & H & Hle)]. injection H as <-. exact Hle.
    + intros Hle. split; [exact Hq | exists d; auto].
    + intros [H1 H2]. destruct (Z.eq_dec d 0) as [-> | Hne]; [right; reflexivity|].
      left. split; [exact Hq|]. exists d. split; [reflexivity | lia].
    + intros [[_ (d' & H & Hle)] | H];
        [injection H as <-; lia | injection H as ->; lia].
Qed.

(** X13, witness: a pending registration two days from expiry. *)
Lemma widget_and_filter_agree_witness :
  let reg := Samples.registration "r8" "Hari" "pending" 0
               (Js.TsString (Samples.clock + 2 * Samples.day)) in
  matchesExpiry "3" Samples.clock reg = true
  <-> In (process Samples.clock reg)
         (expiring_of Samples.clock (query_pending [reg]))
      \/ days_remaining (process Samples.clock reg) = Js.Num 0.
Proof.
  intros reg.
  refine (proj2 (widget_and_filter_agree "0" "3" Samples.clock [reg] reg
                   eq_refl eq_refl _ _ _ eq_refl)).
  - discriminate.
  - discriminate.
  - left. reflexivity.
Defined.

End FilterFacts.

(** ** More on the notification widget *)

Module BellFacts.

Import NotificationBell.

Lemma StronglySorted_app_between {A : Type} (R : A -> A -> Prop) (l1 l2 : list A) :
  StronglySorted R l1 -> StronglySorted R l2 ->
  (forall x y, In x l1 -> In y l2 -> R x y) ->
  StronglySorted R (l1 ++ l2).
Proof.
  intros H1 H2 Hcross. induction H1 as [|x rest Hrest IH Hx]; simpl; [exact H2|].
  constructor.
  - apply IH. intros a b Ha Hb. apply Hcross; [right; exact Ha | exact Hb].
  - apply Forall_app. split; [exact Hx|].
    apply Forall_forall. intros y Hy. apply Hcross; [left; reflexivity | exact Hy].
Qed.

Lemma disjoint_filters_length {A : Type} (p q : A -> bool) (l : list A) :
  (forall x, p x = true -> q x = false) ->
  (List.length (filter p l) + List.length (filter q l) <= List.length l)%nat.
Proof.
  intros H. induction l as [|x rest IH]; simpl; [lia|].
  destruct (p x) eqn:Ep.
  - rewrite (H x Ep). simpl. lia.
  - destruct (q x); simpl; lia.
Qed.

Lemma expired_not_expiring x : is_expired x = true -> is_expiring x = false.
Proof.
  intros H. apply Expiry.is_expired_iff in H as (d & Hd & Hle).
  destruct (is_expiring x) eqn:E; [|reflexivity].
  apply Expiry.is_expiring_iff in E as (d' & Hd' & Hr).
  rewrite Hd in Hd'. injection Hd' as <-. lia.
Qed.

(** X14: after a fetch, the list handed to the alert is in ascending order
    of days_remaining as a whole (every expired entry before every entry
    expiring soon), no entry is in both lists, and the two counts together
    never exceed the number of pending registrations. *)
Theorem alert_list_sorted_and_bounded
    (table : list Registration) (now : Z) (s : State) :
  let s' := fetchExpiringRegistrations true table now s in
  StronglySorted days_le (alert_registrations s')
  /\ (forall x, In x (expiredRegistrations s') ->
                ~ In x (expiringRegistrations s'))
  /\ (expired_count s' + expiring_count s'
      <= List.length (query_pending table))%nat
  /\ (List.length (query_pending table) <= List.length table)%nat.
Proof.
  cbv zeta.
  cbn [fetchExpiringRegistrations with_loading with_lists alert_registrations
       expired_count expiring_count expiredRegistrations expiringRegistrations].
  split; [|split; [|split]].
  - apply StronglySorted_app_between.
    + apply Expiry.js_sort_sorted, Expiry.filter_numeric, Expiry.expired_numeric.
    + apply Expiry.js_sort_sorted, Expiry.filter_numeric, Expiry.expiring_numeric.
    + intros x y Hx Hy.
      apply Expiry.in_expired_of in Hx as [_ Hx].
      apply Expiry.in_expiring_of in Hy as [_ Hy].
      apply Expiry.is_expired_iff in Hx as (dx & Hdx & Hlx).
      apply Expiry.is_expiring_iff in Hy as (dy & Hdy & Hly).
      exists dx, dy. repeat split; trivial. lia.
  - intros x Hx Hy.
    apply Expiry.in_expired_of in Hx as [_ Hx].
    apply Expiry.in_expiring_of in Hy as [_ Hy].
    rewrite (expired_not_expiring x Hx) in Hy. discriminate.
  - unfold expired_count, expiring_count.
    cbn [fetchExpiringRegistrations with_loading with_lists
         expiredRegistrations expiringRegistrations].
    unfold expired_of, expiring_of.
    rewrite (Permutation_length (Expiry.js_sort_perm compare_days _)).
    rewrite (Permutation_length (Expiry.js_sort_perm compare_days _)).
    rewrite <- (length_map (process now) (query_pending table)).
    apply disjoint_filters_length, expired_not_expiring.
  - apply LifecycleOps.filter_length_le.
Qed.

Lemma ceil_quot_monotone a b m :
  0 < m -> a <= b -> Js.ceil_quot a m <= Js.ceil_quot b m.
Proof.
  intros Hm Hab. apply JsFacts.ceil_quot_le; [exact Hm|].
  pose proof (JsFacts.ceil_quot_spec b m Hm). lia.
Qed.

(** The days remaining at two instants, for the three kinds of expiry
    value. *)
Lemma days_remaining_later now now' reg :
  now <= now' ->
  days_remaining (process now reg) = Js.NaN
  /\ days_remaining (process now' reg) = Js.NaN
  \/ exists d d', days_remaining (process now reg) = Js.Num d
                  /\ days_remaining (process now' reg) = Js.Num d'
                  /\ d' <= d.
Proof.
  intros Hle. unfold process. simpl.
  destruct (expiry_date reg) as [| |e]; simpl.
  - left. auto.
  - right. eexists _, _. split; [reflexivity|]. split; [reflexivity|].
    apply ceil_quot_monotone; [reflexivity | lia].
  - right. eexists _, _. split; [reflexivity|]. split; [reflexivity|].
    apply ceil_quot_monotone; [reflexivity | lia].
Qed.

(** X15: time only moves a registration towards expiry.  With the same
    expiry date, days_remaining at a later instant is never larger; a
    registration classified as expired stays expired, and one expiring
    soon is later expiring soon or expired, never back to normal. *)
Theorem classification_only_gets_worse (now now' : Z) (reg : Registration) :
  now <= now' ->
  (forall d d',
     days_remaining (process now reg) = Js.Num d ->
     days_remaining (process now' reg) = Js.Num d' -> d' <= d)
  /\ (is_expired (process now reg) = true ->
      is_expired (process now' reg) = true)
  /\ (is_expiring (process now reg) = true ->
      is_expiring (process now' reg) = true
      \/ is_expired (process now' reg) = true).
Proof.
  intros Hle.
  destruct (days_remaining_later now now' reg Hle)
    as [[H1 H2] | (d & d' & H1 & H2 & Hdd)].
  - split; [intros x y Hx; rewrite H1 in Hx; discriminate|].
    split; intros H;
      [apply Expiry.is_expired_iff in H | apply Expiry.is_expiring_iff in H];
      destruct H as (x & Hx & _); rewrite H1 in Hx; discriminate.
  - split; [|split].
    + intros x y Hx Hy. rewrite H1 in Hx. rewrite H2 in Hy.
      injection Hx as <-. injection Hy as <-. exact Hdd.
    + intros H. apply Expiry.is_expired_iff in H as (x & Hx & Hl).
      rewrite H1 in Hx. injection Hx as <-.
      apply Expiry.is_expired_iff. exists d'. split; [exact H2 | lia].
    + intros H. apply Expiry.is_expiring_iff in H as (x & Hx & Hl).
      rewrite H1 in Hx. injection Hx as <-.
      destruct (Z_le_gt_dec d' 0) as [Hz | Hz].
      * right. apply Expiry.is_expired_iff. exists d'. auto.
      * left. apply Expiry.is_expiring_iff. exists d'. split; [exact H2 | lia].
Qed.

(** X15, witness: a registration expiring in two days is expired three
    days later. *)
Lemma classification_only_gets_worse_witness :
  let reg := Samples.registration "r8" "Hari" "pending" 0
               (Js.TsString (Samples.clock + 2 * Samples.day)) in
  is_expiring (process Samples.clock reg) = true
  /\ (is_expiring (process (Samples.clock + 3 * Samples.day) reg) = true
      \/ is_expired (process (Samples.clock + 3 * Samples.day) reg) = true).
Proof.
  intros reg. split; [reflexivity|].
  refine (proj2 (proj2 (classification_only_gets_worse Samples.clock
                          (Samples.clock + 3 * Samples.day) reg _)) eq_refl).
  unfold Samples.day. rewrite JsFacts.MS_PER_DAY_value. lia.
Defined.

Lemma empty_lists_no_auto_show s :
  expiredRegistrations s = [] -> expiringRegistrations s = [] ->
  should_auto_show s = false.
Proof. intros H1 H2. unfold should_auto_show. rewrite H1, H2. reflexivity. Qed.

(** X16: while both lists are empty the widget never opens the alert by
    itself.  In every state it reaches with both lists empty and the alert
    closed, no timer is pending, and neither a click on a bell, nor a timer
    callback, nor a fetch, opens the alert; only the dialog's own request
    can. *)
Theorem alert_stays_closed_on_empty_lists
    (evs : list (Z * Event)) (t : Z) (e : Event) :
  expiredRegistrations (run evs initial) = [] ->
  expiringRegistrations (run evs initial) = [] ->
  showAlert (run evs initial) = false ->
  timer (run evs initial) = None
  /\ (e <> OpenChange true -> showAlert (step t e (run evs initial)) = false).
Proof.
  intros H1 H2 Hclosed.
  assert (Ht : timer (run evs initial) = None).
  { destruct (AutoShow.timer_invariant_run evs initial
                AutoShow.timer_invariant_initial) as [H | [H _]]; [exact H|].
    rewrite empty_lists_no_auto_show in H by assumption. discriminate. }
  split; [exact Ht|]. intros He.
  destruct (showAlert (step t e (run evs initial))) eqn:E; [|reflexivity].
  destruct (AutoShow.step_opens_without_timer t e _ Ht Hclosed E) as [-> | ->].
  - unfold step, handleNotificationClick in E.
    rewrite H1, H2 in E. simpl in E.
    destruct (mounted (run evs initial)), (loading (run evs initial));
      simpl in E; congruence.
  - contradiction He. reflexivity.
Qed.

(** X16, witness: after a fetch that finds nothing, a click on a bell
    opens nothing. *)
Lemma alert_stays_closed_on_empty_lists_witness :
  showAlert
    (step (Samples.clock + 5) BellClick
          (run [(Samples.clock, FetchEnds true [])] initial)) = false.
Proof.
  refine (proj2 (alert_stays_closed_on_empty_lists
                   [(Samples.clock, FetchEnds true [])] (Samples.clock + 5)
                   BellClick eq_refl eq_refl eq_refl) _).
  discriminate.
Defined.

Lemma deps_eqb_refl d : deps_eqb d d = true.
Proof. apply AutoShow.deps_eqb_eq. reflexivity. Qed.

(** X17: a fetch that the backend answers with an error changes nothing
    but the loading flag: the two lists and their counts, the open alert,
    the acknowledgment and a pending timer all stay as they were. *)
Theorem failed_fetch_keeps_state (t : Z) (table : list Registration) (s : State) :
  step t (FetchEnds false table) s
  = (if mounted s then with_loading false s else s)
  /\ alert_registrations (step t (FetchEnds false table) s)
     = alert_registrations s
  /\ timer (step t (FetchEnds false table) s) = timer s
  /\ showAlert (step t (FetchEnds false table) s) = showAlert s
  /\ acknowledged (step t (FetchEnds false table) s) = acknowledged s.
Proof.
  assert (H : step t (FetchEnds false table) s
              = (if mounted s then with_loading false s else s)).
  { unfold step. destruct (mounted s); cbn [negb]; [|reflexivity].
    unfold run_effect, fetchExpiringRegistrations.
    change (deps (with_loading false s)) with (deps s).
    rewrite deps_eqb_refl. reflexivity. }
  rewrite H. destruct (mounted s); repeat split.
Qed.

End BellFacts.

(** ** More on the transfer request form *)

Module TransferFacts.

Import CategoryTransferRequest.

Lemma step_appends registration e st :
  exists added,
    snd (step registration e st) = (snd st ++ added)%list
    /\ (List.length added <= accepted_submissions [e])%nat
    /\ Forall (fun q => q = request_of registration (fst st)) added.
Proof.
  assert (Hnone : forall (table : list TransferRequest) k,
            exists added,
              table = (table ++ added)%list /\ (List.length added <= k)%nat
              /\ Forall (fun q => q = request_of registration (fst st)) added).
  { intros table k. exists []. split; [symmetry; apply app_nil_r|].
    split; [simpl; lia | constructor]. }
  destruct st as [s table]. destruct e; simpl; try apply Hnone.
  unfold handleSubmitTransferRequest.
  destruct (String.eqb (selectedCategoryId s) ""); [apply Hnone|].
  destruct ok; simpl; [|apply Hnone].
  exists [request_of registration s]. split; [reflexivity|].
  split; [simpl; lia|]. constructor; [reflexivity | constructor].
Qed.

Lemma accepted_submissions_cons e evs :
  accepted_submissions (e :: evs)
  = (accepted_submissions [e] + accepted_submissions evs)%nat.
Proof. destruct e as [| | | |[]]; reflexivity. Qed.

(** X18: the form only ever appends to the table of transfer requests.
    Over any run, the requests that were there stay, in their order and
    unchanged, and at most one request is added for each submission that
    the backend accepted. *)
Theorem form_only_appends
    (registration : Registration) (evs : list Event)
    (st : State * list TransferRequest) :
  exists added,
    snd (run registration evs st) = (snd st ++ added)%list
    /\ (List.length added <= accepted_submissions evs)%nat.
Proof.
  revert st. induction evs as [|e rest IH]; intros st.
  - exists []. simpl. rewrite app_nil_r. split; [reflexivity | lia].
  - destruct (step_appends registration e st) as (a1 & H1 & L1 & _).
    destruct (IH (step registration e st)) as (a2 & H2 & L2).
    exists (a1 ++ a2)%list. split.
    + simpl. rewrite H2, H1, app_assoc. reflexivity.
    + rewrite accepted_submissions_cons, length_app. lia.
Qed.

(** X19: a submission that succeeded clears the form, so a second click
    on submit inserts nothing; a submission that the backend refused keeps
    the selection and the reason, so the same request goes in on a retry
    that succeeds. *)
Theorem submit_twice
    (registration : Registration) (s : State) (table : list TransferRequest) :
  selectedCategoryId s <> "" ->
  (forall ok,
     let after := handleSubmitTransferRequest true registration s table in
     handleSubmitTransferRequest ok registration (fst after) (snd after) = after)
  /\ snd (handleSubmitTransferRequest true registration s table)
     = (table ++ [request_of registration s])%list
  /\ (let after := handleSubmitTransferRequest false registration s table in
      after = (s, table)
      /\ snd (handleSubmitTransferRequest true registration (fst after) (snd after))
         = (table ++ [request_of registration s])%list).
Proof.
  intros Hsel. apply String.eqb_neq in Hsel.
  unfold handleSubmitTransferRequest. rewrite Hsel. simpl.
  rewrite Hsel. repeat split.
Qed.

(** X19, witness: a form with [cat-2] selected on a table that is empty. *)
Lemma submit_twice_witness :
  let s := {| offered := [Samples.pension]; selectedCategoryId := "cat-2";
              reasonText := ""; showForm := true |} in
  List.length
    (snd (handleSubmitTransferRequest true Samples.fresh
            (fst (handleSubmitTransferRequest true Samples.fresh s []))
            (snd (handleSubmitTransferRequest true Samples.fresh s []))))
  = 1%nat.
Proof.
  intros s.
  assert (Hsel : selectedCategoryId s <> "") by discriminate.
  rewrite (proj1 (submit_twice Samples.fresh s [] Hsel) true).
  reflexivity.
Defined.

End TransferFacts.

(** ** More on the CSV export *)

Module ExportFacts.

Import RegistrationsTab.

(** X20: the file of an export of registrations whose name, panchayath and
    category hold no double quote, and whose mobile number holds no double
    quote, comma or line break, reads back (records separated by line
    feeds, a line feed inside quotes being data) as the record of the six
    headers followed by one record for each registration, in order, holding
    the six values that went in: commas and line breaks inside the quoted
    name included. *)
Theorem export_reads_back (tz now : Z) (rows : list Registration) :
  Forall Csv.exportable rows ->
  Csv.parse_file (snd (handleExportRegistrations tz now rows))
  = Some
      (["Name"; "Mobile Number"; "Panchayath"; "Category"; "Registered Date";
        "Expiry Date"]
       :: map (fun reg =>
                 [ full_name reg;
                   mobile_number reg;
                   match panchayaths reg with
                   | Some p => if String.eqb (name p) "" then "N/A" else name p
                   | None => "N/A"
                   end;
                   match categories reg with
                   | Some c =>
                       if String.eqb (name_english c) "" then "N/A"
                       else name_english c
                   | None => "N/A"
                   end;
                   Calendar.format_ddMMyyyy tz (created_at reg);
                   match expiry_date reg with
                   | Js.TsString t => Calendar.format_ddMMyyyy tz t
                   | Js.TsNull | Js.TsUndefined => "N/A"
                   end ]) rows).
Proof.
  intros Hall.
  assert (Hvalues :
            map (fun reg =>
                   [ full_name reg;
                     mobile_number reg;
                     match panchayaths reg with
                     | Some p => if String.eqb (name p) "" then "N/A" else name p
                     | None => "N/A"
                     end;
                     match categories reg with
                     | Some c =>
                         if String.eqb (name_english c) "" then "N/A"
                         else name_english c
                     | None => "N/A"
                     end;
                     Calendar.format_ddMMyyyy tz (created_at reg);
                     match expiry_date reg with
                     | Js.TsString t => Calendar.format_ddMMyyyy tz t
                     | Js.TsNull | Js.TsUndefined => "N/A"
                     end ]) rows
            = map (Csv.expected_values tz) rows).
  { apply map_ext. intros reg. unfold Csv.expected_values.
    destruct (panchayaths reg), (categories reg); reflexivity. }
  rewrite Hvalues.
  cbn [handleExportRegistrations snd]. unfold csvData.
  destruct rows as [|reg rows].
  - exact (proj2 CsvExport.file_header).
  - change (Text.join Text.lf
              (Text.join "," headers :: map (csv_line tz) (reg :: rows)))
      with (Text.join "," headers
            ++ String Csv.linefeed
                 (Text.join Text.lf (map (csv_line tz) (reg :: rows))))%string.
    unfold Csv.parse_file.
    rewrite (proj1 CsvExport.file_header).
    rewrite CsvExport.file_lines by exact Hall. reflexivity.
Qed.

(** X20, witness: two registrations, the first with a comma and a line
    feed in its name. *)
Lemma export_reads_back_witness :
  Csv.parse_file
    (snd (handleExportRegistrations Samples.ist Samples.clock
            [ Samples.registration "r2" ("Binu, P" ++ Text.lf ++ "Kollam")
                "pending" (Samples.clock - 300 * Samples.day) Js.TsNull;
              Samples.registration "r1" "Anu K" "approved" Samples.clock
                (Js.TsString (Samples.clock + 45 * Samples.day)) ]))
  = Some
      [ ["Name"; "Mobile Number"; "Panchayath"; "Category"; "Registered Date";
         "Expiry Date"];
        ["Binu, P" ++ Text.lf ++ "Kollam"; "9000000001"; "N/A"; "Job Card";
         "06/01/2025"; "N/A"];
        ["Anu K"; "9000000001"; "N/A"; "Job Card"; "02/11/2025"; "17/12/2025"] ].
Proof.
  refine (export_reads_back Samples.ist Samples.clock _ _).
  repeat constructor.
Defined.

(** A mobile number with a line feed in it is outside the texts that the
    export can carry: the file reads back with the registration's record
    cut in two. *)
Lemma export_breaks_on_line_feed :
  Csv.parse_file
    (snd (handleExportRegistrations Samples.ist Samples.clock
            [Samples.broken_number]))
  = Some
      [ ["Name"; "Mobile Number"; "Panchayath"; "Category"; "Registered Date";
         "Expiry Date"];
        ["Gita"; "90000"];
        ["00007"; "N/A"; "N/A"; "02/11/2025"; "N/A"] ].
Proof. reflexivity. Qed.

End ExportFacts.
